(** * amplog: the recursive directory compilation engine

    A shallow embedding of [ContentGenerator] (the content generator of the
    static site builder) and of the library functions it calls, followed by
    the properties of the engine.

    Text is modelled as [string] (code units below 256); a JavaScript object
    used as a mapping is a [gmap string value]; objects that the code shares
    by reference (configurations, page configurations) live in a store
    indexed by allocation order. *)

From Stdlib Require Import Ascii String.
From stdpp Require Import gmap strings list.

(** ** JavaScript string primitives used by the generator *)

Module JS.

Fixpoint take (n : nat) (s : string) : string :=
  match n, s with
  | S n', String c s' => String c (take n' s')
  | _, _ => ""
  end.

Fixpoint skip (n : nat) (s : string) : string :=
  match n, s with
  | S n', String _ s' => skip n' s'
  | _, _ => s
  end.

(** [s.substr(1)], [s.substr(0, n)] and [s.substring(a, b)] for [a <= b]. *)
Definition substr_from (n : nat) (s : string) : string := skip n s.
Definition substr (start len : nat) (s : string) : string := take len (skip start s).
Definition substring (a b : nat) (s : string) : string := take (b - a) (skip a s).

(** [s.startsWith(p)] *)
Fixpoint startsWith (p s : string) : bool :=
  match p, s with
  | "", _ => true
  | String a p', String b s' => if Ascii.eqb a b then startsWith p' s' else false
  | _, "" => false
  end.

(** [s.indexOf(p)]: offset of the leftmost occurrence. *)
Fixpoint indexOf (p s : string) : option nat :=
  if startsWith p s then Some 0
  else match s with
       | "" => None
       | String _ s' => S <$> indexOf p s'
       end.

(** [s.indexOf(p, from)] *)
Definition indexOf_from (p : string) (from : nat) (s : string) : option nat :=
  (fun i => from + i) <$> indexOf p (skip from s).

(** [s.lastIndexOf(String c "")] *)
Fixpoint lastIndexOf_char (c : ascii) (s : string) : option nat :=
  match s with
  | "" => None
  | String a s' =>
      match lastIndexOf_char c s' with
      | Some i => Some (S i)
      | None => if Ascii.eqb a c then Some 0 else None
      end
  end.

(** [s.split(String c "")] *)
Fixpoint split (c : ascii) (s : string) : list string :=
  match s with
  | "" => [""]
  | String a s' =>
      if Ascii.eqb a c then "" :: split c s'
      else match split c s' with
           | seg :: segs => String a seg :: segs
           | [] => [String a ""]
           end
  end.

(** [segs.join(sep)] *)
Fixpoint join (sep : string) (segs : list string) : string :=
  match segs with
  | [] => ""
  | [x] => x
  | x :: rest => x +:+ sep +:+ join sep rest
  end.

(** The replacement text of [String.prototype.replace] with a string
    pattern: [$$], [$&], [$`] and [$'] are expanded, every other character
    is copied ([before], [matched], [after] are the parts of the subject). *)
Fixpoint getSubstitution (before matched after repl : string) : string :=
  match repl with
  | "" => ""
  | String c r =>
      let copy := String c (getSubstitution before matched after r) in
      if Ascii.eqb c "$" then
        match r with
        | String c' r' =>
            if Ascii.eqb c' "$" then String "$" (getSubstitution before matched after r')
            else if Ascii.eqb c' "&" then matched +:+ getSubstitution before matched after r'
            else if Ascii.eqb c' "`" then before +:+ getSubstitution before matched after r'
            else if Ascii.eqb c' "'" then after +:+ getSubstitution before matched after r'
            else copy
        | "" => copy
        end
      else copy
  end.

(** [s.replace(pat, repl)] with a string pattern: the leftmost occurrence
    only; [s] itself when there is none. *)
Definition replace_str (pat repl s : string) : string :=
  match indexOf pat s with
  | None => s
  | Some i =>
      let before := take i s in
      let after := skip (i + String.length pat) s in
      before +:+ getSubstitution before pat after repl +:+ after
  end.

(** [s.replace(/^\//, "")] *)
Definition strip_leading_slash (s : string) : string :=
  match s with
  | String c s' => if Ascii.eqb c "/" then s' else s
  | "" => s
  end.

(** Character classes of the regular expressions of the source. *)
Definition is_digit (c : ascii) : bool :=
  let n := nat_of_ascii c in ((48 <=? n) && (n <=? 57))%nat.

Definition is_word (c : ascii) : bool :=
  let n := nat_of_ascii c in
  (((48 <=? n) && (n <=? 57)) || ((65 <=? n) && (n <=? 90))
   || ((97 <=? n) && (n <=? 122)) || (n =? 95))%nat.

(** [.] matches every code unit except the line terminators. *)
Definition is_line_terminator (c : ascii) : bool :=
  let n := nat_of_ascii c in ((n =? 10) || (n =? 13))%nat.

Fixpoint forallb (p : ascii → bool) (s : string) : bool :=
  match s with
  | "" => true
  | String c s' => p c && forallb p s'
  end.

(** The longest prefix whose characters satisfy [p], and what follows. *)
Fixpoint span (p : ascii → bool) (s : string) : string * string :=
  match s with
  | "" => ("", "")
  | String c s' =>
      if p c then let '(a, b) := span p s' in (String c a, b)
      else ("", s)
  end.

End JS.

(** ** Node's [path] module (POSIX flavour) *)

Module Path.

(** One step of [normalizeString]: [stack] holds the segments kept so far,
    last one first. *)
Definition normalize_step (allowAboveRoot : bool) (stack : list string) (seg : string)
  : list string :=
  if String.eqb seg "" || String.eqb seg "." then stack
  else if String.eqb seg ".." then
    match stack with
    | top :: below =>
        if String.eqb top ".." then (if allowAboveRoot then ".." :: stack else stack)
        else below
    | [] => if allowAboveRoot then [".."] else []
    end
  else seg :: stack.

Definition normalizeString (p : string) (allowAboveRoot : bool) : string :=
  JS.join "/" (rev (fold_left (normalize_step allowAboveRoot) (JS.split "/" p) [])).

Definition ends_with_slash (p : string) : bool :=
  match JS.lastIndexOf_char "/" p with
  | Some i => (S i =? String.length p)%nat
  | None => false
  end.

Definition normalize (p : string) : string :=
  if String.eqb p "" then "."
  else
    let isAbsolute := JS.startsWith "/" p in
    let trailingSeparator := ends_with_slash p in
    let q := normalizeString p (negb isAbsolute) in
    if String.eqb q "" then
      if isAbsolute then "/" else if trailingSeparator then "./" else "."
    else
      let q' := if trailingSeparator then q +:+ "/" else q in
      if isAbsolute then "/" +:+ q' else q'.

(** [path.join(...args)] *)
Definition join (args : list string) : string :=
  match List.filter (λ a, negb (String.eqb a "")) args with
  | [] => "."
  | parts => normalize (JS.join "/" parts)
  end.

(** [path.basename(p)]: the last non-empty segment. *)
Definition basename (p : string) : string :=
  default "" (last (List.filter (λ a, negb (String.eqb a "")) (JS.split "/" p))).

(** [path.extname(p)] *)
Definition extname (p : string) : string :=
  let b := basename p in
  match JS.lastIndexOf_char "." b with
  | None => ""
  | Some 0 => ""
  | Some k => if String.eqb b ".." then "" else JS.skip k b
  end.

End Path.

(** ** The regular expressions of the generator *)

Module Regex.

(** [\d{4}-\d{2}-\d{2}] at the start of [s]: the date and what follows. *)
Definition date_prefix (s : string) : option (string * string) :=
  match s with
  | String y1 (String y2 (String y3 (String y4 (String h1
      (String m1 (String m2 (String h2 (String d1 (String d2 rest))))))))) =>
      if JS.forallb JS.is_digit
           (String y1 (String y2 (String y3 (String y4
             (String m1 (String m2 (String d1 (String d2 ""))))))))
         && Ascii.eqb h1 "-" && Ascii.eqb h2 "-"
      then Some (JS.take 10 s, rest)
      else None
  | _ => None
  end.

(** The class [[_|-]]: an underscore, a vertical bar or a hyphen. *)
Definition is_separator (c : ascii) : bool :=
  Ascii.eqb c "_" || Ascii.eqb c "|" || Ascii.eqb c "-".

(** [s.match(re)] for the pattern made of an optional group 1
    [\d{4}-\d{2}-\d{2}], an optional [[_|-]] and a group 2 taking any run
    of characters other than line terminators: every
    part may match the empty string, so the leftmost match starts at
    offset 0 and the greedy choices are never undone. The result holds the
    groups 1 and 2; group 1 is [None] when the optional date did not take
    part in the match, and [None] as a whole stands for a null match. *)
Definition date_slug (s : string) : option (option string * string) :=
  let '(date, s1) :=
    match date_prefix s with
    | Some (d, rest) => (Some d, rest)
    | None => (None, s)
    end in
  let s2 :=
    match s1 with
    | String c rest => if is_separator c then rest else s1
    | "" => s1
    end in
  Some (date, fst (JS.span (λ c, negb (JS.is_line_terminator c)) s2)).

(** [s.match(re)] for the same pattern followed by an optional dot: the
    greedy group 2 has already taken every dot of its line, and the
    optional dot then matches the empty string, so the groups are those of
    [date_slug]. *)
Definition date_slug_dot (s : string) : option (option string * string) :=
  date_slug s.

(** [s.replace(re, empty)] for the pattern "\.[\w]+$": the leftmost dot that is followed, up to
    the end of the text, by one or more word characters is where the text
    is cut. *)
Fixpoint strip_extension (s : string) : string :=
  match s with
  | "" => ""
  | String c s' =>
      if Ascii.eqb c "." && negb (String.eqb s' "") && JS.forallb JS.is_word s'
      then ""
      else String c (strip_extension s')
  end.

Definition dquote : ascii := "034"%char.

(** The class of the capture group of both rewriting patterns: any
    character but a double quote, a slash and a colon. *)
Definition is_filename_char (c : ascii) : bool :=
  negb (Ascii.eqb c dquote || Ascii.eqb c "/" || Ascii.eqb c ":").

(** The capture group followed by a closing parenthesis, at the start of
    [s]: the greedy class takes the whole run of filename characters and
    gives back down to the last closing parenthesis of that run; the
    captured filename is what stands before it, and is not empty. *)
Definition image_target (s : string) : option string :=
  match JS.lastIndexOf_char ")" (fst (JS.span is_filename_char s)) with
  | Some (S j) => Some (JS.take (S j) s)
  | _ => None
  end.

(** The rest of the greedy alternative text: it is extended as far as the
    line allows, and shortened until a closing bracket, an opening
    parenthesis and a target follow. The result is the text taken and the
    captured filename. *)
Fixpoint image_alt (s : string) : option (string * string) :=
  let here :=
    if JS.startsWith "](" s
    then (λ f, ("", f)) <$> image_target (JS.skip 2 s)
    else None in
  match s with
  | String c s' =>
      if JS.is_line_terminator c then here
      else match image_alt s' with
           | Some (a, f) => Some (String c a, f)
           | None => here
           end
  | "" => here
  end.

(** The markdown image pattern (an exclamation mark, a bracketed
    alternative text of one or more characters of one line, a parenthesised
    capture group of filename characters) matched at the start of [s]: the
    matched text and the captured filename. *)
Definition image_at (s : string) : option (string * string) :=
  match s with
  | String b (String o (String c rest)) =>
      if Ascii.eqb b "!" && Ascii.eqb o "[" && negb (JS.is_line_terminator c) then
        match image_alt rest with
        | Some (a, f) => Some ("![" +:+ String c a +:+ "](" +:+ f +:+ ")", f)
        | None => None
        end
      else None
  | _ => None
  end.

(** [s.replace(re, callback)] for the markdown image pattern, which has no
    [g] flag: the leftmost match only is replaced by what [callback]
    returns for the matched text and the captured filename. *)
Fixpoint replace_image (callback : string → string → string) (s : string) : string :=
  match image_at s with
  | Some (m, f) => callback m f +:+ JS.skip (String.length m) s
  | None =>
      match s with
      | "" => ""
      | String c s' => String c (replace_image callback s')
      end
  end.

(** The class [[src|href]]: one of the characters s, r, c, |, h, e, f. *)
Definition is_attr_char (c : ascii) : bool :=
  Ascii.eqb c "s" || Ascii.eqb c "r" || Ascii.eqb c "c" || Ascii.eqb c "|"
  || Ascii.eqb c "h" || Ascii.eqb c "e" || Ascii.eqb c "f".

(** The attribute pattern (one character of the class above, an equals
    sign, a double-quoted capture group of filename characters) matched at
    the start of [s]: the matched text and the captured filename. *)
Definition attr_at (s : string) : option (string * string) :=
  match s with
  | String c (String e (String q rest)) =>
      let '(f, after) := JS.span is_filename_char rest in
      if is_attr_char c && Ascii.eqb e "=" && Ascii.eqb q dquote && negb (String.eqb f "")
         && JS.startsWith (String dquote "") after
      then Some (String c (String "=" (String dquote (f +:+ String dquote ""))), f)
      else None
  | _ => None
  end.

(** [s.replace(re, callback)] for the attribute pattern, which has the [g]
    flag: every match, from left to right and without overlap, is replaced.
    [inside] counts the characters of [s] that still belong to the
    previous match. *)
Fixpoint replace_attrs (callback : string → string → string) (inside : nat) (s : string)
  : string :=
  match s with
  | "" => ""
  | String c s' =>
      match inside with
      | S n => replace_attrs callback n s'
      | 0 =>
          match attr_at s with
          | Some (m, f) => callback m f +:+ replace_attrs callback (String.length m - 1) s'
          | None => String c (replace_attrs callback 0 s')
          end
      end
  end.

End Regex.

(** ** Values, objects, the store and the file system *)

(** A property value: [undefined], a string, a [Date] (carried as the text
    [toISOString] returns for it) or a nested mapping of strings (the redirect
    table, the style partials). *)
Inductive value :=
| VUndef
| VStr (s : string)
| VDate (iso : string)
| VObj (m : gmap string string).

(** A JavaScript object used as a mapping. A key bound to [VUndef] is an own
    property whose value is [undefined]. *)
Abbreviation obj := (gmap string value).

(** [o.k] *)
Definition get (k : string) (o : obj) : value := default VUndef (o !! k).

(** [Object.assign(target, source)]: every own property of [source]
    overwrites the one of [target]. *)
Definition assign (target source : obj) : obj := source ∪ target.

(** JavaScript truthiness. *)
Definition truthy (v : value) : bool :=
  match v with
  | VUndef => false
  | VStr s => negb (String.eqb s "")
  | VDate _ | VObj _ => true
  end.

(** [v == s] for a string [s]. *)
Definition loose_eq_str (v : value) (s : string) : bool :=
  match v with
  | VStr x => String.eqb x s
  | _ => false
  end.

Definition of_group (g : option string) : value :=
  match g with
  | Some s => VStr s
  | None => VUndef
  end.

(** References into the store. *)
Abbreviation loc := nat.

(** What a directory listing holds: a file, given by what [matter] returns
    for it (front matter [data] and body [content]), or a directory, given by
    what [loadConfigFile] returns for it and by its entries in listing order. *)
#[warnings="-register-all"]
Inductive node :=
| File (data : obj) (content : string)
| Directory (config : obj) (entries : list (string * node)).

Definition isDirectory (n : node) : bool :=
  match n with
  | Directory _ _ => true
  | File _ _ => false
  end.

(** What the generator does to the outside world, in order. *)
Inductive event :=
| EnsureDir (dir : string)
| CopyFile (src dest : string)
| WriteFile (file data : string)
| ConsoleLog (msg : string)
| ConsoleError (msg : string)
| AmpGenerate (templateData : obj)
| TemplateGenerate (sourceDirectory destDirectory : string) (config : loc) (pages : list loc).

Inductive exn :=
| UnsupportedExtension (ext : string)
| TypeError
| ENOTDIR.

(** The generator instance, the store of shared objects, and the events so
    far (oldest first). *)
Record state := State {
  store : list obj;
  initialized : bool;
  baseSourceDirectory : string;
  baseDestDirectory : string;
  baseTemplateData : option obj;
  templateGenerator : bool;
  ampGenerator : bool;
  events : list event
}.

(** ** The monad of the generator: state and exceptions *)

Definition M (A : Type) : Type := state → exn + (A * state).

Definition ret {A} (a : A) : M A := λ st, inr (a, st).

Definition bind {A B} (m : M A) (k : A → M B) : M B :=
  λ st, match m st with
        | inl e => inl e
        | inr (a, st') => k a st'
        end.

Definition throw {A} (e : exn) : M A := λ _, inl e.

Notation "'let*' x ':=' m 'in' k" := (bind m (λ x, k))
  (at level 10, x pattern, m at level 100, k at level 200).
Notation "m ';;' k" := (bind m (λ _, k))
  (at level 100, k at level 200, right associativity).

Definition gets {A} (f : state → A) : M A := λ st, inr (f st, st).

Definition set_store (f : list obj → list obj) (st : state) : state :=
  State (f (store st)) (initialized st) (baseSourceDirectory st) (baseDestDirectory st)
        (baseTemplateData st) (templateGenerator st) (ampGenerator st) (events st).

Definition set_events (f : list event → list event) (st : state) : state :=
  State (store st) (initialized st) (baseSourceDirectory st) (baseDestDirectory st)
        (baseTemplateData st) (templateGenerator st) (ampGenerator st) (f (events st)).

(** A new object. *)
Definition alloc (o : obj) : M loc :=
  λ st, inr (List.length (store st), set_store (λ h, h ++ [o]) st).

(** The object a reference points to. *)
Definition load (l : loc) : M obj :=
  gets (λ st, default ∅ (store st !! l)).

(** [l.k = v] *)
Definition setp (l : loc) (k : string) (v : value) : M unit :=
  λ st, inr (tt, set_store (alter (<[k := v]>) l) st).

(** [Object.assign(l, source)] *)
Definition assign_in_place (l : loc) (source : obj) : M unit :=
  λ st, inr (tt, set_store (alter (λ o, assign o source) l) st).

Definition emit (e : event) : M unit :=
  λ st, inr (tt, set_events (λ t, t ++ [e]) st).

Definition when (b : bool) (m : M unit) : M unit := if b then m else ret tt.

(** A value used where the code needs a string (a method of [String], an
    argument of [path.join]): anything else raises a [TypeError]. *)
Definition as_string (v : value) : M string :=
  match v with
  | VStr s => ret s
  | _ => throw TypeError
  end.

(** [for (const x of xs) acc = body(x, acc)] *)
Section ForOf.
Context {A B : Type} (body : A → B → M B).

Fixpoint for_of (xs : list A) (acc : B) : M B :=
  match xs with
  | [] => ret acc
  | x :: rest => let* acc' := body x acc in for_of rest acc'
  end.
End ForOf.

(** ** The content generator *)

Section ContentGenerator.

(** The collaborators of the generator: the style partials given to its
    constructor, the markdown renderer with the options of the source, the
    template manager ([getTemplate layout] applied to the template data)
    and the AMP generator ([Some err] when its promise rejects with [err]). *)
Variable styles : list (string * string).
Variable marked : string → string.
Variable getTemplate : value → obj → string.
Variable ampGenerate : obj → option string.

Definition renderAmpPages : bool := true.
Definition contentPageName : string := "index.html".
Definition contentExtensionsToInclude : list string := ["md"].
Definition assetIgnoreExtensions : list string := ["scss"; "sass"; "css"; "md"; "hbs"].

(** [xs.includes(x)] *)
Definition includes (xs : list string) (x : string) : bool :=
  existsb (String.eqb x) xs.

Definition buildBaseTemplateData (config : obj) (stylesList : list (string * string)) : obj :=
  let styles :=
    fold_left (λ (root : gmap string string) current, <[current.1 := current.2]> root)
              stylesList ∅ in
  assign (assign ∅ config) {["styles" := VObj styles]}.

Definition initialize (config : loc) (sourceDirectory destDirectory : string) : M unit :=
  let* init := gets initialized in
  if negb init then
    let* cfg := load config in
    λ st, inr (tt, State (store st) true sourceDirectory destDirectory
                         (Some (buildBaseTemplateData cfg styles)) true
                         (if renderAmpPages then true else ampGenerator st)
                         (events st))
  else ret tt.

(** What both rewriting callbacks return:
    [match.replace(filename, path.join("/", pageConfig.path, filename))]. *)
Definition prepend_path (pagePath : string) (matched filename : string) : string :=
  JS.replace_str filename (Path.join ["/"; pagePath; filename]) matched.

(** [parseContentFile] is only called by [renderContentFile], after the
    page's [path] has been set to a string; [data] and [content] are what
    [matter] returns for the file the page's [source] names. *)
Definition parseContentFile (pageConfig : loc) (data : obj) (content : string)
  : M (obj * string) :=
  let* pc := load pageConfig in
  let* pagePath := as_string (get "path" pc) in
  let markdownContent :=
    Regex.replace_attrs (prepend_path pagePath) 0
      (Regex.replace_image (prepend_path pagePath) content) in
  let frontMatter := data in
  assign_in_place pageConfig frontMatter ;;
  let* pc := load pageConfig in
  match get "date" pc with
  | VDate isoDate => setp pageConfig "date" (VStr (JS.substr 0 10 isoDate))
  | _ => ret tt
  end ;;
  let* pc := load pageConfig in
  let* filename := as_string (get "filename" pc) in
  let fileExtension := JS.substr_from 1 (Path.extname filename) in
  let* html :=
    if String.eqb fileExtension "md" then ret (marked markdownContent)
    else throw (UnsupportedExtension fileExtension) in
  when (negb (truthy (get "excerpt" pc)))
    match JS.indexOf "<p>" html with
    | Some indexOfFirstParagraph =>
        match JS.indexOf_from "</p>" indexOfFirstParagraph html with
        | Some indexOfEndOfFirstParagraph =>
            setp pageConfig "excerpt"
              (VStr (JS.substring (indexOfFirstParagraph + 3) indexOfEndOfFirstParagraph html))
        | None => ret tt
        end
    | None => ret tt
    end ;;
  ret (frontMatter, html).

(** Lines 165 to 184 of [renderContentFile]: the slug and the date of the
    page, from its configuration or else from its file name. *)
Definition resolveDateAndSlug (pageConfig : loc) : M unit :=
  let* pc := load pageConfig in
  when (negb (truthy (get "slug" pc)) && truthy (get "permalink" pc))
    (setp pageConfig "slug" (get "permalink" pc)) ;;
  let* pc := load pageConfig in
  when (negb (truthy (get "date" pc)) || negb (truthy (get "slug" pc)))
    (let* filename := as_string (get "filename" pc) in
     match Regex.date_slug_dot (Regex.strip_extension filename) with
     | Some fileNameMatcher =>
         when (negb (truthy (get "date" pc)))
           (setp pageConfig "date" (of_group fileNameMatcher.1)) ;;
         when (negb (truthy (get "slug" pc)))
           (setp pageConfig "slug" (VStr fileNameMatcher.2))
     | None => ret tt
     end).

(** Lines 186 to 206 of [renderContentFile]: title, year, [path] and
    [path_amp]. *)
Definition resolvePath (pageConfig : loc) (isContentPackageDirectory : bool)
    (actualDestDirectory : string) : M unit :=
  let* pc := load pageConfig in
  when (negb (truthy (get "title" pc))) (setp pageConfig "title" (get "slug" pc)) ;;
  when (truthy (get "date" pc))
    (let* date := as_string (get "date" pc) in
     setp pageConfig "year" (VStr (JS.substr 0 4 date))) ;;
  let* actualDestDirectory :=
    if negb isContentPackageDirectory then
      let* slug := as_string (get "slug" pc) in
      ret (Path.join [actualDestDirectory; slug])
    else ret actualDestDirectory in
  let* baseDest := gets baseDestDirectory in
  let pagePath := JS.strip_leading_slash (JS.replace_str baseDest "" actualDestDirectory) in
  setp pageConfig "path" (VStr pagePath) ;;
  when renderAmpPages (setp pageConfig "path_amp" (VStr (pagePath +:+ "amp.html"))).

Definition renderContentFile (pageConfig : loc) (actualDestDirectory : string)
    (data : obj) (content : string) : M (loc * obj) :=
  let* pc := load pageConfig in
  let isContentPackageDirectory := loose_eq_str (get "filename" pc) "index.md" in
  resolveDateAndSlug pageConfig ;;
  resolvePath pageConfig isContentPackageDirectory actualDestDirectory ;;
  let* contentFile := parseContentFile pageConfig data content in
  setp pageConfig "content_html" (VStr contentFile.2) ;;
  let* pc := load pageConfig in
  let* base := gets baseTemplateData in
  let templateData := assign (assign ∅ (default ∅ base)) pc in
  let layout := if truthy (get "layout" pc) then get "layout" pc else VStr "default" in
  let templatedOutput := getTemplate layout templateData in
  let* pagePath := as_string (get "path" pc) in
  emit (ConsoleLog (Path.join [pagePath])) ;;
  let* baseDest := gets baseDestDirectory in
  let destDirectory := Path.join [baseDest; pagePath] in
  emit (EnsureDir destDirectory) ;;
  emit (WriteFile (Path.join [destDirectory; contentPageName]) templatedOutput) ;;
  ret (pageConfig, templateData).

Definition is_asset (f : string) (n : node) : bool :=
  negb (JS.startsWith "_" f) && negb (isDirectory n)
  && negb (includes assetIgnoreExtensions (JS.substr_from 1 (Path.extname f))).

Definition is_content (f : string) (n : node) : bool :=
  negb (JS.startsWith "_" f) && negb (isDirectory n)
  && includes contentExtensionsToInclude (JS.substr_from 1 (Path.extname f)).

Definition processAssetFiles (sourceDirectory : string)
    (sourceDirectoryFileNames : list (string * node)) (actualDestDirectory : string)
  : M unit :=
  let assetFileNames :=
    List.filter (λ e, is_asset e.1 e.2) sourceDirectoryFileNames in
  for_of
    (λ currentFile _,
       emit (CopyFile (Path.join [sourceDirectory; currentFile.1])
                      (Path.join [actualDestDirectory; currentFile.1])))
    assetFileNames tt.

(** The body of the loop of [processContentFiles], up to the page
    configuration it pushes. *)
Definition processContentFile (sourceDirectory actualDestDirectory : string)
    (currentDirectoryConfig : loc) (currentFile : string * node) : M loc :=
  let currentFileName := currentFile.1 in
  let* dirConfig := load currentDirectoryConfig in
  let* currentPageConfig := alloc (assign ∅ dirConfig) in
  setp currentPageConfig "filename" (VStr currentFileName) ;;
  setp currentPageConfig "source" (VStr (Path.join [sourceDirectory; currentFileName])) ;;
  let* rendered :=
    match currentFile.2 with
    | File data content =>
        renderContentFile currentPageConfig actualDestDirectory data content
    | Directory _ _ => throw ENOTDIR
    end in
  let* amp := gets ampGenerator in
  when (renderAmpPages && amp)
    (emit (AmpGenerate rendered.2) ;;
     match ampGenerate rendered.2 with
     | Some err =>
         emit (ConsoleError ("Error generating AMP file for '" +:+ currentFileName
                             +:+ "' - " +:+ err))
     | None => ret tt
     end) ;;
  ret rendered.1.

Definition processContentFiles (sourceDirectory : string)
    (sourceDirectoryFileNames : list (string * node)) (actualDestDirectory : string)
    (currentDirectoryConfig : loc) : M (list loc) :=
  let contentFileNames :=
    List.filter (λ e, is_content e.1 e.2) sourceDirectoryFileNames in
  for_of
    (λ currentFile pages,
       let* pageConfig :=
         processContentFile sourceDirectory actualDestDirectory currentDirectoryConfig
                            currentFile in
       ret (pages ++ [pageConfig]))
    contentFileNames [].

(** Lines 75 to 110 of [generate]: the configuration of the directory and
    its destination. *)
Definition resolveDirectory (baseConfig : loc) (destDirectory : string)
    (sourceDirectoryConfig : obj) (sourceDirectoryFileNames : list (string * node))
  : M (loc * string) :=
  let* base := load baseConfig in
  let* currentDirectoryConfig := alloc (assign (assign ∅ base) sourceDirectoryConfig) in
  let isContentPackageDirectory :=
    existsb (λ e : string * node, String.eqb e.1 "index.md") sourceDirectoryFileNames in
  when isContentPackageDirectory
    match Regex.date_slug (Path.basename destDirectory) with
    | Some fileNameMatcher =>
        setp currentDirectoryConfig "date" (of_group fileNameMatcher.1) ;;
        setp currentDirectoryConfig "slug" (VStr fileNameMatcher.2)
    | None => ret tt
    end ;;
  let* cfg := load currentDirectoryConfig in
  let* overriddenDestDirectory :=
    if truthy (get "dist_path" cfg) then
      let* dist_path := as_string (get "dist_path" cfg) in
      let* baseDest := gets baseDestDirectory in
      let overridden := Path.join [baseDest; JS.strip_leading_slash dist_path] in
      if isContentPackageDirectory then
        let* slug := as_string (get "slug" cfg) in
        ret (Path.join [overridden; slug])
      else ret overridden
    else ret destDirectory in
  ret (currentDirectoryConfig, overriddenDestDirectory).

(** [generate]. The directory to compile is given with its path
    [sourceDirectory]; the loop over the subdirectories runs over the
    listing and skips the entries that are not directories, which is the
    loop of the source over [sourceDirectoryFileNames.filter(...)]. *)
Fixpoint generate (baseConfig : loc) (sourceDirectory destDirectory : string)
    (dir : node) {struct dir} : M (list loc) :=
  match dir with
  | File _ _ => throw ENOTDIR
  | Directory sourceDirectoryConfig sourceDirectoryFileNames =>
      initialize baseConfig sourceDirectory destDirectory ;;
      let* resolved :=
        resolveDirectory baseConfig destDirectory sourceDirectoryConfig
                         sourceDirectoryFileNames in
      let currentDirectoryConfig := resolved.1 in
      let overriddenDestDirectory := resolved.2 in
      emit (EnsureDir overriddenDestDirectory) ;;
      processAssetFiles sourceDirectory sourceDirectoryFileNames overriddenDestDirectory ;;
      let* pages :=
        processContentFiles sourceDirectory sourceDirectoryFileNames
                            overriddenDestDirectory currentDirectoryConfig in
      let* pages :=
        for_of
          (λ '(subDirectoryName, entry) pages,
             match entry with
             | Directory _ _ =>
                 let subSourceDirectory := Path.join [sourceDirectory; subDirectoryName] in
                 let subDestDirectory := Path.join [destDirectory; subDirectoryName] in
                 let* subContent :=
                   generate currentDirectoryConfig subSourceDirectory subDestDirectory
                            entry in
                 ret (pages ++ subContent)
             | File _ _ => ret pages
             end)
          sourceDirectoryFileNames pages in
      let* templates := gets templateGenerator in
      when templates
        (emit (TemplateGenerate sourceDirectory destDirectory currentDirectoryConfig pages)) ;;
      ret pages
  end.

End ContentGenerator.

(** ** Reasoning about runs of the generator *)

(** [wp E m Q st]: run from [st], [m] either returns a value and a state that
    satisfy [Q], or throws an exception that satisfies [E]. *)
Definition wp {A} (E : exn → Prop) (m : M A) (Q : A → state → Prop) (st : state) : Prop :=
  match m st with
  | inl e => E e
  | inr (a, st') => Q a st'
  end.

Definition any_exn : exn → Prop := λ _, True.

(** An event other than the rendering of the template pages of a directory. *)
Definition quiet (e : event) : Prop :=
  match e with
  | TemplateGenerate _ _ _ _ => False
  | _ => True
  end.

(** [grows n φ st0 st]: from [st0] to [st] the store has only been extended,
    the objects below [n] are as they were, the new events all satisfy [φ],
    and an initialized generator has kept its fields. *)
Definition grows (n : nat) (φ : event → Prop) (st0 st : state) : Prop :=
  length (store st0) ≤ length (store st)
  ∧ (∀ l, l < n → store st !! l = store st0 !! l)
  ∧ (∃ evs, events st = events st0 ++ evs ∧ Forall φ evs)
  ∧ (initialized st0 = true →
       initialized st = true
       ∧ baseSourceDirectory st = baseSourceDirectory st0
       ∧ baseDestDirectory st = baseDestDirectory st0
       ∧ baseTemplateData st = baseTemplateData st0
       ∧ templateGenerator st = templateGenerator st0
       ∧ ampGenerator st = ampGenerator st0).

(** The fields of an initialized generator are those [initialize] sets: a
    state of the generator is either not initialized yet or [ready]. *)
Definition constructed (st : state) : Prop :=
  initialized st = true → templateGenerator st = true ∧ ampGenerator st = true.

Definition ready (st : state) : Prop :=
  initialized st = true ∧ templateGenerator st = true ∧ ampGenerator st = true.

(** *** The page list, as the specification words it *)

(** [xs.map(f)], the calls made in order. *)
Section MapM.
Context {A B : Type} (f : A → M B).

Fixpoint mapM (xs : list A) : M (list B) :=
  match xs with
  | [] => ret []
  | x :: rest => let* y := f x in let* ys := mapM rest in ret (y :: ys)
  end.
End MapM.

(** [generate] on a directory, with its page list put together the way the
    specification describes it: the pages of the content files of the
    listing, in listing order, followed by the lists the recursive calls
    return for the subdirectories of the listing, in listing order. *)
Definition generate_by_listing (styles : list (string * string)) (marked : string → string)
    (getTemplate : value → obj → string) (ampGenerate : obj → option string)
    (baseConfig : loc) (sourceDirectory destDirectory : string)
    (sourceDirectoryConfig : obj) (listing : list (string * node)) : M (list loc) :=
  initialize styles baseConfig sourceDirectory destDirectory ;;
  let* resolved :=
    resolveDirectory baseConfig destDirectory sourceDirectoryConfig listing in
  emit (EnsureDir resolved.2) ;;
  processAssetFiles sourceDirectory listing resolved.2 ;;
  let* own :=
    mapM (processContentFile marked getTemplate ampGenerate sourceDirectory resolved.2
                             resolved.1)
         (List.filter (λ e, is_content e.1 e.2) listing) in
  let* subs :=
    mapM (λ e : string * node,
            generate styles marked getTemplate ampGenerate resolved.1
                     (Path.join [sourceDirectory; e.1]) (Path.join [destDirectory; e.1]) e.2)
         (List.filter (λ e, isDirectory e.2) listing) in
  let pages := own ++ concat subs in
  let* templates := gets templateGenerator in
  when templates
    (emit (TemplateGenerate sourceDirectory destDirectory resolved.1 pages)) ;;
  ret pages.

(** *** Template rendering and the page lists of the subtree *)

(** The page list an event hands to the template generator, if it is the
    rendering of template pages, is part of [pages]. *)
Definition includes_pages (pages : list loc) (e : event) : Prop :=
  match e with
  | TemplateGenerate _ _ _ ps => ps ⊆ pages
  | _ => True
  end.

(** *** Configuration inheritance, as the specification words it *)

(** The configuration of a directory: the inherited configuration, overlaid
    with the local overrides of the directory, overlaid with the date and the
    slug derived from the name of the destination when the directory is a
    content package. *)
Definition resolved_config (inherited : obj) (destDirectory : string) (local : obj)
    (listing : list (string * node)) : obj :=
  let merged := assign (assign ∅ inherited) local in
  if existsb (λ e : string * node, String.eqb e.1 "index.md") listing then
    match Regex.date_slug (Path.basename destDirectory) with
    | Some m => <["slug" := VStr m.2]> (<["date" := of_group m.1]> merged)
    | None => merged
    end
  else merged.

(** The configuration of every directory of a tree, computed from the top
    down: a directory hands its own configuration to each of its
    subdirectories and receives nothing back. The directories come in the
    order in which [generate] finishes them. *)
Fixpoint directory_configs (inherited : obj) (sourceDirectory destDirectory : string)
    (dir : node) : list (string * obj) :=
  match dir with
  | File _ _ => []
  | Directory local listing =>
      let current := resolved_config inherited destDirectory local listing in
      concat
        (map (λ '(name, child),
                match child with
                | Directory _ _ =>
                    directory_configs current (Path.join [sourceDirectory; name])
                                      (Path.join [destDirectory; name]) child
                | File _ _ => []
                end)
             listing)
      ++ [(sourceDirectory, current)]
  end.

(** The directories whose template pages were rendered during [evs], each
    with the configuration its reference holds in the store [h]. *)
Definition template_configs (h : list obj) (evs : list event) : list (string * obj) :=
  omap (λ e, match e with
             | TemplateGenerate src _ config _ => Some (src, default ∅ (h !! config))
             | _ => None
             end) evs.

(** *** Failures of the AMP generator *)





(** *** Front matter and the extension of a content file *)

(** No file of the tree declares a [filename] in its front matter. *)
Fixpoint no_filename_override (n : node) : Prop :=
  match n with
  | File data _ => data !! "filename" = None
  | Directory _ listing =>
      (fix all (entries : list (string * node)) : Prop :=
         match entries with
         | [] => True
         | (_, child) :: rest => no_filename_override child ∧ all rest
         end) listing
  end.

Definition not_unsupported (e : exn) : Prop :=
  match e with
  | UnsupportedExtension _ => False
  | _ => True
  end.

(** *** Facts about a state *)

(** The object at [l] has the value [v] for the key [k]. *)
Definition field (l : loc) (k : string) (v : value) (st : state) : Prop :=
  ∃ o, store st !! l = Some o ∧ get k o = v.


(** The page at [l] has a file name with the extension [md]. *)
Definition has_md_filename (l : loc) (st : state) : Prop :=
  ∃ o f, store st !! l = Some o ∧ o !! "filename" = Some (VStr f)
         ∧ JS.substr_from 1 (Path.extname f) = "md".


(** *** Sample sites *)

(** A generator that has not been called yet; reference 0 holds the site
    configuration. *)
Definition just_constructed : state :=
  State [{["title" := VStr "My site"]}] false "" "" None false false [].


(** Collaborators for the sample runs: a markdown renderer that returns its
    input, a template that prints the title, an AMP generator that succeeds
    and one that fails on every page. *)
Definition plain_marked (markdown : string) : string := markdown.

Definition title_template (layout : value) (templateData : obj) : string :=
  match get "title" templateData with
  | VStr title => "<h1>" +:+ title +:+ "</h1>"
  | _ => "<h1></h1>"
  end.

Definition amp_succeeds (templateData : obj) : option string := None.

Definition sample_generate (ampGenerate : obj → option string) (dir : node)
  : exn + (list loc * state) :=
  generate [] plain_marked title_template ampGenerate 0 "/site/content" "/site/_dist" dir
           just_constructed.

(** A run that returns. *)
Definition returns {A} (r : exn + A) : bool :=
  match r with
  | inl _ => false
  | inr _ => true
  end.

(** What a run shows: the files it wrote, and a field of each page of the
    list it returned. *)
Definition written_files {A} (r : exn + (A * state)) : exn + list string :=
  match r with
  | inl e => inl e
  | inr (_, st) =>
      inr (omap (λ e, match e with WriteFile f _ => Some f | _ => None end) (events st))
  end.

Definition page_fields (k : string) (r : exn + (list loc * state)) : exn + list value :=
  match r with
  | inl e => inl e
  | inr (pages, st) => inr (map (λ p, get k (default ∅ (store st !! p))) pages)
  end.


(** A content package [/projects/] that also holds a loose [about.md]. *)
Definition projects_site : node :=
  Directory ∅
    [("projects",
      Directory ∅ [("index.md", File ∅ "Projects."); ("about.md", File ∅ "About.")])].

(** [/about.md] *)
Definition about_site : node :=
  Directory ∅ [("about.md", File ∅ "About.")].

(** [/post.md], whose front matter declares [filename: notes.txt]. *)
Definition renamed_site : node :=
  Directory ∅ [("post.md", File {["filename" := VStr "notes.txt"]} "Notes.")].

(** [/blog/] with a local override, two posts and a content package, next to
    a loose page. *)
Definition blog_site : node :=
  Directory ∅
    [("about.md", File ∅ "About.");
     ("blog",
      Directory {["layout" := VStr "post"]}
        [("2024-01-05-hello-world.md", File {["title" := VStr "Hi"]} "First paragraph.");
         ("2024-02-01_second.md", File ∅ "Second.");
         ("2024-03-01-gallery", Directory ∅ [("index.md", File ∅ "Gallery.")])]);
     ("logo.png", File ∅ "")].

(** *** Relative references *)

(** An attribute with a quoted value, as written in HTML. *)
Definition attribute (name value : string) : string :=
  name +:+ "=" +:+ String Regex.dquote (value +:+ String Regex.dquote "").

Definition newline : string := String "010" "".

(** [/gallery.md]: two images on one line. *)
Definition gallery_site : node :=
  Directory ∅ [("gallery.md", File ∅ "![a](x.png) ![b](y.png)")].

(** [/album.md]: two images on two lines, then an image element and a
    link. *)
Definition album_body : string :=
  "![a](x.png)" +:+ newline +:+ "![b](y.png)" +:+ newline
  +:+ "<img " +:+ attribute "src" "s.png" +:+ "> <a " +:+ attribute "href" "t.pdf" +:+ ">".

Definition album_site : node :=
  Directory ∅ [("album.md", File ∅ album_body)].

(** *** Dated file names *)

(** A text of the form [YYYY-MM-DD]. *)
Definition is_date (d : string) : Prop := Regex.date_prefix d = Some (d, "").

(** A text without line terminators. *)
Definition single_line (s : string) : Prop :=
  JS.forallb (λ c, negb (JS.is_line_terminator c)) s = true.

(** A file extension: one or more word characters. *)
Definition is_extension (ext : string) : Prop :=
  ext ≠ "" ∧ JS.forallb JS.is_word ext = true.

(** *** What a run leaves behind *)

(** The files written during [evs], oldest first. *)
Definition write_targets (evs : list event) : list string :=
  omap (λ e, match e with WriteFile f _ => Some f | _ => None end) evs.

(** The files copied during [evs], oldest first: where from, where to. *)
Definition copies (evs : list event) : list (string * string) :=
  omap (λ e, match e with CopyFile s d => Some (s, d) | _ => None end) evs.

(** The [path] of the page at [p], and the file its rendering is written
    to. *)
Definition page_path (st : state) (p : loc) : string :=
  match get "path" (default ∅ (store st !! p)) with
  | VStr s => s
  | _ => ""
  end.

Definition output_file (st : state) (p : loc) : string :=
  Path.join [Path.join [baseDestDirectory st; page_path st p]; contentPageName].

(** The [source] of the page at [p]. *)
Definition page_source (st : state) (p : loc) : value :=
  get "source" (default ∅ (store st !! p)).

(** The asset files of a tree, and its content files, in the order of the
    traversal: those of the directory itself in listing order, then those
    of each subdirectory in listing order. *)
Fixpoint asset_files (sourceDirectory : string) (dir : node) : list string :=
  match dir with
  | File _ _ => []
  | Directory _ listing =>
      map (λ e, Path.join [sourceDirectory; e.1]) (List.filter (λ e, is_asset e.1 e.2) listing)
      ++ concat
           (map (λ '(name, child),
                   match child with
                   | Directory _ _ => asset_files (Path.join [sourceDirectory; name]) child
                   | File _ _ => []
                   end)
                listing)
  end.

Fixpoint content_files (sourceDirectory : string) (dir : node) : list string :=
  match dir with
  | File _ _ => []
  | Directory _ listing =>
      map (λ e, Path.join [sourceDirectory; e.1])
          (List.filter (λ e, is_content e.1 e.2) listing)
      ++ concat
           (map (λ '(name, child),
                   match child with
                   | Directory _ _ => content_files (Path.join [sourceDirectory; name]) child
                   | File _ _ => []
                   end)
                listing)
  end.

(** No file of the tree declares the key [k] in its front matter. *)
Fixpoint front_matter_lacks (k : string) (n : node) : Prop :=
  match n with
  | File data _ => data !! k = None
  | Directory _ listing =>
      (fix all (entries : list (string * node)) : Prop :=
         match entries with
         | [] => True
         | (_, child) :: rest => front_matter_lacks k child ∧ all rest
         end) listing
  end.

(** [changes l evs st st']: from [st] to [st'] the object at [l] alone may
    have changed, and the events [evs] have been added. *)
Definition changes (l : loc) (evs : list event) (st st' : state) : Prop :=
  length (store st') = length (store st)
  ∧ (∀ l', l' ≠ l → store st' !! l' = store st !! l')
  ∧ events st' = events st ++ evs
  ∧ initialized st' = initialized st
  ∧ baseSourceDirectory st' = baseSourceDirectory st
  ∧ baseDestDirectory st' = baseDestDirectory st
  ∧ baseTemplateData st' = baseTemplateData st
  ∧ templateGenerator st' = templateGenerator st
  ∧ ampGenerator st' = ampGenerator st.

(** The keys [renderContentFile] computes. *)
Definition derived_keys : list string :=
  ["slug"; "date"; "title"; "year"; "path"; "path_amp"; "content_html"; "excerpt"].

(** [keeps st st']: the objects of [st] are unchanged in [st'], and so is
    the destination root. *)
Definition keeps (st st' : state) : Prop :=
  length (store st) ≤ length (store st')
  ∧ (∀ l, l < length (store st) → store st' !! l = store st !! l)
  ∧ baseDestDirectory st' = baseDestDirectory st.

(** [outputs st0 pages st]: the [pages] are distinct objects created since
    [st0], the files written since [st0] are their output files, in order,
    and each of them has a string as its [path]. *)
Definition outputs (st0 : state) (pages : list loc) (st : state) : Prop :=
  NoDup pages
  ∧ Forall (λ p, length (store st0) ≤ p < length (store st)) pages
  ∧ write_targets (events st) = write_targets (events st0) ++ map (output_file st) pages
  ∧ Forall (λ p, ∃ s, field p "path" (VStr s) st) pages.

(** An event that neither writes nor copies a file. *)
Definition no_output (e : event) : Prop :=
  match e with
  | WriteFile _ _ | CopyFile _ _ => False
  | _ => True
  end.

(** The asset files, and the content files, of the subdirectories among
    [entries]. *)
Definition below (files_of : string → node → list string) (src : string)
    (entries : list (string * node)) : list string :=
  concat (map (λ '(name, child),
                 match child with
                 | Directory _ _ => files_of (Path.join [src; name]) child
                 | File _ _ => []
                 end) entries).

(** A site configuration and one page configuration, as [processContentFiles]
    hands it to [renderContentFile]. *)
Definition page_being_rendered : state :=
  State [{["title" := VStr "My site"]};
         {["filename" := VStr "2024-01-05-hello-world.md";
           "source" := VStr "/site/content/blog/2024-01-05-hello-world.md";
           "layout" := VStr "post"]}]
        true "/site/content" "/site/_dist"
        (Some (buildBaseTemplateData {["title" := VStr "My site"]} [])) true true [].

(** The [path] [renderContentFile] has computed for the page at [l] when
    it turns to the file itself (lines 163 to 206), if it gets there. *)
Definition path_before_parsing (l : loc) (actualDestDirectory : string) (st : state)
  : option string :=
  match (let* pc := load l in
         resolveDateAndSlug l ;;
         resolvePath l (loose_eq_str (get "filename" pc) "index.md") actualDestDirectory) st
  with
  | inr (_, st') =>
      match get "path" (default ∅ (store st' !! l)) with
      | VStr p => Some p
      | _ => None
      end
  | inl _ => None
  end.

(** The directory configuration at reference 1, with a local override. *)
Definition directory_being_compiled : state :=
  State [{["title" := VStr "My site"]};
         {["title" := VStr "My site"; "layout" := VStr "post"]}]
        true "/site/content" "/site/_dist"
        (Some (buildBaseTemplateData {["title" := VStr "My site"]} [])) true true [].

(** Front matter with a title and a date that the parser has read as a
    [Date]. *)
Definition dated_front_matter : obj :=
  {["title" := VStr "Hi"; "date" := VDate "2024-01-05T00:00:00.000Z"]}.

(** A markdown renderer that wraps the text in one paragraph. *)
Definition paragraph_marked (markdown : string) : string := "<p>" +:+ markdown +:+ "</p>".

(** A value that is a string or [undefined]. *)
Definition texty (v : value) : Prop :=
  match v with
  | VStr _ | VUndef => True
  | _ => False
  end.

(** A configuration whose [dist_path], [date], [slug] and [permalink],
    where it has them, are strings. *)
Definition plain_config (o : obj) : Prop :=
  texty (get "dist_path" o) ∧ texty (get "date" o) ∧ texty (get "slug" o)
  ∧ texty (get "permalink" o).

(** Front matter that declares no [filename], and a [path] only as a
    string. *)
Definition plain_front_matter (data : obj) : Prop :=
  data !! "filename" = None
  ∧ (data !! "path" = None ∨ ∃ p, data !! "path" = Some (VStr p)).

(** A tree whose configurations and front matter are plain. *)
Fixpoint well_formed (n : node) : Prop :=
  match n with
  | File data _ => plain_front_matter data
  | Directory config listing =>
      plain_config config
      ∧ (fix all (entries : list (string * node)) : Prop :=
           match entries with
           | [] => True
           | (_, child) :: rest => well_formed child ∧ all rest
           end) listing
  end.

(** The page at [l] holds [o]. *)
Definition holds (l : loc) (o : obj) (st : state) : Prop := store st !! l = Some o.

(** What [processContentFiles] does once a page is rendered: the request
    to the AMP generator, and the message logged when it fails. *)
Definition amp_events (ampGenerate : obj → option string) (enabled : bool)
    (currentFileName : string) (templateData : obj) : list event :=
  if enabled then
    AmpGenerate templateData
    :: match ampGenerate templateData with
       | Some err =>
           [ConsoleError ("Error generating AMP file for '" +:+ currentFileName
                          +:+ "' - " +:+ err)]
       | None => []
       end
  else [].

(** A page configuration that has inherited a [date] read as a [Date]. *)
Definition page_with_inherited_Date : state :=
  State [{["title" := VStr "My site"]};
         {["filename" := VStr "hello.md"; "date" := VDate "2024-01-05T00:00:00.000Z"]}]
        true "/site/content" "/site/_dist"
        (Some (buildBaseTemplateData {["title" := VStr "My site"]} [])) true true [].

(** The names of the asset files of a tree, in the order of the
    traversal. *)
Fixpoint asset_names (dir : node) : list string :=
  match dir with
  | File _ _ => []
  | Directory _ listing =>
      map fst (List.filter (λ e, is_asset e.1 e.2) listing)
      ++ concat
           (map (λ '(_, child),
                   match child with
                   | Directory _ _ => asset_names child
                   | File _ _ => []
                   end)
                listing)
  end.

(** A directory that is no content package, and below which no directory
    is one or has a [dist_path] of its own. *)
Fixpoint level (n : node) : Prop :=
  match n with
  | File _ _ => True
  | Directory _ listing =>
      existsb (λ e : string * node, String.eqb e.1 "index.md") listing = false
      ∧ (fix all (entries : list (string * node)) : Prop :=
           match entries with
           | [] => True
           | (_, child) :: rest =>
               match child with
               | Directory config _ => config !! "dist_path" = None
               | File _ _ => True
               end
               ∧ level child ∧ all rest
           end) listing
  end.

(** [/downloads/], whose files and whose subdirectories' files are all
    put into [/files]. *)
Definition downloads_site : node :=
  Directory {["dist_path" := VStr "/files"]}
    [("a.zip", File ∅ "");
     ("notes.md", File ∅ "Notes.");
     ("old", Directory ∅ [("a.zip", File ∅ ""); ("b.zip", File ∅ "")])].

(** The text [s] holds no character [c]. *)
Definition without (c : ascii) (s : string) : Prop :=
  JS.forallb (λ a, negb (Ascii.eqb a c)) s = true.

(** A path segment that [path.normalize] keeps as it is: a name that is
    neither empty nor [.] nor [..] and holds no slash. *)
Definition plain_segment (x : string) : Prop :=
  x ≠ "" ∧ without "/" x ∧ x ≠ "." ∧ x ≠ "..".

(** A path in the form [path.join] returns for a directory: [path.normalize]
    leaves it as it is, it does not end with a slash, and it is not [.]. *)
Definition normalized (p : string) : Prop :=
  Path.normalize p = p ∧ Path.ends_with_slash p = false ∧ p ≠ ".".

(** The requests to the AMP generator and the logged errors. *)
Definition is_amp_event (e : event) : bool :=
  match e with
  | AmpGenerate _ | ConsoleError _ => true
  | _ => false
  end.

Definition amp_trace (evs : list event) : list event := List.filter is_amp_event evs.

(** The template data of the page at [p]:
    [Object.assign({}, this.baseTemplateData, pageConfig)]. *)
Definition template_data (st : state) (p : loc) : obj :=
  assign (assign ∅ (default ∅ (baseTemplateData st))) (default ∅ (store st !! p)).

(** The names of the content files of a tree, in the order of the
    traversal. *)
Fixpoint content_names (dir : node) : list string :=
  match dir with
  | File _ _ => []
  | Directory _ listing =>
      map fst (List.filter (λ e, is_content e.1 e.2) listing)
      ++ concat
           (map (λ '(_, child),
                   match child with
                   | Directory _ _ => content_names child
                   | File _ _ => []
                   end)
                listing)
  end.

(** What the files [names], rendered as [pages], ask of the AMP generator
    and log, file by file: one request with the template data of the page,
    followed by one error message naming the file when the request
    fails. *)
Definition page_requests (ampGenerate : obj → option string) (st : state)
    (names : list string) (pages : list loc) : list event :=
  concat (zip_with (λ name p, amp_events ampGenerate true name (template_data st p))
                   names pages).

(** The page at [p] has a string as its [path], and that string followed by
    [amp.html] as its [path_amp]. *)
Definition amp_path (p : loc) (st : state) : Prop :=
  ∃ s, field p "path" (VStr s) st ∧ field p "path_amp" (VStr (s +:+ "amp.html")) st.

Section WpRules.
Context {A B : Type} (E : exn → Prop).

Lemma wp_ret (a : A) Q st : Q a st → wp E (ret a) Q st.
Proof. done. Qed.

Lemma wp_throw (e : exn) (Q : A → state → Prop) st : E e → wp E (throw e) Q st.
Proof. done. Qed.

Lemma wp_bind (m : M A) (k : A → M B) Q st :
  wp E m (λ a st', wp E (k a) Q st') st → wp E (bind m k) Q st.
Proof. unfold wp, bind. by destruct (m st) as [e|[a st']]. Qed.

Lemma wp_mono (E' : exn → Prop) (m : M A) (Q Q' : A → state → Prop) st :
  wp E' m Q' st → (∀ a st', Q' a st' → Q a st') → (∀ e, E' e → E e) → wp E m Q st.
Proof. unfold wp. destruct (m st) as [e|[a st']]; eauto. Qed.

Lemma wp_post (m : M A) (Q Q' : A → state → Prop) st :
  wp E m Q' st → (∀ a st', Q' a st' → Q a st') → wp E m Q st.
Proof. intros H HQ. eapply wp_mono; eauto. Qed.

Lemma wp_inr (m : M A) Q st a st' : wp E m Q st → m st = inr (a, st') → Q a st'.
Proof. unfold wp. intros H Heq. by rewrite Heq in H. Qed.

Lemma wp_gets (f : state → A) Q st : Q (f st) st → wp E (gets f) Q st.
Proof. done. Qed.
End WpRules.

Section WpPrimitives.
Context (E : exn → Prop).

Lemma wp_load l Q st : Q (default ∅ (store st !! l)) st → wp E (load l) Q st.
Proof. done. Qed.

Lemma wp_alloc o Q st :
  Q (length (store st)) (set_store (λ h, h ++ [o]) st) → wp E (alloc o) Q st.
Proof. done. Qed.

Lemma wp_setp l k v Q st :
  Q tt (set_store (alter (<[k := v]>) l) st) → wp E (setp l k v) Q st.
Proof. done. Qed.

Lemma wp_assign_in_place l src Q st :
  Q tt (set_store (alter (λ o, assign o src) l) st) → wp E (assign_in_place l src) Q st.
Proof. done. Qed.

Lemma wp_emit e Q st :
  Q tt (set_events (λ t, t ++ [e]) st) → wp E (emit e) Q st.
Proof. done. Qed.

Lemma wp_as_string v Q st :
  E TypeError → (∀ s, v = VStr s → Q s st) → wp E (as_string v) Q st.
Proof. intros HE HQ. destruct v; try exact HE. by apply HQ. Qed.

Lemma wp_for_of {A B} (body : A → B → M B) (I : B → state → Prop) xs acc st :
  I acc st →
  (∀ x acc st, x ∈ xs → I acc st → wp E (body x acc) I st) →
  wp E (for_of body xs acc) I st.
Proof.
  revert acc st. induction xs as [|x xs IH]; intros acc st HI Hbody; [done|].
  cbn [for_of]. apply wp_bind.
  eapply wp_post; [apply Hbody; [constructor|done]|].
  intros acc' st' HI'. apply IH; [done|].
  intros y acc'' st'' Hy. apply Hbody. by constructor.
Qed.
End WpPrimitives.

(** One step of a run: the rule of the statement at the head of the goal. *)
Ltac wp_step :=
  lazymatch goal with
  | |- wp _ (bind _ _) _ _ => apply wp_bind
  | |- wp _ (ret _) _ _ => apply wp_ret
  | |- wp _ (gets _) _ _ => apply wp_gets
  | |- wp _ (load _) _ _ => apply wp_load
  | |- wp _ (alloc _) _ _ => apply wp_alloc
  | |- wp _ (setp _ _ _) _ _ => apply wp_setp
  | |- wp _ (assign_in_place _ _) _ _ => apply wp_assign_in_place
  | |- wp _ (emit _) _ _ => apply wp_emit
  | |- wp _ (throw _) _ _ => apply wp_throw; try done
  | |- wp _ (as_string _) _ _ => apply wp_as_string; [try done | intros ? ?]
  | |- wp _ (when true _) _ _ => cbn [when]
  | |- wp _ (when false _) _ _ => cbn [when]
  | |- wp _ (when ?b _) _ _ => destruct b eqn:?; cbn [when]
  | |- wp _ (if true then _ else _) _ _ => cbv iota
  | |- wp _ (if false then _ else _) _ _ => cbv iota
  | |- wp _ (if ?b then _ else _) _ _ => destruct b eqn:?
  | |- wp _ (match ?x with _ => _ end) _ _ => destruct x eqn:?
  end.

Section Grows.
Context (n : nat) (φ : event → Prop).

Lemma grows_refl st : grows n φ st st.
Proof.
  repeat split; try done. exists []. by rewrite app_nil_r.
Qed.

Lemma grows_store st0 st (f : list obj → list obj) :
  grows n φ st0 st →
  length (store st) ≤ length (f (store st)) →
  (∀ l, l < n → f (store st) !! l = store st !! l) →
  grows n φ st0 (set_store f st).
Proof.
  intros (Hlen & Hfr & Hev & Hgen) Hlen' Hfr'. repeat split; cbn.
  - lia.
  - intros l Hl. rewrite Hfr' by done. by apply Hfr.
  - done.
  - all: by apply Hgen.
  - all: by apply Hgen.
  - all: by apply Hgen.
  - all: by apply Hgen.
  - all: by apply Hgen.
  - all: by apply Hgen.
Qed.

Lemma grows_alloc st0 st o :
  grows n φ st0 st → n ≤ length (store st0) →
  grows n φ st0 (set_store (λ h, h ++ [o]) st).
Proof.
  intros H Hn. apply grows_store; [done| |].
  - rewrite length_app. lia.
  - intros l Hl. apply lookup_app_l. destruct H as (Hlen & _). lia.
Qed.

Lemma grows_alter st0 st (f : obj → obj) l :
  grows n φ st0 st → n ≤ l →
  grows n φ st0 (set_store (alter f l) st).
Proof.
  intros H Hn. apply grows_store; [done| |].
  - by rewrite length_alter.
  - intros l' Hl'. apply list_lookup_alter_ne. lia.
Qed.

Lemma grows_emit st0 st e :
  grows n φ st0 st → φ e → grows n φ st0 (set_events (λ t, t ++ [e]) st).
Proof.
  intros (Hlen & Hfr & (evs & Hev & Hφ) & Hgen) He. repeat split; cbn; try done.
  - exists (evs ++ [e]). rewrite Hev, app_assoc. split; [done|].
    apply Forall_app. split; [done|]. by constructor.
  - all: by apply Hgen.
  - all: by apply Hgen.
  - all: by apply Hgen.
  - all: by apply Hgen.
  - all: by apply Hgen.
  - all: by apply Hgen.
Qed.
End Grows.

Lemma grows_trans n φ st0 st1 st2 :
  grows n φ st0 st1 → grows n φ st1 st2 → grows n φ st0 st2.
Proof.
  intros (Hlen & Hfr & (evs & Hev & Hφ) & Hgen) (Hlen' & Hfr' & (evs' & Hev' & Hφ') & Hgen').
  split; [lia|]. split; [|split].
  - intros l Hl. rewrite Hfr' by done. by apply Hfr.
  - exists (evs ++ evs'). rewrite Hev', Hev, app_assoc. split; [done|].
    apply Forall_app. done.
  - intros Hi. destruct (Hgen Hi) as (Hi1 & ? & ? & ? & ? & ?).
    destruct (Hgen' Hi1) as (? & ? & ? & ? & ? & ?). repeat split; congruence.
Qed.

Lemma grows_weaken n n' (φ φ' : event → Prop) st0 st :
  grows n φ st0 st → n' ≤ n → (∀ e, φ e → φ' e) → grows n' φ' st0 st.
Proof.
  intros (Hlen & Hfr & (evs & Hev & Hφ) & Hgen) Hn Himp. repeat split; try done.
  - intros l Hl. apply Hfr. lia.
  - exists evs. split; [done|]. eapply Forall_impl; eauto.
  - all: by apply Hgen.
  - all: by apply Hgen.
  - all: by apply Hgen.
  - all: by apply Hgen.
  - all: by apply Hgen.
  - all: by apply Hgen.
Qed.

(** Induction on a directory tree: a property of a directory follows from
    the property of each of its entries. *)
Lemma node_rect' (P : node → Prop) :
  (∀ data content, P (File data content)) →
  (∀ config entries, Forall (λ e : string * node, P e.2) entries → P (Directory config entries)) →
  ∀ n, P n.
Proof.
  intros HF HD. fix IH 1. intros [data content|config entries]; [apply HF|].
  apply HD. induction entries as [|[name child] entries IHentries]; constructor.
  - apply IH.
  - apply IHentries.
Qed.

Ltac grows_solve :=
  repeat first
    [ assumption
    | apply grows_emit; [|done]
    | apply grows_alter; [|lia]
    | apply grows_alloc; [|lia] ].

(** A call of a function whose property [lem] is already known. *)
Tactic Notation "wp_call" constr(lem) :=
  apply wp_bind; eapply wp_post; [eapply lem; eauto | cbn beta; intros; cbn beta ].

Tactic Notation "wp_call" constr(lem) "as" simple_intropattern(a) ident(s)
    simple_intropattern(H) :=
  apply wp_bind; eapply wp_post; [eapply lem; eauto | cbn beta; intros a s H; cbn beta ].

Section Shape.
Variable styles : list (string * string).
Variable marked : string → string.
Variable getTemplate : value → obj → string.
Variable ampGenerate : obj → option string.
Context (n : nat) (st0 : state).

Lemma parseContentFile_grows φ l data content st :
  grows n φ st0 st → n ≤ l →
  wp any_exn (parseContentFile marked l data content) (λ _ st', grows n φ st0 st') st.
Proof.
  intros H Hl. unfold parseContentFile. repeat wp_step; grows_solve.
Qed.

Lemma resolveDateAndSlug_grows φ l st :
  grows n φ st0 st → n ≤ l →
  wp any_exn (resolveDateAndSlug l) (λ _ st', grows n φ st0 st') st.
Proof.
  intros H Hl. unfold resolveDateAndSlug. repeat wp_step; grows_solve.
Qed.

Lemma resolvePath_grows φ l pkg dest st :
  grows n φ st0 st → n ≤ l →
  wp any_exn (resolvePath l pkg dest) (λ _ st', grows n φ st0 st') st.
Proof.
  intros H Hl. unfold resolvePath, renderAmpPages. repeat wp_step; grows_solve.
Qed.

Lemma renderContentFile_grows l dest data content st :
  grows n quiet st0 st → n ≤ l →
  wp any_exn (renderContentFile marked getTemplate l dest data content)
     (λ r st', grows n quiet st0 st' ∧ r.1 = l) st.
Proof.
  intros H Hl. unfold renderContentFile.
  wp_step. wp_step.
  wp_call resolveDateAndSlug_grows.
  wp_call resolvePath_grows.
  wp_call parseContentFile_grows.
  repeat wp_step. split; [grows_solve|done].
Qed.

Lemma processContentFile_grows src dest cur file st :
  grows n quiet st0 st → n ≤ length (store st0) →
  wp any_exn (processContentFile marked getTemplate ampGenerate src dest cur file)
     (λ _ st', grows n quiet st0 st') st.
Proof.
  intros H Hn. unfold processContentFile, renderAmpPages.
  assert (n ≤ length (store st)) by (destruct H; lia).
  do 7 wp_step.
  apply wp_bind. eapply wp_post with (Q' := λ r st', grows n quiet st0 st').
  - destruct file.2; [|by apply wp_throw].
    eapply wp_post; [eapply renderContentFile_grows|].
    + grows_solve.
    + lia.
    + by intros ? ? [? ?].
  - cbn beta. intros r st' H'. repeat wp_step; grows_solve.
Qed.

Lemma processContentFiles_grows src entries dest cur st :
  grows n quiet st0 st → n ≤ length (store st0) →
  wp any_exn (processContentFiles marked getTemplate ampGenerate src entries dest cur)
     (λ _ st', grows n quiet st0 st') st.
Proof.
  intros H Hn. unfold processContentFiles.
  apply wp_for_of with (I := λ _ st', grows n quiet st0 st'); [done|].
  intros x acc st' _ H'. wp_call processContentFile_grows. by wp_step.
Qed.

Lemma processAssetFiles_grows src entries dest st :
  grows n quiet st0 st →
  wp any_exn (processAssetFiles src entries dest) (λ _ st', grows n quiet st0 st') st.
Proof.
  intros H. unfold processAssetFiles.
  apply wp_for_of with (I := λ _ st', grows n quiet st0 st'); [done|].
  intros x acc st' _ H'. wp_step. grows_solve.
Qed.

Lemma resolveDirectory_grows φ base dest config entries st :
  grows n φ st0 st → n ≤ length (store st0) →
  wp any_exn (resolveDirectory base dest config entries)
     (λ r st', grows n φ st0 st' ∧ r.1 < length (store st')) st.
Proof.
  intros H Hn. unfold resolveDirectory.
  assert (n ≤ length (store st)) by (destruct H; lia).
  repeat wp_step; cbn; (split; [grows_solve|]);
    rewrite ?length_alter, length_app; cbn; lia.
Qed.

End Shape.

Lemma ready_grows n φ st st' : ready st → grows n φ st st' → ready st'.
Proof.
  intros (Hi & Ht & Ha) (_ & _ & _ & Hgen). destruct (Hgen Hi) as (? & _ & _ & _ & ? & ?).
  repeat split; congruence.
Qed.

Lemma initialize_grows styles n φ config src dest st :
  constructed st →
  wp any_exn (initialize styles config src dest)
     (λ _ st', grows n φ st st' ∧ ready st'
               ∧ baseDestDirectory st' = (if initialized st then baseDestDirectory st else dest)
               ∧ store st' = store st ∧ events st' = events st)
     st.
Proof.
  intros Hc. unfold initialize. wp_step. wp_step. destruct (initialized st) eqn:Hi; cbn [negb].
  - wp_step. split; [apply grows_refl|]. split; [|done]. split; [done|]. by apply Hc.
  - wp_step. wp_step. unfold wp; cbn. split; [|done].
    repeat split; cbn; try done; try congruence.
    exists []. by rewrite app_nil_r.
Qed.

Lemma generate_grows styles marked getTemplate ampGenerate dir :
  ∀ n base src dest st,
    constructed st → n ≤ length (store st) →
    wp any_exn (generate styles marked getTemplate ampGenerate base src dest dir)
       (λ _ st', grows n (λ _, True) st st' ∧ ready st') st.
Proof.
  induction dir as [data content|config entries IH] using node_rect';
    intros n base src dest st Hc Hn; [done|].
  cbn [generate].
  wp_call initialize_grows as _ st1 (Hg1 & Hr1 & _).
  assert (Hn1 : n ≤ length (store st1)) by (destruct Hg1; lia).
  assert (Hpost : ∀ st', grows n (λ _, True) st1 st' →
                         grows n (λ _, True) st st' ∧ ready st').
  { intros st' H'. split; [by eapply grows_trans|by eapply ready_grows]. }
  wp_call (resolveDirectory_grows n st1 quiet) as r st2 [Hg2 _]; [apply grows_refl|].
  wp_step. wp_step.
  wp_call (processAssetFiles_grows n st1) as _ st4 Hg4; [grows_solve|].
  wp_call (processContentFiles_grows marked getTemplate ampGenerate n st1) as own st5 Hg5.
  apply wp_bind.
  eapply wp_post with (Q' := λ _ st', grows n (λ _, True) st1 st').
  - apply wp_for_of with (I := λ _ st', grows n (λ _, True) st1 st').
    { eapply grows_weaken; [done..|]. done. }
    intros [name child] acc s Hin Hg. rewrite Forall_forall in IH.
    destruct child as [|c es]; cbv beta iota; [by wp_step|].
    wp_call (IH _ Hin n) as sub s' [Hg' _].
    + eapply ready_grows in Hg; [|done]. intros _. by destruct Hg as (_ & ? & ?).
    + destruct Hg; lia.
    + wp_step. by eapply grows_trans.
  - cbn beta. intros pages s Hg. repeat wp_step; apply Hpost; grows_solve.
Qed.

(** ** The page list of a directory *)

Section Loops.
Context {A B : Type}.

Lemma bind_ext {C} (m : M C) (k1 k2 : C → M B) st :
  (∀ a st', k1 a st' = k2 a st') → bind m k1 st = bind m k2 st.
Proof. intros H. unfold bind. destruct (m st) as [e|[a st']]; [done|apply H]. Qed.

Lemma for_of_ext (body1 body2 : A → B → M B) xs acc st :
  (∀ x acc st, body1 x acc st = body2 x acc st) →
  for_of body1 xs acc st = for_of body2 xs acc st.
Proof.
  intros H. revert acc st. induction xs as [|x xs IH]; intros acc st; [done|].
  cbn [for_of]. unfold bind. rewrite H.
  destruct (body2 x acc st) as [e|[acc' st']]; [done|apply IH].
Qed.

(** A loop that skips the elements a filter rejects is the loop over the
    filtered list. *)
Lemma for_of_filter (p : A → bool) (body : A → B → M B) xs acc st :
  for_of (λ x acc, if p x then body x acc else ret acc) xs acc st
  = for_of body (List.filter p xs) acc st.
Proof.
  revert acc st. induction xs as [|x xs IH]; intros acc st; [done|].
  cbn [for_of List.filter]. destruct (p x).
  - cbn [for_of]. unfold bind. destruct (body x acc st) as [e|[acc' st']]; [done|apply IH].
  - unfold bind, ret. apply IH.
Qed.
End Loops.

(** A loop that pushes what each call returns builds the list of the results
    of the calls, in order. *)
Lemma for_of_push {A R} (f : A → M R) (g : R → list loc) xs acc st :
  for_of (λ x acc, let* r := f x in ret (acc ++ g r)) xs acc st
  = (let* rs := mapM f xs in ret (acc ++ concat (map g rs))) st.
Proof.
  revert acc st. induction xs as [|x xs IH]; intros acc st.
  - cbn. unfold bind, ret. cbn. by rewrite app_nil_r.
  - cbn [for_of mapM]. unfold bind at 1 2. unfold bind at 2 3.
    destruct (f x st) as [e|[r st']]; [done|]. unfold ret at 1.
    rewrite IH. unfold bind. destruct (mapM f xs st') as [e|[rs st'']]; [done|].
    unfold ret. cbn. by rewrite app_assoc.
Qed.

Lemma bind_cong_l {A B} (m1 m2 : M A) (k : A → M B) st :
  (∀ st', m1 st' = m2 st') → bind m1 k st = bind m2 k st.
Proof. intros H. unfold bind. by rewrite H. Qed.

Lemma bind_assoc {A B C} (m : M A) (k1 : A → M B) (k2 : B → M C) st :
  bind (bind m k1) k2 st = bind m (λ a, bind (k1 a) k2) st.
Proof. unfold bind. by destruct (m st) as [e|[a st']]. Qed.

Lemma concat_singletons {A} (xs : list A) : concat (map (λ x, [x]) xs) = xs.
Proof. induction xs; cbn; congruence. Qed.

(** C2. The page list [generate] returns for a directory is the pages of its
    own content files, in listing order, followed by the lists returned by
    the recursive calls on its subdirectories, in listing order: the run of
    [generate] is, from every state, the run of [generate_by_listing]. *)
Theorem generate_page_list_order styles marked getTemplate ampGenerate
    baseConfig sourceDirectory destDirectory config listing st :
  generate styles marked getTemplate ampGenerate baseConfig sourceDirectory destDirectory
           (Directory config listing) st
  = generate_by_listing styles marked getTemplate ampGenerate baseConfig sourceDirectory
                        destDirectory config listing st.
Proof.
  cbn [generate]. unfold generate_by_listing.
  apply bind_ext; intros _ st1. apply bind_ext; intros [cur odest] st2. cbn [fst snd].
  apply bind_ext; intros _ st3. apply bind_ext; intros _ st4.
  unfold processContentFiles.
  erewrite bind_cong_l by (intros; apply (for_of_push _ (λ p, [p]))).
  rewrite bind_assoc. apply bind_ext; intros own st5.
  change (bind (ret ?a) ?k st5) with (k a st5). cbn beta.
  rewrite concat_singletons, app_nil_l.
  set (G := λ e : string * node,
         generate styles marked getTemplate ampGenerate cur
                  (Path.join [sourceDirectory; e.1]) (Path.join [destDirectory; e.1]) e.2).
  erewrite bind_cong_l.
  2: { intros st'.
       rewrite (for_of_ext _
                  (λ e acc, if isDirectory e.2
                            then (let* r := G e in ret (acc ++ id r)) else ret acc)).
       2: { by intros [name [|c es]] acc st''. }
       rewrite for_of_filter. apply for_of_push. }
  rewrite bind_assoc. apply bind_ext; intros subs st6.
  change (bind (ret ?a) ?k st6) with (k a st6). cbn beta.
  by rewrite map_id.
Qed.

(** ** Template rendering comes last *)

Lemma includes_pages_mono pages pages' e :
  includes_pages pages e → pages ⊆ pages' → includes_pages pages' e.
Proof. destruct e; cbn; try done. intros H1 H2. by etrans. Qed.

Lemma includes_pages_quiet pages e : quiet e → includes_pages pages e.
Proof. by destruct e. Qed.

Lemma generate_template_last styles marked getTemplate ampGenerate dir :
  ∀ base src dest st,
    constructed st →
    wp any_exn (generate styles marked getTemplate ampGenerate base src dest dir)
       (λ pages st',
          ready st'
          ∧ ∃ evs cur,
              events st' = events st ++ evs ++ [TemplateGenerate src dest cur pages]
              ∧ Forall (includes_pages pages) evs) st.
Proof.
  induction dir as [data content|config entries IH] using node_rect';
    intros base src dest st Hc; [done|].
  cbn [generate].
  wp_call (initialize_grows styles 0 quiet) as _ st1 (Hg1 & Hr1 & _).
  wp_call (resolveDirectory_grows 0 st1 quiet) as [cur odest] st2 [Hg2 _];
    [apply grows_refl|lia|].
  cbn [fst snd]. wp_step. wp_step.
  wp_call (processAssetFiles_grows 0 st1) as _ st4 Hg4; [grows_solve|].
  wp_call (processContentFiles_grows marked getTemplate ampGenerate 0 st1) as own st5 Hg5';
    [lia|].
  assert (Hr5 : ready st5) by (by eapply ready_grows).
  assert (Hg5 : grows 0 quiet st st5) by (by eapply grows_trans).
  destruct Hg5 as (_ & _ & (evs5 & Hev5 & Hq5) & _).
  apply wp_bind.
  eapply wp_post
    with (Q' := λ acc st', ready st' ∧ ∃ evs, events st' = events st ++ evs
                                             ∧ Forall (includes_pages acc) evs).
  - apply wp_for_of
      with (I := λ acc st', ready st' ∧ ∃ evs, events st' = events st ++ evs
                                              ∧ Forall (includes_pages acc) evs).
    { split; [done|]. exists evs5. split; [done|].
      eapply Forall_impl; [done|]. intros e. apply includes_pages_quiet. }
    intros [name child] acc s Hin (Hr' & evs & Hev & Hinc). rewrite Forall_forall in IH.
    destruct child as [|c es]; cbv beta iota.
    { wp_step. split; [done|]. by exists evs. }
    wp_call (IH _ Hin) as sub s' (Hr'' & evs' & cur' & Hev' & Hinc').
    { intros _. by destruct Hr' as (_ & ? & ?). }
    wp_step. split; [done|].
    exists (evs ++ evs' ++ [TemplateGenerate (Path.join [src; name]) (Path.join [dest; name])
                                            cur' sub]).
    split; [by rewrite Hev', Hev, <-!app_assoc|].
    rewrite !Forall_app. split; [|split].
    + eapply Forall_impl; [done|]. intros e He. eapply includes_pages_mono; [done|].
      set_solver.
    + eapply Forall_impl; [done|]. intros e He. eapply includes_pages_mono; [done|].
      set_solver.
    + constructor; [|done]. cbn. set_solver.
  - cbn beta. intros pages s ((Hi & Ht & Ha) & evs & Hev & Hinc).
    wp_step. wp_step. rewrite Ht. cbn [when]. wp_step. wp_step. wp_step.
    split; [done|]. exists evs, cur. cbn. split; [|done]. by rewrite Hev, app_assoc.
Qed.

(** ** Configuration inheritance *)

Lemma wp_conj {A} E (m : M A) (Q1 Q2 : A → state → Prop) st :
  wp E m Q1 st → wp E m Q2 st → wp E m (λ a st', Q1 a st' ∧ Q2 a st') st.
Proof. unfold wp. by destruct (m st) as [e|[a st']]. Qed.

Lemma alter_last {A} (f : A → A) (h : list A) (o : A) :
  alter f (length h) (h ++ [o]) = h ++ [f o].
Proof.
  change (list_alter f (length h) (h ++ [o]) = h ++ [f o]).
  induction h as [|x h IH]; cbn; [done|]. by rewrite IH.
Qed.

Lemma resolveDirectory_exact base dest config entries st :
  wp any_exn (resolveDirectory base dest config entries)
     (λ r st',
        r.1 = length (store st)
        ∧ store st' = store st
                      ++ [resolved_config (default ∅ (store st !! base)) dest config entries]
        ∧ events st' = events st) st.
Proof.
  unfold resolveDirectory, resolved_config.
  repeat wp_step; cbn; rewrite ?alter_last; repeat split; try done;
    repeat match goal with
           | H : existsb _ _ = _ |- _ => rewrite H; clear H
           | H : Regex.date_slug _ = _ |- _ => rewrite H; clear H
           end; try done;
    rewrite ?lookup_app_r, ?Nat.sub_diag by (rewrite ?length_app; cbn; lia); cbn;
    try done.
Qed.

Lemma grows_prefix φ st0 st :
  grows (length (store st0)) φ st0 st → store st0 `prefix_of` store st.
Proof.
  intros (Hlen & Hfr & _). exists (drop (length (store st0)) (store st)).
  apply list_eq. intros i. destruct (decide (i < length (store st0))) as [Hi|Hi].
  - rewrite lookup_app_l by done. by apply Hfr.
  - rewrite lookup_app_r by lia. rewrite lookup_drop. f_equal. lia.
Qed.

Lemma prefix_lookup_Some {A} (h h' : list A) l o :
  h `prefix_of` h' → h !! l = Some o → h' !! l = Some o.
Proof. intros [k ->] H. by apply lookup_app_l_Some. Qed.

Lemma template_configs_app h evs1 evs2 :
  template_configs h (evs1 ++ evs2) = template_configs h evs1 ++ template_configs h evs2.
Proof. apply omap_app. Qed.

Lemma template_configs_quiet h evs : Forall quiet evs → template_configs h evs = [].
Proof.
  induction 1 as [|e evs He _ IH]; [done|]. unfold template_configs in *. cbn.
  rewrite IH. by destruct e.
Qed.

Lemma grows_events φ n st0 st :
  grows n φ st0 st → ∃ evs, events st = events st0 ++ evs ∧ Forall φ evs.
Proof. by intros (_ & _ & H & _). Qed.

Lemma generate_configs styles marked getTemplate ampGenerate dir :
  ∀ base src dest st,
    constructed st →
    wp any_exn (generate styles marked getTemplate ampGenerate base src dest dir)
       (λ _ st',
          ready st' ∧ store st `prefix_of` store st'
          ∧ ∃ evs, events st' = events st ++ evs
                   ∧ ∀ h, store st' `prefix_of` h →
                          template_configs h evs
                          = directory_configs (default ∅ (store st !! base)) src dest dir) st.
Proof.
  induction dir as [data content|config entries IH] using node_rect';
    intros base src dest st Hc; [done|].
  cbn [generate].
  wp_call (initialize_grows styles 0 quiet) as _ st1 (_ & Hr1 & _ & Hs1 & He1).
  apply wp_bind. eapply wp_post.
  { apply wp_conj; [apply resolveDirectory_exact|].
    apply (resolveDirectory_grows 0 st1 quiet); [apply grows_refl|lia]. }
  cbn beta. intros [cur odest] st2 ((Hcur & Hs2 & He2) & (Hg2 & _)). cbn [fst snd] in *.
  set (rc := resolved_config (default ∅ (store st1 !! base)) dest config entries) in *.
  assert (Hrc : store st2 !! cur = Some rc).
  { rewrite Hs2, Hcur, lookup_app_r, Nat.sub_diag by lia. done. }
  assert (Hr2 : ready st2) by (by eapply ready_grows).
  wp_step. wp_step.
  wp_call (processAssetFiles_grows (length (store st2)) st2) as _ st4 Hg4;
    [apply grows_emit; [apply grows_refl|done]|].
  wp_call (processContentFiles_grows marked getTemplate ampGenerate (length (store st2)) st2)
    as own st5 Hg5.
  assert (Hr5 : ready st5) by (by eapply ready_grows).
  pose proof (grows_prefix _ _ _ Hg5) as Hp5.
  destruct (grows_events _ _ _ _ Hg5) as (evs5 & Hev5 & Hq5).
  (* the loop over the subdirectories *)
  set (children := λ es : list (string * node),
         concat (map (λ '(name, child),
                        match child with
                        | Directory _ _ =>
                            directory_configs rc (Path.join [src; name])
                                              (Path.join [dest; name]) child
                        | File _ _ => []
                        end) es)).
  apply wp_bind.
  eapply wp_post
    with (Q' := λ _ st', ready st' ∧ store st5 `prefix_of` store st'
                         ∧ ∃ evs, events st' = events st5 ++ evs
                                  ∧ ∀ h, store st' `prefix_of` h →
                                         template_configs h evs = children entries).
  - assert (Hloop : ∀ es, Forall (λ e : string * node,
        ∀ base src dest st,
          constructed st →
          wp any_exn (generate styles marked getTemplate ampGenerate base src dest e.2)
            (λ _ st',
               ready st' ∧ store st `prefix_of` store st'
               ∧ ∃ evs, events st' = events st ++ evs
                   ∧ ∀ h, store st' `prefix_of` h →
                          template_configs h evs
                          = directory_configs (default ∅ (store st !! base)) src dest e.2)
            st) es → ∀ acc s,
              ready s → store st2 `prefix_of` store s →
              wp any_exn
                 (for_of
                    (λ '(subDirectoryName, entry) pages,
                       match entry with
                       | Directory _ _ =>
                           let* subContent :=
                             generate styles marked getTemplate ampGenerate cur
                                      (Path.join [src; subDirectoryName])
                                      (Path.join [dest; subDirectoryName]) entry in
                           ret (pages ++ subContent)
                       | File _ _ => ret pages
                       end) es acc)
                 (λ _ st', ready st' ∧ store s `prefix_of` store st'
                           ∧ ∃ evs, events st' = events s ++ evs
                                    ∧ ∀ h, store st' `prefix_of` h →
                                           template_configs h evs = children es) s).
    { clearbody rc. clear -Hrc. intros es Hes.
      induction Hes as [|[name child] es IHchild _ IHes]; intros acc s Hr Hp.
      { cbn [for_of]. wp_step. split; [done|]. split; [done|].
        exists []. by rewrite app_nil_r. }
      cbn [for_of]. cbv beta iota. cbn [snd] in IHchild.
      destruct child as [|c ces].
      - apply wp_bind. wp_step. apply IHes; done.
      - apply wp_bind. wp_call (IHchild cur) as sub s1 (Hr1 & Hp1 & evs1 & Hev1 & Htc1).
        { intros _. by destruct Hr as (_ & ? & ?). }
        wp_step. eapply wp_post; [apply IHes; [done|by etrans]|].
        cbn beta. intros _ s2 (Hr2 & Hp2 & evs2 & Hev2 & Htc2).
        split; [done|]. split; [by etrans|].
        exists (evs1 ++ evs2). split; [by rewrite Hev2, Hev1, app_assoc|].
        intros h Hh. rewrite template_configs_app, Htc2 by done.
        rewrite Htc1 by (by etrans). unfold children. cbn [map concat].
        by rewrite (prefix_lookup_Some _ _ _ _ Hp Hrc). }
    apply Hloop; [done|done|]. done.
  - cbn beta. intros pages s ((Hi & Ht & Ha) & Hp & evs & Hev & Htc).
    wp_step. wp_step. rewrite Ht. cbn [when]. wp_step. wp_step. wp_step. cbn.
    split; [done|]. split.
    { rewrite <-Hs1. etrans; [|done]. etrans; [|done]. rewrite Hs2. by apply prefix_app_r. }
    exists (evs5 ++ evs ++ [TemplateGenerate src dest cur pages]).
    split.
    { rewrite Hev, Hev5. cbn. rewrite He2, He1. by rewrite <-!app_assoc. }
    intros h Hh. rewrite !template_configs_app, Htc by done.
    rewrite template_configs_quiet.
    2: { eapply Forall_impl; [done|]. done. }
    cbn. rewrite <-Hs1.
    assert (h !! cur = Some rc) as ->; [|done].
    eapply prefix_lookup_Some; [|done]. etrans; [|done]. by etrans.
Qed.

(** C6. Configuration inheritance is top-down. A run of [generate] leaves
    every object that was in the store before the call as it was, the
    configuration mapping of the caller in particular; and the configuration
    with which each directory of the tree is compiled is the one
    [directory_configs] computes from the top down, in which a directory
    receives the configuration of its parent and nothing from its siblings or
    its children. *)
Theorem config_inheritance_top_down styles marked getTemplate ampGenerate
    baseConfig sourceDirectory destDirectory dir st pages st' :
  constructed st →
  generate styles marked getTemplate ampGenerate baseConfig sourceDirectory destDirectory
           dir st = inr (pages, st') →
  (∀ l o, store st !! l = Some o → store st' !! l = Some o)
  ∧ ∃ evs,
      events st' = events st ++ evs
      ∧ template_configs (store st') evs
        = directory_configs (default ∅ (store st !! baseConfig))
                            sourceDirectory destDirectory dir.
Proof.
  intros Hc Hrun.
  pose proof (generate_configs styles marked getTemplate ampGenerate dir
                baseConfig sourceDirectory destDirectory st Hc) as H.
  eapply wp_inr in H; [|done]. destruct H as (_ & Hp & evs & Hev & Htc). split.
  - intros l o. by apply prefix_lookup_Some.
  - exists evs. split; [done|]. by apply Htc.
Qed.

(** ** Content files and their extension *)

Lemma has_md_filename_setp l k v st :
  k ≠ "filename" → has_md_filename l st →
  has_md_filename l (set_store (alter (<[k := v]>) l) st).
Proof.
  intros Hk (o & f & Ho & Hf & Hext). exists (<[k := v]> o), f. cbn.
  rewrite list_lookup_alter_eq, Ho. split; [done|]. by rewrite lookup_insert_ne.
Qed.

Lemma has_md_filename_assign l data st :
  data !! "filename" = None → has_md_filename l st →
  has_md_filename l (set_store (alter (λ o, assign o data) l) st).
Proof.
  intros Hd (o & f & Ho & Hf & Hext). exists (assign o data), f. cbn.
  rewrite list_lookup_alter_eq, Ho. split; [done|]. unfold assign.
  by rewrite lookup_union_r.
Qed.

Lemma has_md_filename_emit l e st :
  has_md_filename l st → has_md_filename l (set_events (λ t, t ++ [e]) st).
Proof. done. Qed.

Lemma has_md_filename_get l st s :
  has_md_filename l st → get "filename" (default ∅ (store st !! l)) = VStr s →
  JS.substr_from 1 (Path.extname s) = "md".
Proof.
  intros (o & f & Ho & Hf & Hext). rewrite Ho. unfold get. cbn. rewrite Hf. cbn.
  by intros [= <-].
Qed.

Ltac md_solve :=
  repeat first
    [ assumption
    | apply has_md_filename_emit
    | apply has_md_filename_setp; [done|]
    | apply has_md_filename_assign; [done|] ].

Lemma parseContentFile_md marked l data content st :
  has_md_filename l st → data !! "filename" = None →
  wp not_unsupported (parseContentFile marked l data content)
     (λ _ st', has_md_filename l st') st.
Proof.
  intros H Hd. unfold parseContentFile.
  do 8 wp_step.
  apply wp_bind.
  eapply wp_post with (Q' := λ _ st', has_md_filename l st').
  { repeat wp_step; md_solve. }
  cbn beta. intros ? st1 H1. wp_step. wp_step. wp_step.
  apply wp_as_string; [done|]. intros filename Hfilename.
  apply (has_md_filename_get _ _ _ H1) in Hfilename. rewrite Hfilename.
  cbn [String.eqb Ascii.eqb].
  repeat wp_step; md_solve.
Qed.

Lemma resolveDateAndSlug_md l st :
  has_md_filename l st →
  wp not_unsupported (resolveDateAndSlug l) (λ _ st', has_md_filename l st') st.
Proof. intros H. unfold resolveDateAndSlug. repeat wp_step; md_solve. Qed.

Lemma resolvePath_md l pkg dest st :
  has_md_filename l st →
  wp not_unsupported (resolvePath l pkg dest) (λ _ st', has_md_filename l st') st.
Proof. intros H. unfold resolvePath, renderAmpPages. repeat wp_step; md_solve. Qed.

Lemma renderContentFile_md marked getTemplate l dest data content st :
  has_md_filename l st → data !! "filename" = None →
  wp not_unsupported (renderContentFile marked getTemplate l dest data content)
     (λ _ _, True) st.
Proof.
  intros H Hd. unfold renderContentFile. wp_step. wp_step.
  wp_call resolveDateAndSlug_md as ? st1 H1.
  wp_call resolvePath_md as ? st2 H2.
  wp_call parseContentFile_md as ? st3 H3.
  by repeat wp_step.
Qed.

(** A content file has the extension [md]. *)
Lemma is_content_md f n :
  is_content f n = true → JS.substr_from 1 (Path.extname f) = "md".
Proof.
  unfold is_content, includes, contentExtensionsToInclude. cbn [existsb].
  rewrite !andb_true_iff, orb_false_r. intros (_ & H). by apply String.eqb_eq.
Qed.

Lemma processContentFile_md marked getTemplate ampGenerate src dest cur file st :
  is_content file.1 file.2 = true →
  no_filename_override file.2 →
  wp not_unsupported (processContentFile marked getTemplate ampGenerate src dest cur file)
     (λ _ _, True) st.
Proof.
  intros Hc Hno. unfold processContentFile, renderAmpPages. do 7 wp_step.
  apply wp_bind. eapply wp_post with (Q' := λ _ _, True).
  - destruct file as [name [data content|c es]]; cbn [fst snd] in *; [|by wp_step].
    apply renderContentFile_md; [|done].
    eexists _, name. cbn. rewrite !alter_last.
    rewrite lookup_app_r, Nat.sub_diag by lia. cbn. split; [done|].
    split; [|by apply is_content_md in Hc].
    rewrite lookup_insert_ne by done. by rewrite lookup_insert_eq.
  - cbn beta. intros. by repeat wp_step.
Qed.

Lemma no_filename_override_entries config entries :
  no_filename_override (Directory config entries) →
  Forall (λ e : string * node, no_filename_override e.2) entries.
Proof.
  cbn. induction entries as [|[name child] es IH]; [done|].
  intros [H1 H2]. constructor; [done|by apply IH].
Qed.

Lemma generate_md styles marked getTemplate ampGenerate dir :
  ∀ base src dest st,
    no_filename_override dir →
    wp not_unsupported (generate styles marked getTemplate ampGenerate base src dest dir)
       (λ _ _, True) st.
Proof.
  induction dir as [data content|config entries IH] using node_rect';
    intros base src dest st Hno; [done|].
  apply no_filename_override_entries in Hno. rewrite Forall_forall in IH, Hno.
  cbn [generate].
  apply wp_bind. eapply wp_post with (Q' := λ _ _, True).
  { unfold initialize. wp_step. wp_step.
    destruct (negb _); [wp_step; wp_step; by unfold wp|by wp_step]. }
  cbn beta. intros _ st1 _.
  apply wp_bind. eapply wp_post with (Q' := λ _ _, True).
  { unfold resolveDirectory. by repeat wp_step. }
  cbn beta. intros r st2 _. wp_step. wp_step.
  apply wp_bind. eapply wp_post with (Q' := λ _ _, True).
  { unfold processAssetFiles. apply wp_for_of with (I := λ _ _, True); [done|].
    intros. by wp_step. }
  cbn beta. intros _ st4 _.
  apply wp_bind. eapply wp_post with (Q' := λ _ _, True).
  { unfold processContentFiles. apply wp_for_of with (I := λ _ _, True); [done|].
    intros file acc s Hin _. apply list_elem_of_In, filter_In in Hin as [Hin Hc].
    wp_call processContentFile_md as ? s1 ?; [|by wp_step].
    apply Hno. by apply list_elem_of_In. }
  cbn beta. intros own st5 _.
  apply wp_bind. eapply wp_post with (Q' := λ _ _, True).
  { apply wp_for_of with (I := λ _ _, True); [done|].
    intros [name child] acc s Hin _. destruct child as [|c es]; cbv beta iota; [by wp_step|].
    wp_call (IH _ Hin) as ? s1 ?; first [by apply (Hno _ Hin)|by wp_step]. }
  cbn beta. intros. by repeat wp_step.
Qed.

(** ** Failures of the AMP generator *)


Section Alike.
Context {A B : Type}.





End Alike.






















Section AmpFailures.
Variable styles : list (string * string).
Variable marked : string → string.
Variable getTemplate : value → obj → string.
Variables amp1 amp2 : obj → option string.


End AmpFailures.

(** ** Dates and slugs from file names *)

Lemma wp_total {A} (m : M A) Q st :
  wp (λ _, False) m Q st → ∃ a st', m st = inr (a, st') ∧ Q a st'.
Proof. unfold wp. destruct (m st) as [e|[a st']]; [done|eauto]. Qed.

Lemma append_cons c s1 s2 : String c s1 +:+ s2 = String c (s1 +:+ s2).
Proof. done. Qed.

Lemma append_nil_l s : "" +:+ s = s.
Proof. done. Qed.

Lemma append_assoc s1 s2 s3 : (s1 +:+ s2) +:+ s3 = s1 +:+ s2 +:+ s3.
Proof. induction s1 as [|c s1 IH]; [done|]. by rewrite !append_cons, IH. Qed.

Lemma forallb_app p s1 s2 :
  JS.forallb p (s1 +:+ s2) = JS.forallb p s1 && JS.forallb p s2.
Proof.
  induction s1 as [|c s1 IH]; [done|]. rewrite append_cons. cbn [JS.forallb].
  by rewrite IH, andb_assoc.
Qed.

Lemma strip_extension_app stem ext :
  is_extension ext → Regex.strip_extension (stem +:+ "." +:+ ext) = stem.
Proof.
  intros [Hne Hw]. induction stem as [|c stem IH].
  - rewrite append_nil_l, append_cons, append_nil_l. cbn. rewrite Hw. by destruct ext.
  - rewrite append_cons. cbn [Regex.strip_extension]. rewrite IH.
    rewrite forallb_app, append_cons. cbn. by rewrite !andb_false_r.
Qed.

Lemma span_all p s : JS.forallb p s = true → JS.span p s = (s, "").
Proof.
  induction s as [|c s IH]; cbn; [done|]. intros [Hc Hs]%andb_true_iff.
  by rewrite Hc, IH.
Qed.

Lemma date_prefix_app d r : is_date d → Regex.date_prefix (d +:+ r) = Some (d, r).
Proof.
  unfold is_date. intros H.
  do 10 (destruct d as [|? d]; [done|]).
  rewrite !append_cons. cbn in H. cbn.
  destruct (_ && _); [|done]. by simplify_eq.
Qed.

Lemma date_slug_dated d sep s :
  is_date d → Regex.is_separator sep = true → single_line s →
  Regex.date_slug (d +:+ String sep s) = Some (Some d, s).
Proof.
  intros Hd Hsep Hs. unfold Regex.date_slug. rewrite date_prefix_app by done.
  rewrite Hsep. by rewrite span_all.
Qed.

(** C5. For a content file named [YYYY-MM-DD-slug.ext] or
    [YYYY-MM-DD_slug.ext] whose page configuration carries neither a date nor
    a slug (nor the [permalink] alias of the slug), the date the generator
    derives is the date text of the name and the slug it derives is what
    follows the separator. *)
Theorem date_and_slug_from_filename l st o d sep s ext :
  store st !! l = Some o →
  get "filename" o = VStr (d +:+ String sep s +:+ "." +:+ ext) →
  is_date d → sep = "-"%char ∨ sep = "_"%char → single_line s → is_extension ext →
  truthy (get "date" o) = false →
  truthy (get "slug" o) = false →
  truthy (get "permalink" o) = false →
  ∃ st',
    resolveDateAndSlug l st = inr (tt, st')
    ∧ store st' !! l = Some (<["slug" := VStr s]> (<["date" := VStr d]> o)).
Proof.
  intros Ho Hfn Hd Hsep Hs Hext Hdate Hslug Hperm.
  assert (Hm : Regex.date_slug_dot
                 (Regex.strip_extension (d +:+ String sep s +:+ "." +:+ ext))
               = Some (Some d, s)).
  { rewrite <-(append_assoc d (String sep s)).
    rewrite strip_extension_app by done. apply date_slug_dated; try done.
    by destruct Hsep as [-> | ->]. }
  enough (wp (λ _, False) (resolveDateAndSlug l)
             (λ _ st', store st' !! l
                       = Some (<["slug" := VStr s]> (<["date" := VStr d]> o))) st) as H.
  { apply wp_total in H as ([] & st' & ? & ?). eauto. }
  unfold resolveDateAndSlug. wp_step. wp_step. rewrite Ho. cbn [default from_option id].
  rewrite Hslug, Hperm. cbn [negb andb when]. wp_step. wp_step. wp_step. wp_step.
  rewrite Ho. cbn [default from_option id]. rewrite Hdate, Hslug, Hfn. cbn [negb orb when as_string].
  wp_step. wp_step. rewrite Hm. cbn [fst snd of_group]. wp_step. wp_step. wp_step.
  cbn. by rewrite !list_lookup_alter_eq, Ho.
Qed.

(** ** The output path of a content package *)

Lemma get_insert_eq k v (o : obj) : get k (<[k := v]> o) = v.
Proof. unfold get. by rewrite lookup_insert_eq. Qed.

Lemma get_insert_ne k k' v (o : obj) : k' ≠ k → get k (<[k' := v]> o) = get k o.
Proof. intros H. unfold get. by rewrite lookup_insert_ne. Qed.

Lemma get_assign_absent k (o src : obj) : src !! k = None → get k (assign o src) = get k o.
Proof. intros H. unfold get, assign. by rewrite lookup_union_r. Qed.

Lemma get_assign_empty k (o : obj) : get k (assign ∅ o) = get k o.
Proof.
  unfold get, assign. rewrite lookup_union. rewrite lookup_empty.
  by destruct (o !! k).
Qed.

Lemma field_load l k v st : field l k v st → get k (default ∅ (store st !! l)) = v.
Proof. by intros (o & -> & H). Qed.

Lemma field_setp_eq l k v st :
  l < length (store st) → field l k v (set_store (alter (<[k := v]>) l) st).
Proof.
  intros Hl. destruct (lookup_lt_is_Some_2 _ _ Hl) as [o Ho].
  exists (<[k := v]> o). cbn. rewrite list_lookup_alter_eq, Ho. split; [done|].
  apply get_insert_eq.
Qed.

Lemma field_setp_ne l k v k' v' st :
  k' ≠ k → field l k v st → field l k v (set_store (alter (<[k' := v']>) l) st).
Proof.
  intros Hk (o & Ho & Hv). exists (<[k' := v']> o). cbn.
  rewrite list_lookup_alter_eq, Ho. split; [done|]. by rewrite get_insert_ne.
Qed.

Lemma field_assign l k v data st :
  data !! k = None → field l k v st →
  field l k v (set_store (alter (λ o, assign o data) l) st).
Proof.
  intros Hk (o & Ho & Hv). exists (assign o data). cbn.
  rewrite list_lookup_alter_eq, Ho. split; [done|]. by rewrite get_assign_absent.
Qed.

Lemma field_emit l k v e st : field l k v st → field l k v (set_events (λ t, t ++ [e]) st).
Proof. done. Qed.

Lemma field_valid l k v st : field l k v st → l < length (store st).
Proof. intros (o & Ho & _). by eapply lookup_lt_Some. Qed.

Ltac field_solve :=
  repeat first
    [ assumption
    | apply field_emit
    | apply field_setp_ne; [done|]
    | apply field_assign; [done|] ].


Lemma wp_conj_total {A} E (m : M A) (Q1 Q2 : A → state → Prop) st :
  wp E m Q1 st → wp any_exn m Q2 st → wp E m (λ a st', Q1 a st' ∧ Q2 a st') st.
Proof. unfold wp. by destruct (m st) as [e|[a st']]. Qed.

Lemma eqb_nonempty s : s ≠ "" → String.eqb s "" = false.
Proof. intros H. by apply String.eqb_neq. Qed.

Lemma field_setp_last l k v k' v' st :
  field l k' v' st →
  field l k v (set_store (alter (<[k := v]>) l) st).
Proof. intros H. apply field_setp_eq. by eapply field_valid. Qed.



Lemma grows_baseDest n φ st0 st :
  initialized st0 = true → grows n φ st0 st →
  initialized st = true ∧ baseDestDirectory st = baseDestDirectory st0.
Proof. intros Hi (_ & _ & _ & Hgen). by destruct (Hgen Hi) as (? & _ & ? & _). Qed.




Lemma is_date_nonempty d : is_date d → d ≠ "".
Proof. by intros H ->. Qed.




(** ** Sample runs *)


(** C4. In the content package [/projects/], the page of [index.md] goes to
    [projects/], and the page of the loose [about.md] goes to
    [projects/projects/], under the slug of the directory, where the
    specification has [projects/about/]. *)
Theorem loose_file_in_package_gets_directory_slug :
  page_fields "path" (sample_generate amp_succeeds projects_site)
  = inr [VStr "projects"; VStr "projects/projects"]
  ∧ written_files (sample_generate amp_succeeds projects_site)
    = inr ["/site/_dist/projects/index.html"; "/site/_dist/projects/projects/index.html"].
Proof. vm_compute. by split. Qed.

(** C8. The page of [/about.md] has the path [about], and its [path_amp]
    is [aboutamp.html]: [amp.html] is appended to the path without a
    separator, where the specification has [about/amp.html]. *)
Theorem path_amp_lacks_separator :
  page_fields "path" (sample_generate amp_succeeds about_site) = inr [VStr "about"]
  ∧ page_fields "path_amp" (sample_generate amp_succeeds about_site)
    = inr [VStr "aboutamp.html"].
Proof. vm_compute. by split. Qed.

(** C9. The body of [/gallery.md] holds two image references with bare
    file names on one line, and the page is produced with the second one
    prefixed by the page's path and the first one as it was: the greedy
    alternative text of the pattern runs up to the last reference of the
    line. With one reference per line ([/album.md]) the first reference
    alone is prefixed, and so is every [src] and [href] attribute. *)
Theorem second_image_of_a_line_is_rewritten :
  page_fields "content_html" (sample_generate amp_succeeds gallery_site)
  = inr [VStr "![a](x.png) ![b](/gallery/y.png)"]
  ∧ page_fields "content_html" (sample_generate amp_succeeds album_site)
    = inr [VStr ("![a](/album/x.png)" +:+ newline +:+ "![b](y.png)" +:+ newline
                 +:+ "<img " +:+ attribute "src" "/album/s.png" +:+ "> <a "
                 +:+ attribute "href" "/album/t.pdf" +:+ ">")].
Proof. vm_compute. by split. Qed.

(** C10, as stated, fails: [post.md] is a content file, and parsing it
    reaches the unsupported-extension error, because its front matter
    declares another file name. *)
Lemma unsupported_extension_is_reachable :
  is_content "post.md" (File {["filename" := VStr "notes.txt"]} "Notes.") = true
  ∧ sample_generate amp_succeeds renamed_site = inl (UnsupportedExtension "txt").
Proof. vm_compute. by split. Qed.

(** C10 (as amended). Every content file has the extension [md] and is not
    an asset file; and when no front matter of the tree declares a
    [filename], no run of [generate] throws the unsupported-extension
    error. *)
Theorem content_files_are_markdown styles marked getTemplate ampGenerate
    baseConfig sourceDirectory destDirectory dir st :
  no_filename_override dir →
  (∀ f n, is_content f n = true →
          JS.substr_from 1 (Path.extname f) = "md" ∧ is_asset f n = false)
  ∧ ∀ ext,
      generate styles marked getTemplate ampGenerate baseConfig sourceDirectory
               destDirectory dir st
      ≠ inl (UnsupportedExtension ext).
Proof.
  intros Hno. split.
  - intros f n Hc. pose proof (is_content_md f n Hc) as Hext. split; [done|].
    unfold is_asset. rewrite Hext. cbn. by rewrite !andb_false_r.
  - intros ext Hrun.
    pose proof (generate_md styles marked getTemplate ampGenerate dir baseConfig
                  sourceDirectory destDirectory st Hno) as H.
    unfold wp in H. by rewrite Hrun in H.
Qed.

Lemma constructed_just_constructed : constructed just_constructed.
Proof. intros H. discriminate H. Defined.

Lemma returns_inr {A} (r : exn + A) : returns r = true → ∃ a, r = inr a.
Proof. destruct r as [e|a]; [discriminate|eauto]. Defined.

Lemma blog_site_runs :
  ∃ pages st', sample_generate amp_succeeds blog_site = inr (pages, st').
Proof.
  destruct (returns_inr (sample_generate amp_succeeds blog_site)) as [[pages st'] Hrun].
  - vm_compute. reflexivity.
  - eauto.
Defined.

Lemma config_inheritance_top_down_witness :
  ∃ pages st',
    sample_generate amp_succeeds blog_site = inr (pages, st')
    ∧ (∀ l o, store just_constructed !! l = Some o → store st' !! l = Some o)
    ∧ ∃ evs,
        events st' = events just_constructed ++ evs
        ∧ template_configs (store st') evs
          = directory_configs (default ∅ (store just_constructed !! 0))
                              "/site/content" "/site/_dist" blog_site.
Proof.
  destruct blog_site_runs as (pages & st' & Hrun).
  exists pages, st'. split; [exact Hrun|].
  exact (config_inheritance_top_down _ _ _ _ _ _ _ _ _ _ _
           constructed_just_constructed Hrun).
Defined.

Lemma date_and_slug_from_filename_witness :
  ∃ st',
    resolveDateAndSlug 0 (State [{["filename" := VStr "2024-02-01_second.md"]}]
                                true "" "" None true true [])
    = inr (tt, st')
    ∧ store st' !! 0
      = Some (<["slug" := VStr "second"]>
                (<["date" := VStr "2024-02-01"]>
                   {["filename" := VStr "2024-02-01_second.md"]})).
Proof.
  apply (date_and_slug_from_filename 0 _ _ "2024-02-01" "_" "second" "md").
  - reflexivity.
  - reflexivity.
  - reflexivity.
  - by right.
  - reflexivity.
  - split; [discriminate|reflexivity].
  - reflexivity.
  - reflexivity.
  - reflexivity.
Defined.

Lemma content_files_are_markdown_witness :
  no_filename_override blog_site
  ∧ (JS.substr_from 1 (Path.extname "2024-02-01_second.md") = "md"
     ∧ is_asset "2024-02-01_second.md" (File ∅ "Second.") = false)
  ∧ sample_generate amp_succeeds blog_site ≠ inl (UnsupportedExtension "md").
Proof.
  assert (Hno : no_filename_override blog_site) by (by repeat split).
  destruct (content_files_are_markdown [] plain_marked title_template amp_succeeds 0
              "/site/content" "/site/_dist" blog_site just_constructed Hno) as [H1 H2].
  split; [exact Hno|]. split; [by apply (H1 _ (File ∅ "Second."))|apply H2].
Defined.

(** ** Assets, pages and the files of a run *)

Lemma write_targets_app evs1 evs2 :
  write_targets (evs1 ++ evs2) = write_targets evs1 ++ write_targets evs2.
Proof. apply omap_app. Qed.

Lemma copies_app evs1 evs2 : copies (evs1 ++ evs2) = copies evs1 ++ copies evs2.
Proof. apply omap_app. Qed.

Lemma for_of_emit {A} (event_of : A → event) xs st :
  for_of (λ x _, emit (event_of x)) xs tt st
  = inr (tt, State (store st) (initialized st) (baseSourceDirectory st)
                   (baseDestDirectory st) (baseTemplateData st) (templateGenerator st)
                   (ampGenerator st) (events st ++ map event_of xs)).
Proof.
  revert st. induction xs as [|x xs IH]; intros st.
  - cbn. rewrite app_nil_r. by destruct st.
  - cbn [for_of]. unfold bind at 1. cbn [emit]. rewrite IH. cbn.
    by rewrite <- app_assoc.
Qed.

Lemma processAssetFiles_run sourceDirectory listing actualDestDirectory st :
  processAssetFiles sourceDirectory listing actualDestDirectory st
  = inr (tt, State (store st) (initialized st) (baseSourceDirectory st)
                   (baseDestDirectory st) (baseTemplateData st) (templateGenerator st)
                   (ampGenerator st)
                   (events st
                    ++ map (λ e, CopyFile (Path.join [sourceDirectory; e.1])
                                          (Path.join [actualDestDirectory; e.1]))
                           (List.filter (λ e, is_asset e.1 e.2) listing))).
Proof. unfold processAssetFiles. apply for_of_emit. Qed.

Lemma changes_refl l st : changes l [] st st.
Proof. repeat split; try done. by rewrite app_nil_r. Qed.

Lemma changes_alter l evs st0 st (f : obj → obj) :
  changes l evs st0 st → changes l evs st0 (set_store (alter f l) st).
Proof.
  intros (Hlen & Hfr & Hrest). split; [|split; [|exact Hrest]]; cbn.
  - by rewrite length_alter.
  - intros l' Hl'. rewrite list_lookup_alter_ne by done. by apply Hfr.
Qed.

Lemma changes_emit l evs st0 st e :
  changes l evs st0 st → changes l (evs ++ [e]) st0 (set_events (λ t, t ++ [e]) st).
Proof.
  intros (Hlen & Hfr & Hev & Hrest). split; [done|]. split; [done|]. split; [|exact Hrest].
  cbn. by rewrite Hev, app_assoc.
Qed.

Lemma changes_trans l evs1 evs2 st0 st1 st2 :
  changes l evs1 st0 st1 → changes l evs2 st1 st2 → changes l (evs1 ++ evs2) st0 st2.
Proof.
  intros (Hlen & Hfr & Hev & ? & ? & ? & ? & ? & ?)
         (Hlen' & Hfr' & Hev' & ? & ? & ? & ? & ? & ?).
  repeat split; try congruence.
  - intros l' Hl'. rewrite Hfr' by done. by apply Hfr.
  - by rewrite Hev', Hev, app_assoc.
Qed.

Ltac changes_solve :=
  repeat first
    [ assumption
    | apply changes_refl
    | apply changes_alter ].

Section Changes.
Variable marked : string → string.
Variable getTemplate : value → obj → string.

Lemma resolveDateAndSlug_changes l st0 st :
  changes l [] st0 st →
  wp any_exn (resolveDateAndSlug l) (λ _ st', changes l [] st0 st') st.
Proof. intros H. unfold resolveDateAndSlug. repeat wp_step; changes_solve. Qed.

Lemma resolvePath_changes l pkg dest st0 st :
  changes l [] st0 st →
  wp any_exn (resolvePath l pkg dest) (λ _ st', changes l [] st0 st') st.
Proof. intros H. unfold resolvePath, renderAmpPages. repeat wp_step; changes_solve. Qed.

Lemma parseContentFile_changes l data content st0 st :
  changes l [] st0 st →
  wp any_exn (parseContentFile marked l data content) (λ _ st', changes l [] st0 st') st.
Proof. intros H. unfold parseContentFile. repeat wp_step; changes_solve. Qed.

Lemma get_default_field l k s st :
  get k (default ∅ (store st !! l)) = VStr s → field l k (VStr s) st.
Proof.
  intros H. destruct (store st !! l) as [o|] eqn:Ho; [by exists o|]. done.
Qed.

(** What [renderContentFile] does, whenever it returns. *)
Lemma renderContentFile_changes l dest data content st :
  wp any_exn (renderContentFile marked getTemplate l dest data content)
     (λ r st',
        r.1 = l
        ∧ ∃ o p,
            store st' !! l = Some o ∧ get "path" o = VStr p
            ∧ r.2 = assign (assign ∅ (default ∅ (baseTemplateData st))) o
            ∧ let destDirectory := Path.join [baseDestDirectory st; p] in
              changes l [ConsoleLog (Path.join [p]); EnsureDir destDirectory;
                         WriteFile (Path.join [destDirectory; contentPageName])
                                   (getTemplate
                                      (if truthy (get "layout" o) then get "layout" o
                                       else VStr "default") r.2)]
                      st st') st.
Proof.
  unfold renderContentFile. wp_step. wp_step.
  wp_call resolveDateAndSlug_changes as ? st1 H1; [apply changes_refl|].
  wp_call resolvePath_changes as ? st2 H2.
  wp_call parseContentFile_changes as contentFile st3 H3.
  wp_step. wp_step.
  match goal with |- wp _ _ _ ?s => set (st4 := s) end.
  assert (H4 : changes l [] st st4) by (subst st4; changes_solve).
  clearbody st4. do 4 wp_step.
  apply wp_bind. apply wp_as_string; [done|]. intros p Hp.
  apply get_default_field in Hp as (o & Ho & Hp).
  repeat wp_step. cbn [fst snd]. split; [done|].
  exists o, p. rewrite Ho. cbn [default from_option id].
  destruct H4 as (Hlen & Hfr & Hev & Hi & Hbs & Hbd & Hbt & Htg & Hag).
  split; [done|]. split; [done|]. split; [by rewrite Hbt|].
  cbn [baseDestDirectory set_events]. rewrite Hbd, Hbt.
  repeat split; cbn; try done.
  by rewrite Hev, app_nil_r, <- !app_assoc.
Qed.
End Changes.

Lemma wp_for_of_prefix {A B} E (body : A → B → M B) xs :
  ∀ (I : list A → B → state → Prop) acc st,
    I [] acc st →
    (∀ pre x post acc st,
       xs = pre ++ x :: post → I pre acc st → wp E (body x acc) (I (pre ++ [x])) st) →
    wp E (for_of body xs acc) (I xs) st.
Proof.
  induction xs as [|x xs IH]; intros I acc st H0 Hstep; [done|].
  cbn [for_of]. apply wp_bind.
  eapply wp_post; [by apply (Hstep [] x xs)|].
  cbn beta. intros acc' st' HI. apply (IH (λ pre, I (x :: pre))); [done|].
  intros pre y post acc'' st'' -> HI'. by apply (Hstep (x :: pre) y post).
Qed.

Lemma keeps_refl st : keeps st st.
Proof. by repeat split. Qed.

Lemma keeps_trans st0 st1 st2 : keeps st0 st1 → keeps st1 st2 → keeps st0 st2.
Proof.
  intros (Hlen & Hfr & Hb) (Hlen' & Hfr' & Hb'). split; [lia|]. split; [|congruence].
  intros l Hl. rewrite Hfr' by lia. by apply Hfr.
Qed.

Lemma grows_keeps φ st st' :
  initialized st = true → grows (length (store st)) φ st st' → keeps st st'.
Proof.
  intros Hi (Hlen & Hfr & _ & Hgen). destruct (Hgen Hi) as (_ & _ & Hb & _). by repeat split.
Qed.

Lemma output_file_keeps st st' p :
  keeps st st' → p < length (store st) → output_file st' p = output_file st p.
Proof.
  intros (_ & Hfr & Hb) Hp. unfold output_file, page_path. by rewrite Hb, Hfr.
Qed.

Lemma page_source_keeps st st' p :
  keeps st st' → p < length (store st) → page_source st' p = page_source st p.
Proof. intros (_ & Hfr & _) Hp. unfold page_source. by rewrite Hfr. Qed.

Lemma outputs_nil st0 st :
  length (store st0) ≤ length (store st) →
  write_targets (events st) = write_targets (events st0) → outputs st0 [] st.
Proof.
  intros Hlen Hev. split; [constructor|]. split; [constructor|].
  split; [by rewrite Hev, app_nil_r|constructor].
Qed.

Lemma outputs_app st0 s1 s2 a b :
  outputs st0 a s1 → length (store st0) ≤ length (store s1) → keeps s1 s2 →
  outputs s1 b s2 → outputs st0 (a ++ b) s2.
Proof.
  intros (Hnd & Hin & Hev & Hp) Hlen Hk (Hnd' & Hin' & Hev' & Hp').
  pose proof Hk as (Hlen' & Hfr & _).
  rewrite Forall_forall in Hin, Hin'.
  split; [|split; [|split]].
  - apply NoDup_app. split; [done|]. split; [|done].
    intros p Hq Hq'. apply Hin in Hq. apply Hin' in Hq'. lia.
  - apply Forall_app. split; apply Forall_forall; intros p Hq.
    + apply Hin in Hq. lia.
    + apply Hin' in Hq. lia.
  - rewrite Hev', Hev, map_app, <- app_assoc. do 2 f_equal.
    apply map_ext_in. intros p Hp0%list_elem_of_In. symmetry.
    apply output_file_keeps; [done|]. apply Hin in Hp0. lia.
  - apply Forall_app. split; [|done]. rewrite Forall_forall in Hp.
    apply Forall_forall. intros p Hp0. destruct (Hp _ Hp0) as (s & o & Ho & Hs).
    exists s, o. split; [|done]. rewrite Hfr; [done|]. apply Hin in Hp0. lia.
Qed.

Section Pages.
Variable styles : list (string * string).
Variable marked : string → string.
Variable getTemplate : value → obj → string.
Variable ampGenerate : obj → option string.

Lemma resolveDateAndSlug_keeps_key l k v st :
  k ∉ derived_keys → field l k v st →
  wp any_exn (resolveDateAndSlug l) (λ _ st', field l k v st') st.
Proof.
  intros Hk H. unfold derived_keys in Hk. rewrite !not_elem_of_cons in Hk.
  destruct Hk as (? & ? & ? & ? & ? & ? & ? & ? & _).
  unfold resolveDateAndSlug. repeat wp_step; field_solve.
Qed.

Lemma resolvePath_keeps_key l pkg dest k v st :
  k ∉ derived_keys → field l k v st →
  wp any_exn (resolvePath l pkg dest) (λ _ st', field l k v st') st.
Proof.
  intros Hk H. unfold derived_keys in Hk. rewrite !not_elem_of_cons in Hk.
  destruct Hk as (? & ? & ? & ? & ? & ? & ? & ? & _).
  unfold resolvePath, renderAmpPages. repeat wp_step; field_solve.
Qed.

Lemma parseContentFile_keeps_key l data content k v st :
  k ∉ derived_keys → data !! k = None → field l k v st →
  wp any_exn (parseContentFile marked l data content) (λ _ st', field l k v st') st.
Proof.
  intros Hk Hd H. unfold derived_keys in Hk. rewrite !not_elem_of_cons in Hk.
  destruct Hk as (? & ? & ? & ? & ? & ? & ? & ? & _).
  unfold parseContentFile. repeat wp_step; field_solve.
Qed.

Lemma renderContentFile_keeps_key l dest data content k v st :
  k ∉ derived_keys → data !! k = None → field l k v st →
  wp any_exn (renderContentFile marked getTemplate l dest data content)
     (λ _ st', field l k v st') st.
Proof.
  intros Hk Hd H. unfold renderContentFile. wp_step. wp_step.
  wp_call resolveDateAndSlug_keeps_key as ? st1 H1.
  wp_call resolvePath_keeps_key as ? st2 H2.
  wp_call parseContentFile_keeps_key as ? st3 H3.
  unfold derived_keys in Hk. rewrite !not_elem_of_cons in Hk.
  destruct Hk as (? & ? & ? & ? & ? & ? & ? & ? & _).
  repeat wp_step; field_solve.
Qed.
End Pages.

Lemma wp_forall {A K} (m : M A) (Q : K → A → state → Prop) st :
  (∀ k, wp any_exn m (Q k) st) → wp any_exn m (λ a st', ∀ k, Q k a st') st.
Proof. unfold wp. by destruct (m st) as [e|[a st']]. Qed.

Lemma wp_impl {A} (P : Prop) (m : M A) (Q : A → state → Prop) st :
  (P → wp any_exn m Q st) → wp any_exn m (λ a st', P → Q a st') st.
Proof. unfold wp. by destruct (m st) as [e|[a st']]. Qed.

Lemma source_not_derived : "source" ∉ derived_keys.
Proof. unfold derived_keys. rewrite !not_elem_of_cons. repeat split; try done. apply not_elem_of_nil. Qed.

Lemma write_targets_emit evs e : no_output e → write_targets (evs ++ [e]) = write_targets evs.
Proof. intros H. rewrite write_targets_app. destruct e; try done; cbn; by rewrite app_nil_r. Qed.

Lemma copies_emit evs e : no_output e → copies (evs ++ [e]) = copies evs.
Proof. intros H. rewrite copies_app. destruct e; try done; cbn; by rewrite app_nil_r. Qed.

Lemma keeps_emit st0 st e : keeps st0 st → keeps st0 (set_events (λ t, t ++ [e]) st).
Proof. done. Qed.

Lemma outputs_emit st0 pages st e :
  no_output e → outputs st0 pages st → outputs st0 pages (set_events (λ t, t ++ [e]) st).
Proof.
  intros He (Hnd & Hin & Hev & Hp). split; [done|]. split; [done|]. split; [|done]. cbn.
  by rewrite write_targets_emit.
Qed.

Section Pages2.
Variable styles : list (string * string).
Variable marked : string → string.
Variable getTemplate : value → obj → string.
Variable ampGenerate : obj → option string.

(** The page of one content file. *)
Lemma processContentFile_outputs src dest cur file st :
  wp any_exn (processContentFile marked getTemplate ampGenerate src dest cur file)
     (λ page st',
        page = length (store st)
        ∧ keeps st st' ∧ length (store st) < length (store st') ∧ outputs st [page] st'
        ∧ copies (events st') = copies (events st)
        ∧ (∀ k, k ∉ derived_keys → k ≠ "filename" → k ≠ "source" →
                (∀ data content, file.2 = File data content → data !! k = None) →
                field page k (get k (default ∅ (store st !! cur))) st')
        ∧ ((∀ data content, file.2 = File data content → data !! "source" = None) →
           page_source st' page = VStr (Path.join [src; file.1]))) st.
Proof.
  unfold processContentFile, renderAmpPages. do 8 wp_step.
  match goal with |- wp _ _ _ ?s => set (st1 := s) end.
  set (page := length (store st)).
  assert (Hst1 : store st1
                 = store st
                   ++ [<["source" := VStr (Path.join [src; file.1])]>
                         (<["filename" := VStr file.1]>
                            (assign ∅ (default ∅ (store st !! cur))))]).
  { subst st1. cbn. by rewrite !alter_last. }
  assert (He1 : events st1 = events st) by done.
  assert (Hb1 : baseDestDirectory st1 = baseDestDirectory st) by done.
  assert (Hsrc : field page "source" (VStr (Path.join [src; file.1])) st1).
  { eexists. rewrite Hst1, lookup_app_r, Nat.sub_diag by done. split; [done|].
    apply get_insert_eq. }
  assert (Hkeys : ∀ k, k ≠ "filename" → k ≠ "source" →
                       field page k (get k (default ∅ (store st !! cur))) st1).
  { intros k ? ?. eexists. rewrite Hst1, lookup_app_r, Nat.sub_diag by done.
    split; [done|]. rewrite !get_insert_ne by done. apply get_assign_empty. }
  clearbody st1.
  apply wp_bind.
  destruct file as [name [data content|c es]]; cbn [fst snd] in *; [|done].
  eapply wp_post.
  { apply wp_conj; [apply renderContentFile_changes|].
    apply wp_conj with
      (Q1 := λ _ st', data !! "source" = None →
                      field page "source" (VStr (Path.join [src; name])) st')
      (Q2 := λ _ st', ∀ k, ((k ∉ derived_keys) ∧ k ≠ "filename" ∧ k ≠ "source"
                            ∧ data !! k = None) →
                           field page k (get k (default ∅ (store st !! cur))) st').
    - apply wp_impl. intros Hd.
      apply renderContentFile_keeps_key; [apply source_not_derived|done|done].
    - apply wp_forall. intros k. apply wp_impl. intros (? & ? & ? & ?).
      apply renderContentFile_keeps_key; [done|done|]. by apply Hkeys. }
  cbn beta. intros [r td] st2 ((Hr & o & p & Ho & Hp & Htd & Hch) & Hsrc2 & Hkeys2).
  cbn [fst snd] in *. subst r.
  destruct Hch as (Hlen2 & Hfr2 & Hev2 & _ & _ & Hb2 & _).
  assert (Hk2 : keeps st st2).
  { split; [rewrite Hlen2, Hst1, length_app; lia|]. split; [|congruence].
    intros l Hl. rewrite Hfr2 by (unfold page; lia). rewrite Hst1. by apply lookup_app_l. }
  assert (Hl2 : length (store st) < length (store st2)).
  { rewrite Hlen2, Hst1, length_app. cbn. lia. }
  assert (Ho2 : outputs st [page] st2).
  { split; [apply NoDup_singleton|]. split; [constructor; [unfold page; lia|constructor]|].
    split; [|constructor; [by exists p, o|constructor]].
    rewrite Hev2, He1, write_targets_app. cbn. do 2 f_equal.
    unfold output_file, page_path. rewrite Ho. cbn [default from_option id].
    by rewrite Hp, Hb2. }
  assert (Hc2 : copies (events st2) = copies (events st)).
  { rewrite Hev2, He1, copies_app. cbn. by rewrite app_nil_r. }
  assert (Hs2 : data !! "source" = None →
                page_source st2 page = VStr (Path.join [src; name])).
  { intros Hd. unfold page_source. by apply field_load, Hsrc2. }
  clear Hsrc2.
  repeat wp_step.
  all: (split; [done|]); (split; [by repeat apply keeps_emit|]); (split; [done|]).
  all: split; [repeat (apply outputs_emit; [done|]); done|].
  all: split; [cbn [events set_events]; by rewrite ?copies_emit by done|].
  all: split; [intros k ? ? ? Hd; repeat apply field_emit; apply Hkeys2; eauto
              |intros Hd; apply Hs2; eauto].
Qed.

Lemma page_sources_snoc st s s' acc page v :
  outputs st acc s → keeps s s' → page_source s' page = v →
  map (page_source s') (acc ++ [page]) = map (page_source s) acc ++ [v].
Proof.
  intros (_ & Hin & _) Hk <-. rewrite map_app. cbn. f_equal.
  apply map_ext_in. intros p Hp%list_elem_of_In. apply page_source_keeps; [done|].
  rewrite Forall_forall in Hin. apply Hin in Hp. lia.
Qed.

Lemma processContentFiles_outputs src entries dest cur st :
  wp any_exn (processContentFiles marked getTemplate ampGenerate src entries dest cur)
     (λ pages st',
        keeps st st' ∧ outputs st pages st'
        ∧ copies (events st') = copies (events st)
        ∧ (Forall (λ e : string * node, front_matter_lacks "source" e.2) entries →
           map (page_source st') pages
           = map (λ e : string * node, VStr (Path.join [src; e.1]))
                 (List.filter (λ e, is_content e.1 e.2) entries))) st.
Proof.
  unfold processContentFiles.
  set (files := List.filter (λ e : string * node, is_content e.1 e.2) entries).
  eapply wp_post.
  { apply wp_for_of_prefix
      with (I := λ pre acc s,
                   keeps st s ∧ outputs st acc s ∧ copies (events s) = copies (events st)
                   ∧ (Forall (λ e : string * node, front_matter_lacks "source" e.2) pre →
                      map (page_source s) acc
                      = map (λ e : string * node, VStr (Path.join [src; e.1])) pre)).
    - split; [apply keeps_refl|]. split; [by apply outputs_nil|]. done.
    - intros pre x post acc s _ (Hk & Ho & Hc & Hs).
      wp_call processContentFile_outputs as page s' (_ & Hk' & Hl' & Ho' & Hc' & _ & Hs').
      wp_step. split; [by eapply keeps_trans|]. split.
      { eapply outputs_app; [done| |done|done]. by destruct Hk. }
      split; [congruence|]. intros [Hpre Hx]%Forall_app.
      rewrite (map_app _ pre). cbn [map]. rewrite <- Hs by done.
      eapply page_sources_snoc; [done..|]. apply Hs'.
      intros data content Hfile. apply Forall_inv in Hx. by rewrite Hfile in Hx. }
  cbn beta. intros pages st' (Hk & Ho & Hc & Hs). split; [done|]. split; [done|].
  split; [done|]. intros Hall. apply Hs. subst files. clear -Hall.
  induction Hall as [|e es He _ IH]; [constructor|]. cbn.
  destruct (is_content e.1 e.2); [by constructor|done].
Qed.
End Pages2.

Lemma front_matter_lacks_entries k config entries :
  front_matter_lacks k (Directory config entries)
  ↔ Forall (λ e : string * node, front_matter_lacks k e.2) entries.
Proof.
  cbn. induction entries as [|[name child] entries IH].
  - split; [constructor|done].
  - rewrite Forall_cons. cbn. by rewrite IH.
Qed.

Lemma below_snoc files_of src pre name child :
  below files_of src (pre ++ [(name, child)])
  = below files_of src pre
    ++ match child with
       | Directory _ _ => files_of (Path.join [src; name]) child
       | File _ _ => []
       end.
Proof. unfold below. rewrite map_app, concat_app. cbn. by rewrite app_nil_r. Qed.

Lemma page_sources_app st s s' a b :
  outputs st a s → keeps s s' →
  map (page_source s') (a ++ b) = map (page_source s) a ++ map (page_source s') b.
Proof.
  intros (_ & Hin & _) Hk. rewrite map_app. f_equal.
  apply map_ext_in. intros p Hp%list_elem_of_In. apply page_source_keeps; [done|].
  rewrite Forall_forall in Hin. apply Hin in Hp. lia.
Qed.

Lemma generate_outputs styles marked getTemplate ampGenerate dir :
  ∀ base src dest st,
    constructed st →
    wp any_exn (generate styles marked getTemplate ampGenerate base src dest dir)
       (λ pages st',
          outputs st pages st'
          ∧ map fst (copies (events st'))
            = map fst (copies (events st)) ++ asset_files src dir
          ∧ (front_matter_lacks "source" dir →
             map (page_source st') pages = map VStr (content_files src dir))) st.
Proof.
  induction dir as [data content|config entries IH] using node_rect';
    intros base src dest st Hcon; [done|].
  cbn [generate].
  wp_call (initialize_grows styles 0 quiet) as ? st1 (_ & Hr1 & _ & Hs1 & He1).
  apply wp_bind. eapply wp_post.
  { apply wp_conj; [apply resolveDirectory_exact|].
    apply (resolveDirectory_grows 0 st1 quiet); [apply grows_refl|lia]. }
  cbn beta. intros [cur odest] st2 ((Hcur & Hs2 & He2) & (Hg2 & _)). cbn [fst snd] in *.
  assert (Hr2 : ready st2) by (by eapply ready_grows).
  wp_step. wp_step. apply wp_bind. unfold wp at 1. rewrite processAssetFiles_run.
  match goal with |- wp _ _ _ ?s => set (st4 := s) end.
  assert (Hr4 : ready st4) by done.
  assert (Hs4 : store st4 = store st ++ [resolved_config (default ∅ (store st1 !! base))
                                           dest config entries]).
  { subst st4. cbn. by rewrite Hs2, Hs1. }
  assert (Hc4 : map fst (copies (events st4))
                = map fst (copies (events st))
                  ++ map (λ e : string * node, Path.join [src; e.1])
                         (List.filter (λ e, is_asset e.1 e.2) entries)).
  { subst st4. cbn [events set_events]. rewrite He2, He1, !copies_app, !map_app. cbn.
    rewrite app_nil_r. f_equal. clear. induction (List.filter _ entries) as [|e es IHes]; [done|].
    cbn. by rewrite <- IHes. }
  assert (Hw4 : write_targets (events st4) = write_targets (events st)).
  { subst st4. cbn [events set_events]. rewrite He2, He1, !write_targets_app. cbn.
    rewrite app_nil_r. rewrite <- (app_nil_r (write_targets (events st))) at 2. f_equal.
    clear. by induction (List.filter _ entries) as [|e es IHes]. }
  clearbody st4.
  apply wp_bind. eapply wp_post.
  { apply wp_conj; [apply (processContentFiles_outputs marked getTemplate ampGenerate)|].
    apply (processContentFiles_grows marked getTemplate ampGenerate 0 st4);
      [apply grows_refl|lia]. }
  cbn beta. intros own st5 ((Hk5 & Ho5 & Hc5 & Hsrc5) & Hg5).
  assert (Hr5 : ready st5) by (by eapply ready_grows).
  set (assets := map (λ e : string * node, Path.join [src; e.1])
                     (List.filter (λ e, is_asset e.1 e.2) entries)) in *.
  set (contents := map (λ e : string * node, Path.join [src; e.1])
                       (List.filter (λ e, is_content e.1 e.2) entries)).
  apply wp_bind. eapply wp_post.
  { apply wp_for_of_prefix
      with (I := λ pre acc s,
                   ready s ∧ keeps st4 s ∧ outputs st4 acc s
                   ∧ map fst (copies (events s))
                     = map fst (copies (events st)) ++ assets ++ below asset_files src pre
                   ∧ (front_matter_lacks "source" (Directory config entries) →
                      map (page_source s) acc
                      = map VStr (contents ++ below content_files src pre))).
    - split; [done|]. split; [done|]. split; [done|]. split.
      { rewrite Hc5, Hc4. unfold below. cbn. by rewrite app_nil_r. }
      intros Hall%front_matter_lacks_entries. rewrite Hsrc5 by done.
      unfold below, contents. cbn. rewrite app_nil_r. by rewrite map_map.
    - intros pre [name child] post acc s Hentries (Hr & Hk & Ho & Hc & Hsrc).
      rewrite !below_snoc.
      destruct child as [|c es]; cbv beta iota.
      { wp_step. rewrite !app_nil_r. done. }
      assert (Hin : (name, Directory c es) ∈ entries).
      { rewrite Hentries. set_solver. }
      rewrite Forall_forall in IH. specialize (IH _ Hin). cbn [snd] in IH.
      apply wp_bind. eapply wp_post.
      { apply wp_conj; [apply IH|apply (generate_grows _ _ _ _ _ (length (store s)))]; try done.
        all: intros _; by destruct Hr as (_ & ? & ?). }
      cbn beta. intros sub s' ((Ho' & Hc' & Hsrc') & Hg' & Hr').
      assert (Hk' : keeps s s') by (eapply grows_keeps; [by destruct Hr|done]).
      wp_step. split; [done|]. split; [by eapply keeps_trans|]. split.
      { eapply outputs_app; [done| |done|done]. by destruct Hk. }
      split; [by rewrite Hc', Hc, <- !app_assoc|].
      intros Hall. rewrite (page_sources_app st4 s s') by done.
      pose proof (proj1 (front_matter_lacks_entries _ _ _) Hall) as Hall'.
      rewrite Forall_forall in Hall'. specialize (Hall' _ Hin).
      rewrite Hsrc, Hsrc' by done. by rewrite !map_app, <- !app_assoc. }
  cbn beta. intros pages s ((Hi & Ht & Ha) & Hk & Ho & Hc & Hsrc).
  wp_step. wp_step. rewrite Ht. cbn [when]. wp_step. wp_step. wp_step.
  split; [|split].
  - apply outputs_emit; [done|]. destruct Ho as (Hnd & Hin & Hev & Hp).
    split; [done|]. split; [|split; [|done]].
    + eapply Forall_impl; [exact Hin|]. cbn beta. intros p. rewrite Hs4, length_app. lia.
    + by rewrite Hev, Hw4.
  - cbn [events set_events]. rewrite copies_emit by done. by rewrite Hc.
  - intros Hall. etrans; [|by apply Hsrc]. done.
Qed.

(** X3. In every run of [generate] that returns, the files written are exactly
    the output files of the pages of the returned list, in the order of the
    list: one [index.html] per page, in the directory the final [path] of
    the page names under the destination root; and every page of the list
    has a string as its [path]. *)
Theorem one_index_file_per_page styles marked getTemplate ampGenerate
    baseConfig sourceDirectory destDirectory dir st pages st' :
  constructed st →
  generate styles marked getTemplate ampGenerate baseConfig sourceDirectory destDirectory
           dir st = inr (pages, st') →
  Forall (λ p, ∃ s, field p "path" (VStr s) st') pages
  ∧ write_targets (events st') = write_targets (events st) ++ map (output_file st') pages.
Proof.
  intros Hc Hrun.
  pose proof (generate_outputs styles marked getTemplate ampGenerate dir
                baseConfig sourceDirectory destDirectory st Hc) as H.
  eapply wp_inr in H; [|done]. by destruct H as ((_ & _ & ? & ?) & _).
Qed.

(** X4. The pages [generate] returns are pairwise distinct objects, all created
    during the run: none is an object that existed before (the
    configuration handed in, for instance), and no page occurs twice. *)
Theorem pages_are_new_distinct_objects styles marked getTemplate ampGenerate
    baseConfig sourceDirectory destDirectory dir st pages st' :
  constructed st →
  generate styles marked getTemplate ampGenerate baseConfig sourceDirectory destDirectory
           dir st = inr (pages, st') →
  NoDup pages ∧ Forall (λ p, length (store st) ≤ p < length (store st')) pages.
Proof.
  intros Hc Hrun.
  pose proof (generate_outputs styles marked getTemplate ampGenerate dir
                baseConfig sourceDirectory destDirectory st Hc) as H.
  eapply wp_inr in H; [|done]. by destruct H as ((? & ? & _) & _).
Qed.

(** X2. In every run of [generate] that returns, the files copied are exactly the
    asset files of the tree, each once, in the order of the traversal: the
    assets of a directory in listing order, then those of each of its
    subdirectories, those whose name starts with an underscore included. *)
Theorem assets_of_the_tree_are_copied styles marked getTemplate ampGenerate
    baseConfig sourceDirectory destDirectory dir st pages st' :
  constructed st →
  generate styles marked getTemplate ampGenerate baseConfig sourceDirectory destDirectory
           dir st = inr (pages, st') →
  map fst (copies (events st'))
  = map fst (copies (events st)) ++ asset_files sourceDirectory dir.
Proof.
  intros Hc Hrun.
  pose proof (generate_outputs styles marked getTemplate ampGenerate dir
                baseConfig sourceDirectory destDirectory st Hc) as H.
  eapply wp_inr in H; [|done]. by destruct H as (_ & H & _).
Qed.

(** X5. When no front matter of the tree declares a [source], the [source]
    fields of the pages [generate] returns are exactly the content files of
    the tree, each once, in the order of the traversal (directories whose
    name starts with an underscore are traversed like the others). *)
Theorem one_page_per_content_file styles marked getTemplate ampGenerate
    baseConfig sourceDirectory destDirectory dir st pages st' :
  constructed st → front_matter_lacks "source" dir →
  generate styles marked getTemplate ampGenerate baseConfig sourceDirectory destDirectory
           dir st = inr (pages, st') →
  map (page_source st') pages = map VStr (content_files sourceDirectory dir).
Proof.
  intros Hc Hno Hrun.
  pose proof (generate_outputs styles marked getTemplate ampGenerate dir
                baseConfig sourceDirectory destDirectory st Hc) as H.
  eapply wp_inr in H; [|done]. destruct H as (_ & _ & H). by apply H.
Qed.

Lemma one_index_file_per_page_witness :
  ∃ pages st',
    sample_generate amp_succeeds blog_site = inr (pages, st')
    ∧ Forall (λ p, ∃ s, field p "path" (VStr s) st') pages
    ∧ write_targets (events st')
      = write_targets (events just_constructed) ++ map (output_file st') pages.
Proof.
  destruct blog_site_runs as (pages & st' & Hrun).
  exists pages, st'. split; [exact Hrun|].
  exact (one_index_file_per_page _ _ _ _ _ _ _ _ _ _ _ constructed_just_constructed Hrun).
Defined.

Lemma pages_are_new_distinct_objects_witness :
  ∃ pages st',
    sample_generate amp_succeeds blog_site = inr (pages, st')
    ∧ NoDup pages
    ∧ Forall (λ p, length (store just_constructed) ≤ p < length (store st')) pages.
Proof.
  destruct blog_site_runs as (pages & st' & Hrun).
  exists pages, st'. split; [exact Hrun|].
  exact (pages_are_new_distinct_objects _ _ _ _ _ _ _ _ _ _ _
           constructed_just_constructed Hrun).
Defined.

Lemma assets_of_the_tree_are_copied_witness :
  ∃ pages st',
    sample_generate amp_succeeds blog_site = inr (pages, st')
    ∧ map fst (copies (events st'))
      = map fst (copies (events just_constructed)) ++ asset_files "/site/content" blog_site.
Proof.
  destruct blog_site_runs as (pages & st' & Hrun).
  exists pages, st'. split; [exact Hrun|].
  exact (assets_of_the_tree_are_copied _ _ _ _ _ _ _ _ _ _ _
           constructed_just_constructed Hrun).
Defined.

Lemma blog_site_lacks_source : front_matter_lacks "source" blog_site.
Proof. by repeat split. Defined.

Lemma one_page_per_content_file_witness :
  ∃ pages st',
    sample_generate amp_succeeds blog_site = inr (pages, st')
    ∧ map (page_source st') pages = map VStr (content_files "/site/content" blog_site).
Proof.
  destruct blog_site_runs as (pages & st' & Hrun).
  exists pages, st'. split; [exact Hrun|].
  exact (one_page_per_content_file _ _ _ _ _ _ _ _ _ _ _
           constructed_just_constructed blog_site_lacks_source Hrun).
Defined.

Section Rendering.
Variable marked : string → string.
Variable getTemplate : value → obj → string.
Variable ampGenerate : obj → option string.


Lemma field_assign_eq l k v data st :
  data !! k = Some v → l < length (store st) →
  field l k v (set_store (alter (λ o, assign o data) l) st).
Proof.
  intros Hk Hl. destruct (lookup_lt_is_Some_2 _ _ Hl) as [o Ho].
  exists (assign o data). cbn. rewrite list_lookup_alter_eq, Ho. split; [done|].
  unfold get, assign. by rewrite (lookup_union_Some_l _ _ _ _ Hk).
Qed.

Lemma parseContentFile_front_matter l data content k v st :
  data !! k = Some v → k ≠ "excerpt" → (k = "date" → ∀ iso, v ≠ VDate iso) →
  wp any_exn (parseContentFile marked l data content) (λ _ st', field l k v st') st.
Proof.
  intros Hk Hne Hdate. unfold parseContentFile. wp_step. wp_step.
  apply wp_bind. apply wp_as_string; [done|]. intros p Hp.
  apply get_default_field, field_valid in Hp.
  do 3 wp_step.
  match goal with |- wp _ _ _ ?s => set (st1 := s) end.
  assert (H1 : field l k v st1) by (by apply field_assign_eq).
  clearbody st1. wp_step. wp_step.
  destruct (decide (k = "date")) as [->|Hkd].
  - rewrite (field_load _ _ _ _ H1). destruct v; try (exfalso; by eapply (Hdate eq_refl));
      repeat wp_step; field_solve.
  - repeat wp_step; field_solve.
Qed.

Lemma wp_any {A} (m : M A) st : wp any_exn m (λ _ _, True) st.
Proof. unfold wp. by destruct (m st) as [e|[a st']]. Qed.

(** X8. Front matter wins: whenever [renderContentFile] returns, the page holds
    the front matter's value for every key the front matter declares, other
    than [excerpt] and [content_html] (and a [date] given as a [Date]). *)
Theorem front_matter_wins l actualDestDirectory data content k v st r st' :
  renderContentFile marked getTemplate l actualDestDirectory data content st = inr (r, st') →
  data !! k = Some v → k ≠ "excerpt" → k ≠ "content_html" →
  (k = "date" → ∀ iso, v ≠ VDate iso) →
  field l k v st'.
Proof.
  intros Hrun Hk Hne Hnc Hdate.
  enough (wp any_exn (renderContentFile marked getTemplate l actualDestDirectory data content)
             (λ _ st', field l k v st') st) as H by (by eapply wp_inr in H).
  unfold renderContentFile. wp_step. wp_step.
  wp_call (@wp_any unit) as ? st1 ?.
  wp_call (@wp_any unit) as ? st2 ?.
  wp_call parseContentFile_front_matter as ? st3 H3.
  repeat wp_step; field_solve.
Qed.

(** X7. The page of a content file is a new object that starts as a copy of the
    directory configuration: rendering it leaves every earlier object (the
    directory configuration included) as it was, and the page ends with the
    directory's value for every key that is neither computed by
    [renderContentFile], nor [filename] or [source], nor declared in the
    front matter. *)
Theorem page_inherits_directory_configuration sourceDirectory actualDestDirectory
    currentDirectoryConfig name data content k st page st' :
  processContentFile marked getTemplate ampGenerate sourceDirectory actualDestDirectory
                     currentDirectoryConfig (name, File data content) st
  = inr (page, st') →
  k ∉ derived_keys → k ≠ "filename" → k ≠ "source" → data !! k = None →
  page = length (store st)
  ∧ (∀ l, l < length (store st) → store st' !! l = store st !! l)
  ∧ field page k (get k (default ∅ (store st !! currentDirectoryConfig))) st'.
Proof.
  intros Hrun Hk Hf Hs Hd.
  pose proof (processContentFile_outputs marked getTemplate ampGenerate sourceDirectory
                actualDestDirectory currentDirectoryConfig (name, File data content) st) as H.
  eapply wp_inr in H; [|done].
  destruct H as (Hpage & (_ & Hfr & _) & _ & _ & _ & Hkeys & _).
  split; [done|]. split; [done|].
  apply Hkeys; try done. by intros ? ? [= <- <-].
Qed.
End Rendering.

Lemma wp_run {A} (m : M A) st : wp any_exn m (λ a st', m st = inr (a, st')) st.
Proof. unfold wp. by destruct (m st) as [e|[a st']]. Qed.

Lemma field_agree l k v v' st : field l k v st → field l k v' st → v = v'.
Proof. intros (o & Ho & <-) (o' & Ho' & <-). congruence. Qed.

Section Planned.
Variable marked : string → string.
Variable getTemplate : value → obj → string.

Lemma parseContentFile_path l data content st :
  data !! "path" = None →
  wp any_exn (parseContentFile marked l data content)
     (λ _ st', ∃ p, field l "path" (VStr p) st ∧ field l "path" (VStr p) st') st.
Proof.
  intros Hd. unfold parseContentFile. wp_step. wp_step.
  apply wp_bind. apply wp_as_string; [done|]. intros p Hp.
  apply get_default_field in Hp.
  repeat wp_step; exists p; (split; [done|]); field_solve.
Qed.

Lemma renderContentFile_planned l dest data content st :
  data !! "path" = None →
  wp any_exn (renderContentFile marked getTemplate l dest data content)
     (λ _ st', ∃ p, path_before_parsing l dest st = Some p ∧ field l "path" (VStr p) st') st.
Proof.
  intros Hd. unfold renderContentFile. wp_step. wp_step.
  wp_call (@wp_run unit) as ? st1 H1.
  wp_call (@wp_run unit) as ? st2 H2.
  wp_call parseContentFile_path as ? st3 (p & Hp2 & Hp3).
  assert (Hplan : path_before_parsing l dest st = Some p).
  { unfold path_before_parsing, bind. cbn [load gets]. rewrite H1, H2.
    by rewrite (field_load _ _ _ _ Hp2). }
  repeat wp_step; exists p; (split; [done|]); field_solve.
Qed.

(** X9. The place of a page is settled before its file is read: two renderings
    of the same page configuration that differ in the front matter and the
    body only, neither declaring a [path], end with the same [path] and
    write the same file. A [slug], [permalink] or [date] declared in front
    matter does not move the page. *)
Theorem front_matter_does_not_move_the_page l actualDestDirectory
    data1 content1 data2 content2 st r1 st1 r2 st2 :
  data1 !! "path" = None → data2 !! "path" = None →
  renderContentFile marked getTemplate l actualDestDirectory data1 content1 st
  = inr (r1, st1) →
  renderContentFile marked getTemplate l actualDestDirectory data2 content2 st
  = inr (r2, st2) →
  page_path st1 l = page_path st2 l
  ∧ write_targets (events st1) = write_targets (events st2).
Proof.
  intros Hd1 Hd2 Hrun1 Hrun2.
  assert (Hone : ∀ data content r st',
            data !! "path" = None →
            renderContentFile marked getTemplate l actualDestDirectory data content st
            = inr (r, st') →
            ∃ p, path_before_parsing l actualDestDirectory st = Some p
                 ∧ page_path st' l = p
                 ∧ write_targets (events st')
                   = write_targets (events st)
                     ++ [Path.join [Path.join [baseDestDirectory st; p]; contentPageName]]).
  { intros data content r st' Hd Hrun.
    pose proof (renderContentFile_planned l actualDestDirectory data content st Hd) as Hp.
    pose proof (renderContentFile_changes marked getTemplate l actualDestDirectory data
                  content st) as Hc.
    eapply wp_inr in Hp; [|done]. eapply wp_inr in Hc; [|done].
    destruct Hp as (p & Hplan & Hfield).
    destruct Hc as (_ & o & p' & Ho & Hp' & _ & Hch).
    assert (VStr p' = VStr p) as [= ->] by (eapply field_agree; [by exists o|done]).
    exists p. split; [done|]. split.
    - unfold page_path. by rewrite Ho; cbn [default from_option id]; rewrite Hp'.
    - destruct Hch as (_ & _ & -> & _). rewrite write_targets_app. done. }
  destruct (Hone _ _ _ _ Hd1 Hrun1) as (p1 & Hp1 & -> & ->).
  destruct (Hone _ _ _ _ Hd2 Hrun2) as (p2 & Hp2 & -> & ->).
  assert (p1 = p2) as -> by congruence. done.
Qed.
End Planned.

(** ** The excerpt *)

Lemma append_nil_r s : s +:+ "" = s.
Proof. induction s as [|c s IH]; [done|]. by rewrite append_cons, IH. Qed.

Lemma length_append s1 s2 : String.length (s1 +:+ s2) = String.length s1 + String.length s2.
Proof. induction s1 as [|c s1 IH]; [done|]. rewrite append_cons. cbn. by rewrite IH. Qed.

Lemma take_append s1 s2 : JS.take (String.length s1) (s1 +:+ s2) = s1.
Proof. induction s1 as [|c s1 IH]; [by destruct s2|]. rewrite append_cons. cbn. by rewrite IH. Qed.

Lemma skip_append_more s1 s2 n : JS.skip (String.length s1 + n) (s1 +:+ s2) = JS.skip n s2.
Proof. induction s1 as [|c s1 IH]; [done|]. rewrite append_cons. by cbn. Qed.

Lemma startsWith_append p s : JS.startsWith p (p +:+ s) = true.
Proof.
  induction p as [|c p IH]; [by destruct s|]. rewrite append_cons. cbn.
  by rewrite Ascii.eqb_refl.
Qed.

(** Whether [p] starts [s] is decided within the first [length p]
    characters of [s]. *)
Lemma startsWith_append_long p s t :
  String.length p ≤ String.length s →
  JS.startsWith p (s +:+ t) = JS.startsWith p s.
Proof.
  revert s. induction p as [|c p IH]; intros s Hlen.
  - by destruct s, t.
  - destruct s as [|a s]; cbn in Hlen; [lia|]. rewrite append_cons. cbn.
    destruct (Ascii.eqb c a); [apply IH; lia|done].
Qed.

Lemma indexOf_cons p c s :
  JS.indexOf p (String c s)
  = if JS.startsWith p (String c s) then Some 0 else S <$> JS.indexOf p s.
Proof. done. Qed.

(** The first occurrence of [p] in a text is still the first one when the
    text goes on. *)
Lemma indexOf_continued p before after :
  JS.indexOf p (before +:+ p) = Some (String.length before) →
  JS.indexOf p (before +:+ p +:+ after) = Some (String.length before).
Proof.
  induction before as [|a before IH]; intros H.
  - rewrite append_nil_l. destruct p as [|c p]; [by destruct after|].
    rewrite append_cons, indexOf_cons, <- append_cons. by rewrite startsWith_append.
  - rewrite append_cons, indexOf_cons in H. rewrite append_cons, indexOf_cons.
    rewrite <- append_cons, <- append_assoc, startsWith_append_long
      by (rewrite length_append; lia).
    rewrite append_cons.
    destruct (JS.startsWith p (String a (before +:+ p))) eqn:Hs; [done|].
    destruct (JS.indexOf p (before +:+ p)) as [i|] eqn:Hi; [|done].
    injection H as ->. by rewrite IH.
Qed.

(** Where the first paragraph of [html] is, as [parseContentFile] looks for
    it. *)
Lemma first_paragraph pre t post :
  JS.indexOf "<p>" (pre +:+ "<p>") = Some (String.length pre) →
  JS.indexOf "</p>" (t +:+ "</p>") = Some (String.length t) →
  let html := pre +:+ "<p>" +:+ t +:+ "</p>" +:+ post in
  JS.indexOf "<p>" html = Some (String.length pre)
  ∧ JS.indexOf_from "</p>" (String.length pre) html
    = Some (String.length pre + (3 + String.length t))
  ∧ JS.substring (String.length pre + 3) (String.length pre + (3 + String.length t)) html = t.
Proof.
  intros Hp Ht html. subst html. split; [by apply indexOf_continued|]. split.
  - unfold JS.indexOf_from.
    rewrite <- (Nat.add_0_r (String.length pre)) at 1. rewrite skip_append_more.
    cbn [JS.skip]. set (rest := t +:+ "</p>" +:+ post).
    rewrite !append_cons, append_nil_l.
    rewrite !indexOf_cons. cbn [JS.startsWith Ascii.eqb Bool.eqb]. subst rest.
    rewrite indexOf_continued by done. done.
  - unfold JS.substring. rewrite skip_append_more.
    replace (String.length pre + (3 + String.length t) - (String.length pre + 3))
      with (String.length t) by lia.
    set (rest := t +:+ "</p>" +:+ post).
    rewrite !append_cons, append_nil_l. cbn [JS.skip]. apply take_append.
Qed.

Section Excerpt.
Variable marked : string → string.

(** The excerpt of a page once its file is parsed: the declared one if it
    is truthy, else what stands between the first [<p>] and the [</p>] that
    follows, if there are such. *)
Lemma parseContentFile_excerpt l data content st :
  wp any_exn (parseContentFile marked l data content)
     (λ r st',
        ∃ o, store st !! l = Some o
             ∧ let declared := get "excerpt" (assign o data) in
               field l "excerpt"
                 (if truthy declared then declared
                  else match JS.indexOf "<p>" r.2 with
                       | Some i =>
                           match JS.indexOf_from "</p>" i r.2 with
                           | Some j => VStr (JS.substring (i + 3) j r.2)
                           | None => declared
                           end
                       | None => declared
                       end) st') st.
Proof.
  unfold parseContentFile. wp_step. wp_step.
  apply wp_bind. apply wp_as_string; [done|]. intros p Hp.
  apply get_default_field in Hp as (o & Ho & Hp).
  do 3 wp_step.
  match goal with |- wp _ _ _ ?s => set (st1 := s) end.
  set (declared := get "excerpt" (assign o data)).
  assert (H1 : field l "excerpt" declared st1).
  { exists (assign o data). subst st1. cbn. rewrite list_lookup_alter_eq, Ho. done. }
  clearbody st1. wp_step. wp_step.
  eapply wp_post with (Q' := λ _ st', field l "excerpt" declared st').
  { repeat wp_step; field_solve. }
  cbn beta. intros _ st2 H2. do 6 wp_step; [|done].
  wp_step. rewrite (field_load _ _ _ _ H2).
  wp_step.
  eapply wp_post
    with (Q' := λ _ st',
           field l "excerpt"
             (if truthy declared then declared
              else match JS.indexOf "<p>" (marked (Regex.replace_attrs (prepend_path p) 0
                            (Regex.replace_image (prepend_path p) content))) with
                   | Some i =>
                       match JS.indexOf_from "</p>" i (marked (Regex.replace_attrs (prepend_path p) 0
                            (Regex.replace_image (prepend_path p) content))) with
                       | Some j => VStr (JS.substring (i + 3) j (marked (Regex.replace_attrs (prepend_path p) 0
                            (Regex.replace_image (prepend_path p) content))))
                       | None => declared
                       end
                   | None => declared
                   end) st').
  - destruct (truthy declared); cbn [negb when]; [by wp_step|].
    destruct (JS.indexOf "<p>" _) as [i|]; [|by wp_step].
    destruct (JS.indexOf_from "</p>" i _) as [j|]; [|by wp_step].
    wp_step. by eapply field_setp_last.
  - cbn beta. intros _ st3 H3. wp_step. exists o. split; [done|]. done.
Qed.
End Excerpt.

Section ExcerptTheorems.
Variable marked : string → string.

(** X10. When neither the page configuration nor the front matter holds a truthy
    [excerpt], the excerpt of a parsed file is what stands between the
    first [<p>] of the rendered HTML and the first [</p>] after it. *)
Theorem excerpt_is_first_paragraph l data content st frontMatter html st' o pre t post :
  parseContentFile marked l data content st = inr ((frontMatter, html), st') →
  store st !! l = Some o →
  truthy (get "excerpt" (assign o data)) = false →
  html = pre +:+ "<p>" +:+ t +:+ "</p>" +:+ post →
  JS.indexOf "<p>" (pre +:+ "<p>") = Some (String.length pre) →
  JS.indexOf "</p>" (t +:+ "</p>") = Some (String.length t) →
  field l "excerpt" (VStr t) st'.
Proof.
  intros Hrun Ho Hex -> Hp Ht.
  pose proof (parseContentFile_excerpt marked l data content st) as H.
  eapply wp_inr in H; [|done]. destruct H as (o' & Ho' & H). cbn [snd] in H.
  assert (o' = o) as -> by congruence. rewrite Hex in H.
  destruct (first_paragraph pre t post Hp Ht) as (Hi & Hj & Hsub).
  by rewrite Hi, Hj, Hsub in H.
Qed.

(** X11. A truthy [excerpt], declared in the front matter or inherited from the
    configuration, is kept as it is; and so is whatever the page has for
    [excerpt] when the rendered HTML holds no [<p>]. *)
Theorem excerpt_is_kept l data content st frontMatter html st' o :
  parseContentFile marked l data content st = inr ((frontMatter, html), st') →
  store st !! l = Some o →
  truthy (get "excerpt" (assign o data)) = true ∨ JS.indexOf "<p>" html = None →
  field l "excerpt" (get "excerpt" (assign o data)) st'.
Proof.
  intros Hrun Ho Hcase.
  pose proof (parseContentFile_excerpt marked l data content st) as H.
  eapply wp_inr in H; [|done]. destruct H as (o' & Ho' & H). cbn [snd] in H.
  assert (o' = o) as -> by congruence.
  destruct (truthy (get "excerpt" (assign o data))); [done|].
  destruct Hcase as [?|Hnone]; [done|]. by rewrite Hnone in H.
Qed.
End ExcerptTheorems.

(** ** The roots and the base template data *)

Lemma initialize_again styles config src dest st :
  initialized st = true → initialize styles config src dest st = inr (tt, st).
Proof. intros Hi. unfold initialize, bind, gets. by rewrite Hi. Qed.

Lemma generate_roots styles marked getTemplate ampGenerate dir base src dest st :
  constructed st →
  wp any_exn (generate styles marked getTemplate ampGenerate base src dest dir)
     (λ _ st',
        initialized st' = true
        ∧ if initialized st
          then baseSourceDirectory st' = baseSourceDirectory st
               ∧ baseDestDirectory st' = baseDestDirectory st
               ∧ baseTemplateData st' = baseTemplateData st
          else baseSourceDirectory st' = src
               ∧ baseDestDirectory st' = dest
               ∧ baseTemplateData st'
                 = Some (buildBaseTemplateData (default ∅ (store st !! base)) styles)) st.
Proof.
  intros Hc.
  pose proof (generate_grows styles marked getTemplate ampGenerate dir 0 base src dest st Hc
                (Nat.le_0_l _)) as Hst.
  destruct (initialized st) eqn:Hi.
  - eapply wp_post; [exact Hst|]. cbn beta. intros _ st' ((_ & _ & _ & Hgen) & _).
    by destruct (Hgen Hi) as (? & ? & ? & ? & _).
  - destruct dir as [data content|config entries]; [done|].
    set (st1 := State (store st) true src dest
                      (Some (buildBaseTemplateData (default ∅ (store st !! base)) styles))
                      true true (events st)).
    assert (Hinit : initialize styles base src dest st = inr (tt, st1)).
    { unfold initialize, bind, gets, load. by rewrite Hi. }
    assert (Hc1 : constructed st1) by done.
    pose proof (generate_grows styles marked getTemplate ampGenerate (Directory config entries)
                  0 base src dest st1 Hc1 (Nat.le_0_l _)) as Hst1.
    cbn [generate] in *. unfold wp, bind in *.
    rewrite Hinit. rewrite (initialize_again _ _ _ _ st1) in Hst1 by done.
    match goal with |- match ?m with _ => _ end => destruct m as [e|[pages st']] end;
      [done|].
    destruct Hst1 as ((_ & _ & _ & Hgen) & _).
    by destruct (Hgen eq_refl) as (? & ? & ? & ? & _).
Qed.

(** X12. The first call of [generate] on a generator fixes its roots and its
    base template data: after a run that returns, the generator is
    initialized; if it was not before, the source and destination roots are
    the directories of this call and the base template data are built from
    the configuration handed to it, whatever the subdirectories did; if it
    was, all three are as they were. *)
Theorem roots_are_those_of_the_first_call styles marked getTemplate ampGenerate
    baseConfig sourceDirectory destDirectory dir st pages st' :
  constructed st →
  generate styles marked getTemplate ampGenerate baseConfig sourceDirectory destDirectory
           dir st = inr (pages, st') →
  initialized st' = true
  ∧ if initialized st
    then baseSourceDirectory st' = baseSourceDirectory st
         ∧ baseDestDirectory st' = baseDestDirectory st
         ∧ baseTemplateData st' = baseTemplateData st
    else baseSourceDirectory st' = sourceDirectory
         ∧ baseDestDirectory st' = destDirectory
         ∧ baseTemplateData st'
           = Some (buildBaseTemplateData (default ∅ (store st !! baseConfig)) styles).
Proof.
  intros Hc Hrun.
  pose proof (generate_roots styles marked getTemplate ampGenerate dir baseConfig
                sourceDirectory destDirectory st Hc) as H.
  by eapply wp_inr in H.
Qed.

(** The style partials, keyed by name. *)
Lemma styles_fold (stylesList : list (string * string)) (root : gmap string string) name :
  fold_left (λ (root : gmap string string) current, <[current.1 := current.2]> root)
            stylesList root !! name
  = match last (List.filter (λ s : string * string, String.eqb s.1 name) stylesList) with
    | Some s => Some s.2
    | None => root !! name
    end.
Proof.
  revert root. induction stylesList as [|[n c] l IH]; intros root; [done|].
  cbn [fold_left List.filter fst snd]. rewrite IH.
  destruct (String.eqb_spec n name) as [->|Hne].
  - rewrite last_cons. destruct (last _); [done|]. by rewrite lookup_insert_eq.
  - destruct (last _); [done|]. by rewrite lookup_insert_ne.
Qed.

(** X13. The base template data hold the value of the configuration for every
    key but [styles], and under [styles] the partials of the list keyed by
    name, the last partial of a name replacing the earlier ones. *)
Theorem base_template_data_keys config stylesList :
  (∀ k, k ≠ "styles" →
        get k (buildBaseTemplateData config stylesList) = get k config)
  ∧ ∃ partials,
      get "styles" (buildBaseTemplateData config stylesList) = VObj partials
      ∧ ∀ name,
          partials !! name
          = snd <$> last (List.filter (λ s : string * string, String.eqb s.1 name) stylesList).
Proof.
  unfold buildBaseTemplateData. split.
  - intros k Hk. rewrite get_assign_absent by (by rewrite lookup_singleton_ne).
    apply get_assign_empty.
  - eexists. split.
    + unfold get, assign. erewrite lookup_union_Some_l; [done|].
      apply lookup_singleton_eq.
    + intros name. rewrite styles_fold. rewrite lookup_empty. by destruct (last _).
Qed.

Lemma page_being_rendered_runs :
  ∃ r st',
    renderContentFile plain_marked title_template 1 "/site/_dist/blog"
                      dated_front_matter "First paragraph." page_being_rendered
    = inr (r, st').
Proof.
  destruct (returns_inr (renderContentFile plain_marked title_template 1 "/site/_dist/blog"
                           dated_front_matter "First paragraph." page_being_rendered))
    as [[r st'] Hrun].
  - vm_compute. reflexivity.
  - eauto.
Defined.

Lemma page_being_rendered_runs_bare :
  ∃ r st',
    renderContentFile plain_marked title_template 1 "/site/_dist/blog" ∅ "Other."
                      page_being_rendered
    = inr (r, st').
Proof.
  destruct (returns_inr (renderContentFile plain_marked title_template 1 "/site/_dist/blog"
                           ∅ "Other." page_being_rendered))
    as [[r st'] Hrun].
  - vm_compute. reflexivity.
  - eauto.
Defined.


Lemma front_matter_wins_witness :
  ∃ r st',
    renderContentFile plain_marked title_template 1 "/site/_dist/blog"
                      dated_front_matter "First paragraph." page_being_rendered
    = inr (r, st')
    ∧ field 1 "title" (VStr "Hi") st'.
Proof.
  destruct page_being_rendered_runs as (r & st' & Hrun).
  exists r, st'. split; [exact Hrun|].
  apply (front_matter_wins _ _ _ _ _ _ "title" (VStr "Hi") _ _ _ Hrun);
    [reflexivity|discriminate|discriminate|discriminate].
Defined.

Lemma front_matter_does_not_move_the_page_witness :
  ∃ r1 st1 r2 st2,
    renderContentFile plain_marked title_template 1 "/site/_dist/blog"
                      dated_front_matter "First paragraph." page_being_rendered
    = inr (r1, st1)
    ∧ renderContentFile plain_marked title_template 1 "/site/_dist/blog" ∅ "Other."
                        page_being_rendered
      = inr (r2, st2)
    ∧ page_path st1 1 = page_path st2 1
    ∧ write_targets (events st1) = write_targets (events st2).
Proof.
  destruct page_being_rendered_runs as (r1 & st1 & Hrun1).
  destruct page_being_rendered_runs_bare as (r2 & st2 & Hrun2).
  exists r1, st1, r2, st2. split; [exact Hrun1|]. split; [exact Hrun2|].
  apply (front_matter_does_not_move_the_page plain_marked title_template 1
           "/site/_dist/blog" dated_front_matter "First paragraph." ∅ "Other."
           page_being_rendered r1 st1 r2 st2);
    [reflexivity|reflexivity|exact Hrun1|exact Hrun2].
Defined.

Lemma second_post_is_processed :
  ∃ page st',
    processContentFile plain_marked title_template amp_succeeds "/site/content/blog"
                       "/site/_dist/blog" 1 ("2024-02-01_second.md", File ∅ "Second.")
                       directory_being_compiled
    = inr (page, st').
Proof.
  destruct (returns_inr
              (processContentFile plain_marked title_template amp_succeeds
                 "/site/content/blog" "/site/_dist/blog" 1
                 ("2024-02-01_second.md", File ∅ "Second.") directory_being_compiled))
    as [[page st'] Hrun].
  - vm_compute. reflexivity.
  - eauto.
Defined.

Lemma layout_is_not_derived : "layout" ∉ derived_keys.
Proof.
  unfold derived_keys. rewrite !not_elem_of_cons. repeat split; try discriminate.
  apply not_elem_of_nil.
Defined.

Lemma page_inherits_directory_configuration_witness :
  ∃ page st',
    processContentFile plain_marked title_template amp_succeeds "/site/content/blog"
                       "/site/_dist/blog" 1 ("2024-02-01_second.md", File ∅ "Second.")
                       directory_being_compiled
    = inr (page, st')
    ∧ page = 2
    ∧ (∀ l, l < 2 → store st' !! l = store directory_being_compiled !! l)
    ∧ field page "layout" (VStr "post") st'.
Proof.
  destruct second_post_is_processed as (page & st' & Hrun).
  exists page, st'. split; [exact Hrun|].
  apply (page_inherits_directory_configuration _ _ _ _ _ _ _ _ _ "layout" _ _ _ Hrun);
    [exact layout_is_not_derived|discriminate|discriminate|reflexivity].
Defined.

Lemma paragraph_is_parsed :
  ∃ st',
    parseContentFile paragraph_marked 1 ∅ "First paragraph."
      (State [∅; {["filename" := VStr "hello.md"; "path" := VStr "blog/hello"]}]
             true "/site/content" "/site/_dist" None true true [])
    = inr ((∅, "<p>First paragraph.</p>"), st').
Proof.
  eexists. vm_compute. reflexivity.
Defined.

Lemma excerpt_is_first_paragraph_witness :
  ∃ st',
    parseContentFile paragraph_marked 1 ∅ "First paragraph."
      (State [∅; {["filename" := VStr "hello.md"; "path" := VStr "blog/hello"]}]
             true "/site/content" "/site/_dist" None true true [])
    = inr ((∅, "<p>First paragraph.</p>"), st')
    ∧ field 1 "excerpt" (VStr "First paragraph.") st'.
Proof.
  destruct paragraph_is_parsed as (st' & Hrun).
  exists st'. split; [exact Hrun|].
  apply (excerpt_is_first_paragraph _ _ _ _ _ _ _ _
           {["filename" := VStr "hello.md"; "path" := VStr "blog/hello"]}
           "" "First paragraph." "" Hrun); reflexivity.
Defined.

Lemma declared_excerpt_is_parsed :
  ∃ st',
    parseContentFile paragraph_marked 1 {["excerpt" := VStr "Short."]} "First paragraph."
      (State [∅; {["filename" := VStr "hello.md"; "path" := VStr "blog/hello"]}]
             true "/site/content" "/site/_dist" None true true [])
    = inr (({["excerpt" := VStr "Short."]}, "<p>First paragraph.</p>"), st').
Proof.
  eexists. vm_compute. reflexivity.
Defined.

Lemma excerpt_is_kept_witness :
  ∃ st',
    parseContentFile paragraph_marked 1 {["excerpt" := VStr "Short."]} "First paragraph."
      (State [∅; {["filename" := VStr "hello.md"; "path" := VStr "blog/hello"]}]
             true "/site/content" "/site/_dist" None true true [])
    = inr (({["excerpt" := VStr "Short."]}, "<p>First paragraph.</p>"), st')
    ∧ field 1 "excerpt" (VStr "Short.") st'.
Proof.
  destruct declared_excerpt_is_parsed as (st' & Hrun).
  exists st'. split; [exact Hrun|].
  exact (excerpt_is_kept _ _ _ _ _ _ _ _
           {["filename" := VStr "hello.md"; "path" := VStr "blog/hello"]} Hrun
           eq_refl (or_introl eq_refl)).
Defined.

Lemma roots_are_those_of_the_first_call_witness :
  ∃ pages st',
    sample_generate amp_succeeds blog_site = inr (pages, st')
    ∧ initialized st' = true
    ∧ baseSourceDirectory st' = "/site/content"
    ∧ baseDestDirectory st' = "/site/_dist"
    ∧ baseTemplateData st'
      = Some (buildBaseTemplateData (default ∅ (store just_constructed !! 0)) []).
Proof.
  destruct blog_site_runs as (pages & st' & Hrun).
  exists pages, st'. split; [exact Hrun|].
  exact (roots_are_those_of_the_first_call _ _ _ _ _ _ _ _ _ _ _
           constructed_just_constructed Hrun).
Defined.

(** ** Runs that cannot fail *)

Lemma texty_truthy v : texty v → truthy v = true → ∃ s, v = VStr s.
Proof. destruct v; try done. eauto. Qed.

Lemma texty_assign k (o src : obj) :
  texty (get k o) → texty (get k src) → texty (get k (assign o src)).
Proof.
  unfold get, assign. rewrite lookup_union. by destruct (src !! k), (o !! k).
Qed.

Lemma date_slug_some s : ∃ m, Regex.date_slug s = Some m.
Proof.
  unfold Regex.date_slug. destruct (Regex.date_prefix s) as [[d rest]|]; eauto.
Qed.

Lemma texty_of_group g : texty (of_group g).
Proof. by destruct g. Qed.

Lemma well_formed_entries config entries :
  well_formed (Directory config entries)
  ↔ plain_config config ∧ Forall (λ e : string * node, well_formed e.2) entries.
Proof.
  cbn. apply and_iff_compat_l. induction entries as [|[name child] entries IH].
  - split; [constructor|done].
  - rewrite Forall_cons. cbn. by rewrite IH.
Qed.

Lemma holds_setp l k v o st :
  holds l o st → holds l (<[k := v]> o) (set_store (alter (<[k := v]>) l) st).
Proof. intros H. unfold holds in *. cbn. by rewrite list_lookup_alter_eq, H. Qed.

Lemma holds_load l o st : holds l o st → default ∅ (store st !! l) = o.
Proof. by intros ->. Qed.

Lemma resolveDateAndSlug_total l st o f :
  holds l o st → get "filename" o = VStr f →
  texty (get "date" o) → texty (get "slug" o) → texty (get "permalink" o) →
  wp (λ _, False) (resolveDateAndSlug l)
     (λ _ st',
        ∃ o', holds l o' st' ∧ get "filename" o' = VStr f ∧ texty (get "date" o')
              ∧ ∃ s, get "slug" o' = VStr s) st.
Proof.
  intros Ho Hf Hd Hs Hp. unfold resolveDateAndSlug. wp_step. wp_step.
  rewrite (holds_load _ _ _ Ho).
  apply wp_bind.
  eapply wp_post
    with (Q' := λ _ st1, ∃ o1, holds l o1 st1 ∧ get "filename" o1 = VStr f
                               ∧ texty (get "date" o1) ∧ texty (get "slug" o1)).
  { destruct (negb (truthy (get "slug" o)) && truthy (get "permalink" o)) eqn:Hc;
      cbn [when].
    - wp_step. eexists. split; [by apply holds_setp|].
      rewrite !get_insert_ne by done. rewrite get_insert_eq. done.
    - wp_step. by exists o. }
  cbn beta. intros _ st1 (o1 & Ho1 & Hf1 & Hd1 & Hs1).
  wp_step. wp_step. rewrite (holds_load _ _ _ Ho1).
  destruct (negb (truthy (get "date" o1)) || negb (truthy (get "slug" o1))) eqn:Hc;
    cbn [when].
  - rewrite Hf1. cbn [as_string]. wp_step. wp_step.
    unfold Regex.date_slug_dot.
    destruct (date_slug_some (Regex.strip_extension f)) as [m ->].
    apply wp_bind.
    eapply wp_post
      with (Q' := λ _ st2, ∃ o2, holds l o2 st2 ∧ get "filename" o2 = VStr f
                                 ∧ texty (get "date" o2) ∧ get "slug" o2 = get "slug" o1).
    { destruct (truthy (get "date" o1)); cbn [negb when].
      - wp_step. by exists o1.
      - wp_step. eexists. split; [by apply holds_setp|].
        repeat split; rewrite ?get_insert_eq, ?get_insert_ne by done; try done.
        apply texty_of_group. }
    cbn beta. intros _ st2 (o2 & Ho2 & Hf2 & Hd2 & Hs2).
    destruct (truthy (get "slug" o1)) eqn:Ht; cbn [negb when].
    + wp_step. exists o2. repeat split; try done. rewrite Hs2. by apply texty_truthy.
    + wp_step. eexists. split; [by apply holds_setp|].
      rewrite !get_insert_ne by done. rewrite get_insert_eq. eauto.
  - wp_step. exists o1. repeat split; try done. apply texty_truthy; [done|].
    apply orb_false_iff in Hc as [_ Hc]. by apply negb_false_iff in Hc.
Qed.

Lemma resolvePath_total l pkg dest st o f s :
  holds l o st → get "filename" o = VStr f → texty (get "date" o) →
  get "slug" o = VStr s →
  wp (λ _, False) (resolvePath l pkg dest)
     (λ _ st',
        ∃ o', holds l o' st' ∧ get "filename" o' = VStr f ∧ ∃ p, get "path" o' = VStr p) st.
Proof.
  intros Ho Hf Hd Hs. unfold resolvePath, renderAmpPages. wp_step. wp_step.
  rewrite (holds_load _ _ _ Ho).
  apply wp_bind.
  eapply wp_post
    with (Q' := λ _ st1, ∃ o1, holds l o1 st1 ∧ get "filename" o1 = VStr f).
  { destruct (negb (truthy (get "title" o))); cbn [when]; wp_step.
    - eexists. split; [by apply holds_setp|]. by rewrite get_insert_ne.
    - by exists o. }
  cbn beta. intros _ st1 (o1 & Ho1 & Hf1).
  apply wp_bind.
  eapply wp_post
    with (Q' := λ _ st2, ∃ o2, holds l o2 st2 ∧ get "filename" o2 = VStr f).
  { destruct (truthy (get "date" o)) eqn:Ht; cbn [when].
    - destruct (texty_truthy _ Hd Ht) as [d ->]. cbn [as_string]. wp_step. wp_step. wp_step.
      eexists. split; [by apply holds_setp|]. by rewrite get_insert_ne.
    - wp_step. by exists o1. }
  cbn beta. intros _ st2 (o2 & Ho2 & Hf2).
  rewrite Hs. cbn [as_string].
  destruct pkg; cbn [negb]; repeat wp_step.
  all: eexists; split; [by repeat apply holds_setp|].
  all: rewrite !get_insert_ne by done; split; [done|].
  all: rewrite get_insert_eq; eauto.
Qed.

Section Total.
Variable styles : list (string * string).
Variable marked : string → string.
Variable getTemplate : value → obj → string.
Variable ampGenerate : obj → option string.

Lemma holds_assign l data o st :
  holds l o st → holds l (assign o data) (set_store (alter (λ o, assign o data) l) st).
Proof. intros H. unfold holds in *. cbn. by rewrite list_lookup_alter_eq, H. Qed.

Lemma parseContentFile_total l data content st o f p :
  holds l o st → get "filename" o = VStr f → get "path" o = VStr p →
  JS.substr_from 1 (Path.extname f) = "md" → plain_front_matter data →
  wp (λ _, False) (parseContentFile marked l data content)
     (λ _ st', ∃ o', holds l o' st' ∧ ∃ p', get "path" o' = VStr p') st.
Proof.
  intros Ho Hf Hp Hext [Hdf Hdp]. unfold parseContentFile. wp_step. wp_step.
  rewrite (holds_load _ _ _ Ho), Hp. cbn [as_string]. do 4 wp_step.
  match goal with |- wp _ _ _ ?s => set (st1 := s) end.
  assert (H1 : holds l (assign o data) st1) by (by apply holds_assign).
  assert (Hf1 : get "filename" (assign o data) = VStr f) by (by rewrite get_assign_absent).
  assert (Hp1 : ∃ p', get "path" (assign o data) = VStr p').
  { destruct Hdp as [Hdp|[p' Hdp]]; [rewrite get_assign_absent by done; eauto|].
    exists p'. unfold get, assign. by rewrite (lookup_union_Some_l _ _ _ _ Hdp). }
  clearbody st1. wp_step. wp_step. rewrite (holds_load _ _ _ H1).
  apply wp_bind. eapply wp_post
    with (Q' := λ _ st2, ∃ o2, holds l o2 st2 ∧ get "filename" o2 = VStr f
                               ∧ ∃ p', get "path" o2 = VStr p').
  { destruct (get "date" (assign o data)); try (wp_step; by eexists).
    wp_step. eexists. split; [by apply holds_setp|]. by rewrite !get_insert_ne. }
  cbn beta. intros _ st2 (o2 & Ho2 & Hf2 & Hp2).
  wp_step. wp_step. rewrite (holds_load _ _ _ Ho2), Hf2. cbn [as_string].
  wp_step. wp_step. rewrite Hext. cbn [String.eqb Ascii.eqb Bool.eqb].
  wp_step. wp_step. wp_step.
  eapply wp_post
    with (Q' := λ _ st3, ∃ o3, holds l o3 st3 ∧ ∃ p', get "path" o3 = VStr p').
  { repeat wp_step; try (by exists o2).
    eexists. split; [by apply holds_setp|]. by rewrite get_insert_ne. }
  cbn beta. intros _ st3 H3. by wp_step.
Qed.

Lemma renderContentFile_total l dest data content st o f :
  holds l o st → get "filename" o = VStr f →
  JS.substr_from 1 (Path.extname f) = "md" →
  texty (get "date" o) → texty (get "slug" o) → texty (get "permalink" o) →
  plain_front_matter data →
  wp (λ _, False) (renderContentFile marked getTemplate l dest data content)
     (λ _ _, True) st.
Proof.
  intros Ho Hf Hext Hd Hs Hp Hdata. unfold renderContentFile. wp_step. wp_step.
  wp_call resolveDateAndSlug_total as ? st1 (o1 & Ho1 & Hf1 & Hd1 & s & Hs1).
  wp_call resolvePath_total as ? st2 (o2 & Ho2 & Hf2 & p & Hp2).
  wp_call parseContentFile_total as ? st3 (o3 & Ho3 & p' & Hp3).
  wp_step. wp_step. wp_step. wp_step.
  match goal with |- wp _ _ _ ?s => set (st4 := s) end.
  assert (Ho4 : holds l (<["content_html" := VStr a1.2]> o3) st4) by (by apply holds_setp).
  clearbody st4. rewrite (holds_load _ _ _ Ho4). do 2 wp_step.
  rewrite get_insert_ne, Hp3 by done. cbn [as_string]. by repeat wp_step.
Qed.
End Total.

Lemma plain_config_assign (o src : obj) :
  plain_config o → plain_config src → plain_config (assign o src).
Proof.
  intros (? & ? & ? & ?) (? & ? & ? & ?). repeat split; by apply texty_assign.
Qed.

Lemma plain_config_empty : plain_config ∅.
Proof. by repeat split. Qed.

Lemma resolved_config_plain inherited dest local listing :
  plain_config inherited → plain_config local →
  plain_config (resolved_config inherited dest local listing).
Proof.
  intros Hi Hl. unfold resolved_config.
  assert (Hm : plain_config (assign (assign ∅ inherited) local)).
  { apply plain_config_assign; [|done]. apply plain_config_assign; [|done].
    apply plain_config_empty. }
  destruct (existsb _ listing); [|done].
  destruct (Regex.date_slug _) as [m|]; [|done].
  destruct Hm as (? & ? & ? & ?).
  repeat split;
    repeat first [rewrite get_insert_eq | rewrite get_insert_ne by done]; try done.
  apply texty_of_group.
Qed.

Lemma resolveDirectory_total base dest config entries st :
  plain_config (default ∅ (store st !! base)) → plain_config config →
  wp (λ _, False) (resolveDirectory base dest config entries) (λ _ _, True) st.
Proof.
  intros Hb Hc. unfold resolveDirectory. do 4 wp_step.
  set (merged := assign (assign ∅ (default ∅ (store st !! base))) config).
  assert (Hm : plain_config merged).
  { apply plain_config_assign; [|done]. apply plain_config_assign; [|done].
    apply plain_config_empty. }
  match goal with |- wp _ _ _ ?s => set (st1 := s) end.
  set (cur := length (store st)).
  assert (H1 : holds cur merged st1).
  { subst st1. unfold holds. cbn. by rewrite lookup_app_r, Nat.sub_diag. }
  clearbody st1 merged. apply wp_bind.
  set (pkg := existsb _ entries).
  eapply wp_post
    with (Q' := λ _ st2, ∃ o2, holds cur o2 st2 ∧ texty (get "dist_path" o2)
                               ∧ (pkg = true → ∃ s, get "slug" o2 = VStr s)).
  { destruct Hm as (? & ? & ? & ?). destruct pkg; cbn [when].
    - destruct (date_slug_some (Path.basename dest)) as [m ->].
      do 3 wp_step. eexists. split; [by repeat apply holds_setp|].
      rewrite !get_insert_ne by done. split; [done|]. intros _.
      rewrite get_insert_eq. eauto.
    - wp_step. exists merged. by repeat split. }
  cbn beta. intros _ st2 (o2 & Ho2 & Hdp & Hslug).
  wp_step. wp_step. rewrite (holds_load _ _ _ Ho2). wp_step.
  destruct (truthy (get "dist_path" o2)) eqn:Ht.
  - destruct (texty_truthy _ Hdp Ht) as [d ->]. cbn [as_string]. do 4 wp_step.
    destruct pkg.
    + destruct Hslug as [s ->]; [done|]. cbn [as_string]. by repeat wp_step.
    + by repeat wp_step.
  - by repeat wp_step.
Qed.

Section Total2.
Variable styles : list (string * string).
Variable marked : string → string.
Variable getTemplate : value → obj → string.
Variable ampGenerate : obj → option string.

Lemma processContentFile_total src dest cur name data content st :
  plain_config (default ∅ (store st !! cur)) →
  is_content name (File data content) = true → plain_front_matter data →
  wp (λ _, False)
     (processContentFile marked getTemplate ampGenerate src dest cur (name, File data content))
     (λ _ _, True) st.
Proof.
  intros (_ & Hd & Hs & Hp) Hc Hdata. unfold processContentFile, renderAmpPages.
  cbn [fst snd]. do 8 wp_step.
  match goal with |- wp _ _ _ ?s => set (st1 := s) end.
  assert (H1 : holds (length (store st))
                 (<["source" := VStr (Path.join [src; name])]>
                    (<["filename" := VStr name]> (assign ∅ (default ∅ (store st !! cur)))))
                 st1).
  { subst st1. unfold holds. cbn. rewrite !alter_last.
    by rewrite lookup_app_r, Nat.sub_diag. }
  clearbody st1.
  wp_call (renderContentFile_total marked getTemplate) as ? st2 ?.
  - rewrite get_insert_ne by done. apply get_insert_eq.
  - by eapply is_content_md.
  - by rewrite !get_insert_ne, get_assign_empty.
  - by rewrite !get_insert_ne, get_assign_empty.
  - by rewrite !get_insert_ne, get_assign_empty.
  - by repeat wp_step.
Qed.

Lemma processContentFiles_total src entries dest cur st :
  cur < length (store st) → plain_config (default ∅ (store st !! cur)) →
  Forall (λ e : string * node, well_formed e.2) entries →
  wp (λ _, False)
     (processContentFiles marked getTemplate ampGenerate src entries dest cur)
     (λ _ _, True) st.
Proof.
  intros Hcur Hplain Hwf. unfold processContentFiles.
  eapply wp_post.
  { apply wp_for_of with (I := λ _ s, keeps st s); [apply keeps_refl|].
    intros [name child] acc s Hin Hk.
    apply list_elem_of_In, filter_In in Hin as [Hin Hcontent]. cbn [fst snd] in Hcontent.
    apply list_elem_of_In in Hin.
    rewrite Forall_forall in Hwf. apply Hwf in Hin. cbn [snd] in Hin.
    destruct child as [data content|c es].
    2: { unfold is_content in Hcontent. cbn [isDirectory negb] in Hcontent.
         by rewrite andb_false_r in Hcontent. }
    apply wp_bind. eapply wp_post.
    { apply wp_conj_total.
      - apply processContentFile_total; [|done|done].
        destruct Hk as (_ & Hfr & _). by rewrite Hfr.
      - apply (processContentFile_outputs marked getTemplate ampGenerate). }
    cbn beta. intros page s' (_ & _ & Hk' & _). wp_step. by eapply keeps_trans. }
  done.
Qed.
End Total2.

Lemma initialize_total styles config src dest st :
  wp (λ _, False) (initialize styles config src dest) (λ _ _, True) st.
Proof.
  unfold initialize. wp_step. wp_step. destruct (initialized st); cbn [negb].
  - by wp_step.
  - wp_step. wp_step. by unfold wp.
Qed.

Lemma generate_total styles marked getTemplate ampGenerate dir :
  ∀ base src dest st,
    constructed st → plain_config (default ∅ (store st !! base)) →
    well_formed dir → isDirectory dir = true →
    wp (λ _, False) (generate styles marked getTemplate ampGenerate base src dest dir)
       (λ _ _, True) st.
Proof.
  induction dir as [data content|config entries IH] using node_rect';
    intros base src dest st Hcon Hbase Hwf Hdir; [done|].
  apply well_formed_entries in Hwf as [Hconfig Hwf].
  cbn [generate].
  apply wp_bind. eapply wp_post.
  { apply wp_conj_total; [apply initialize_total|apply (initialize_grows styles 0 quiet), Hcon]. }
  cbn beta. intros _ st1 (_ & _ & Hr1 & _ & Hs1 & He1).
  apply wp_bind. eapply wp_post.
  { apply wp_conj_total; [apply resolveDirectory_total; [by rewrite Hs1|done]|].
    apply wp_conj; [apply resolveDirectory_exact|].
    apply (resolveDirectory_grows 0 st1 quiet); [apply grows_refl|lia]. }
  cbn beta. intros [cur odest] st2 (_ & (Hcur & Hs2 & He2) & (Hg2 & _)). cbn [fst snd] in *.
  assert (Hr2 : ready st2) by (by eapply ready_grows).
  set (rc := resolved_config (default ∅ (store st1 !! base)) dest config entries) in *.
  assert (Hrc : plain_config rc) by (apply resolved_config_plain; [by rewrite Hs1|done]).
  wp_step. wp_step. apply wp_bind. unfold wp at 1. rewrite processAssetFiles_run.
  match goal with |- wp _ _ _ ?s => set (st4 := s) end.
  assert (Hr4 : ready st4) by done.
  assert (Hs4 : store st4 = store st1 ++ [rc]) by done.
  assert (Hcur4 : store st4 !! cur = Some rc).
  { by rewrite Hs4, Hcur, lookup_app_r, Nat.sub_diag. }
  clearbody st4.
  apply wp_bind. eapply wp_post.
  { apply wp_conj_total.
    - apply (processContentFiles_total marked getTemplate ampGenerate); [|by rewrite Hcur4|done].
      by eapply lookup_lt_Some.
    - apply wp_conj; [apply (processContentFiles_outputs marked getTemplate ampGenerate)|].
      apply (processContentFiles_grows marked getTemplate ampGenerate 0 st4);
        [apply grows_refl|lia]. }
  cbn beta. intros own st5 (_ & (Hk5 & _) & Hg5).
  assert (Hr5 : ready st5) by (by eapply ready_grows).
  apply wp_bind. eapply wp_post.
  { apply wp_for_of with (I := λ _ s, ready s ∧ keeps st4 s); [done|].
    intros [name child] acc s Hin (Hr & Hk).
    destruct child as [|c es]; cbv beta iota; [by wp_step|].
    rewrite Forall_forall in IH, Hwf.
    apply wp_bind. eapply wp_post.
    { apply wp_conj_total.
      - apply (IH _ Hin); [intros _; by destruct Hr as (_ & ? & ?)| |by apply (Hwf _ Hin)|done].
        destruct Hk as (_ & Hfr & _). rewrite Hfr by (by eapply lookup_lt_Some).
        by rewrite Hcur4.
      - apply (generate_grows _ _ _ _ _ (length (store s))); [|done].
        intros _. by destruct Hr as (_ & ? & ?). }
    cbn beta. intros sub s' (_ & Hg' & Hr'). wp_step. split; [done|].
    eapply keeps_trans; [done|]. eapply grows_keeps; [by destruct Hr|done]. }
  cbn beta. intros pages s _. by repeat wp_step.
Qed.

(** X14. On a plain site [generate] raises none of its errors: when the
    [dist_path], [date], [slug] and [permalink] of the configuration handed
    in and of every local configuration are strings where they are given,
    and no front matter declares a [filename], or a [path] that is not a
    string, the run returns a page list. *)
Theorem plain_sites_compile styles marked getTemplate ampGenerate
    baseConfig sourceDirectory destDirectory config listing st :
  constructed st → plain_config (default ∅ (store st !! baseConfig)) →
  well_formed (Directory config listing) →
  ∃ pages st',
    generate styles marked getTemplate ampGenerate baseConfig sourceDirectory destDirectory
             (Directory config listing) st
    = inr (pages, st').
Proof.
  intros Hc Hb Hwf.
  pose proof (generate_total styles marked getTemplate ampGenerate (Directory config listing)
                baseConfig sourceDirectory destDirectory st Hc Hb Hwf eq_refl) as H.
  apply wp_total in H as (pages & st' & Hrun & _). eauto.
Qed.

(** ** The events of one page *)

Section PageEvents.
Variable marked : string → string.
Variable getTemplate : value → obj → string.
Variable ampGenerate : obj → option string.

Lemma processContentFile_events src dest cur name data content st :
  wp any_exn
     (processContentFile marked getTemplate ampGenerate src dest cur (name, File data content))
     (λ page st',
        ∃ o p,
          store st' !! page = Some o ∧ get "path" o = VStr p
          ∧ let destDirectory := Path.join [baseDestDirectory st; p] in
            let templateData := assign (assign ∅ (default ∅ (baseTemplateData st))) o in
            events st'
            = events st
              ++ [ConsoleLog (Path.join [p]); EnsureDir destDirectory;
                  WriteFile (Path.join [destDirectory; contentPageName])
                            (getTemplate
                               (if truthy (get "layout" o) then get "layout" o
                                else VStr "default") templateData)]
              ++ amp_events ampGenerate (ampGenerator st) name templateData) st.
Proof.
  unfold processContentFile, renderAmpPages. cbn [fst snd]. do 8 wp_step.
  match goal with |- wp _ _ _ ?s => set (st1 := s) end.
  assert (He1 : events st1 = events st) by done.
  assert (Hb1 : baseDestDirectory st1 = baseDestDirectory st) by done.
  assert (Ht1 : baseTemplateData st1 = baseTemplateData st) by done.
  assert (Ha1 : ampGenerator st1 = ampGenerator st) by done.
  clearbody st1.
  wp_call (renderContentFile_changes marked getTemplate)
    as [r td] st2 (Hr & o & p & Ho & Hp & Htd & Hch).
  cbn [fst snd] in *. subst r.
  destruct Hch as (_ & _ & Hev & _ & _ & _ & _ & _ & Ha2).
  cbv zeta in Hev. rewrite Hb1, He1 in Hev. rewrite Ht1 in Htd.
  wp_step. wp_step. rewrite Ha2, Ha1. unfold amp_events.
  destruct (ampGenerator st); cbn [andb when].
  - repeat wp_step; exists o, p; (split; [done|]); (split; [done|]);
      cbv zeta; rewrite <- Htd;
      match goal with H : ampGenerate td = _ |- _ => rewrite H end;
      cbn; rewrite Hev; by rewrite <- !app_assoc.
  - do 3 wp_step. exists o, p. split; [done|]. split; [done|].
    cbv zeta. rewrite <- Htd. cbn. by rewrite Hev.
Qed.


Lemma parseContentFile_date l data content iso st :
  data !! "date" = Some (VDate iso) →
  wp any_exn (parseContentFile marked l data content)
     (λ _ st', field l "date" (VStr (JS.substr 0 10 iso)) st') st.
Proof.
  intros Hd. unfold parseContentFile. wp_step. wp_step.
  apply wp_bind. apply wp_as_string; [done|]. intros p Hp.
  apply get_default_field, field_valid in Hp.
  do 3 wp_step.
  match goal with |- wp _ _ _ ?s => set (st1 := s) end.
  assert (H1 : field l "date" (VDate iso) st1) by (by apply field_assign_eq).
  clearbody st1. wp_step. wp_step. rewrite (field_load _ _ _ _ H1).
  wp_step. wp_step.
  match goal with |- wp _ _ _ ?s => set (st2 := s) end.
  assert (H2 : field l "date" (VStr (JS.substr 0 10 iso)) st2).
  { subst st2. by eapply field_setp_last. }
  clearbody st2. repeat wp_step; field_solve.
Qed.

(** X16. A [date] that the front matter gives as a [Date] ends on the page as
    the first ten characters of its ISO text. *)
Theorem front_matter_date_is_normalised l actualDestDirectory data content iso st r st' :
  renderContentFile marked getTemplate l actualDestDirectory data content st = inr (r, st') →
  data !! "date" = Some (VDate iso) →
  field l "date" (VStr (JS.substr 0 10 iso)) st'.
Proof.
  intros Hrun Hd.
  enough (wp any_exn (renderContentFile marked getTemplate l actualDestDirectory data content)
             (λ _ st', field l "date" (VStr (JS.substr 0 10 iso)) st') st) as H
    by (by eapply wp_inr in H).
  unfold renderContentFile. wp_step. wp_step.
  wp_call (@wp_any unit) as ? st1 ?.
  wp_call (@wp_any unit) as ? st2 ?.
  wp_call parseContentFile_date as ? st3 H3.
  repeat wp_step; field_solve.
Qed.

Lemma wp_throws {A} (e : exn) (m : M A) st :
  wp (λ e', e' = e) m (λ _ _, False) st → m st = inl e.
Proof. unfold wp. destruct (m st) as [e'|[a st']]; [by intros ->|done]. Qed.

Lemma resolveDateAndSlug_Date l iso st :
  field l "date" (VDate iso) st →
  wp (λ e, e = TypeError) (resolveDateAndSlug l)
     (λ _ st', field l "date" (VDate iso) st') st.
Proof.
  intros H. unfold resolveDateAndSlug. wp_step. wp_step.
  apply wp_bind.
  eapply wp_post with (Q' := λ _ st1, field l "date" (VDate iso) st1).
  { repeat wp_step; field_solve. }
  cbn beta. intros _ st1 H1. wp_step. wp_step.
  rewrite (field_load _ _ _ _ H1). cbn [truthy negb orb].
  repeat wp_step; field_solve.
Qed.

Lemma resolvePath_Date l pkg dest iso st :
  field l "date" (VDate iso) st →
  wp (λ e, e = TypeError) (resolvePath l pkg dest) (λ _ _, False) st.
Proof.
  intros H. unfold resolvePath. wp_step. wp_step.
  rewrite (field_load _ _ _ _ H). cbn [truthy when as_string].
  wp_step. wp_step; [|wp_step]; wp_step; by wp_step.
Qed.

(** X17. Only front matter dates are normalised: a page configuration that
    already holds a [Date] as its [date] (inherited from a configuration)
    makes [renderContentFile] fail with a [TypeError], whatever the file
    holds, since [substr] is called on it before the file is read. *)
Theorem inherited_Date_is_a_TypeError l actualDestDirectory data content iso st :
  field l "date" (VDate iso) st →
  renderContentFile marked getTemplate l actualDestDirectory data content st
  = inl TypeError.
Proof.
  intros H. apply wp_throws. unfold renderContentFile. wp_step. wp_step.
  wp_call resolveDateAndSlug_Date as ? st1 H1.
  apply wp_bind. eapply wp_post; [by eapply resolvePath_Date|]. done.
Qed.
End PageEvents.

Lemma blog_site_is_well_formed : well_formed blog_site.
Proof.
  repeat split; try exact I; try reflexivity; by left.
Defined.

Lemma site_configuration_is_plain :
  plain_config (default ∅ (store just_constructed !! 0)).
Proof. repeat split. Defined.

Lemma plain_sites_compile_witness :
  ∃ pages st', sample_generate amp_succeeds blog_site = inr (pages, st').
Proof.
  exact (plain_sites_compile [] plain_marked title_template amp_succeeds 0 "/site/content"
           "/site/_dist" _ _ just_constructed constructed_just_constructed
           site_configuration_is_plain blog_site_is_well_formed).
Defined.


Lemma front_matter_date_is_normalised_witness :
  ∃ r st',
    renderContentFile plain_marked title_template 1 "/site/_dist/blog"
                      dated_front_matter "First paragraph." page_being_rendered
    = inr (r, st')
    ∧ field 1 "date" (VStr "2024-01-05") st'.
Proof.
  destruct page_being_rendered_runs as (r & st' & Hrun).
  exists r, st'. split; [exact Hrun|].
  exact (front_matter_date_is_normalised _ _ _ _ _ _ "2024-01-05T00:00:00.000Z" _ _ _
           Hrun eq_refl).
Defined.

Lemma inherited_Date_is_a_TypeError_witness :
  renderContentFile plain_marked title_template 1 "/site/_dist/blog" ∅ "Hello."
                    page_with_inherited_Date
  = inl TypeError.
Proof.
  apply (inherited_Date_is_a_TypeError _ _ _ _ _ _ "2024-01-05T00:00:00.000Z").
  eexists. split; reflexivity.
Defined.

(** ** The page of a dated file *)

Lemma skip_append s1 s2 : JS.skip (String.length s1) (s1 +:+ s2) = s2.
Proof. induction s1 as [|c s1 IH]; [by destruct s2|]. rewrite append_cons. by cbn. Qed.

(** Removing the first occurrence of a text from what it starts. *)
Lemma replace_str_prefix p x : JS.replace_str p "" (p +:+ x) = x.
Proof.
  unfold JS.replace_str.
  assert (JS.indexOf p (p +:+ x) = Some 0) as ->.
  { destruct (p +:+ x) as [|c s] eqn:E.
    - by destruct p.
    - rewrite indexOf_cons, <- E. by rewrite startsWith_append. }
  cbn [JS.take Nat.add JS.getSubstitution]. by rewrite skip_append.
Qed.

Lemma resolveDateAndSlug_dated l st o d sep s ext :
  holds l o st →
  get "filename" o = VStr (d +:+ String sep s +:+ "." +:+ ext) →
  is_date d → Regex.is_separator sep = true → single_line s → is_extension ext →
  truthy (get "date" o) = false → truthy (get "slug" o) = false →
  truthy (get "permalink" o) = false →
  wp (λ _, False) (resolveDateAndSlug l)
     (λ _ st', holds l (<["slug" := VStr s]> (<["date" := VStr d]> o)) st') st.
Proof.
  intros Ho Hfn Hd Hsep Hs Hext Hdate Hslug Hperm.
  assert (Hm : Regex.date_slug_dot
                 (Regex.strip_extension (d +:+ String sep s +:+ "." +:+ ext))
               = Some (Some d, s)).
  { rewrite <-(append_assoc d (String sep s)).
    rewrite strip_extension_app by done. by apply date_slug_dated. }
  unfold resolveDateAndSlug. wp_step. wp_step. rewrite (holds_load _ _ _ Ho).
  rewrite Hslug, Hperm. cbn [negb andb when]. wp_step. wp_step. wp_step. wp_step.
  rewrite (holds_load _ _ _ Ho). rewrite Hdate, Hslug, Hfn. cbn [negb orb when as_string].
  wp_step. wp_step. rewrite Hm. cbn [fst snd of_group]. wp_step. wp_step. wp_step.
  by repeat apply holds_setp.
Qed.

Lemma resolvePath_loose l dest st o d s rel :
  holds l o st → get "date" o = VStr d → d ≠ "" → get "slug" o = VStr s →
  truthy (get "title" o) = false →
  dest = baseDestDirectory st +:+ "/" +:+ rel →
  Path.join [dest; s] = dest +:+ "/" +:+ s →
  wp (λ _, False) (resolvePath l false dest)
     (λ _ st',
        holds l (<["path_amp" := VStr (rel +:+ "/" +:+ s +:+ "amp.html")]>
                   (<["path" := VStr (rel +:+ "/" +:+ s)]>
                      (<["year" := VStr (JS.substr 0 4 d)]>
                         (<["title" := VStr s]> o)))) st'
        ∧ baseDestDirectory st' = baseDestDirectory st ∧ events st' = events st) st.
Proof.
  intros Ho Hd Hdne Hs Ht -> Hjoin. unfold resolvePath, renderAmpPages. wp_step. wp_step.
  rewrite (holds_load _ _ _ Ho), Ht, Hd, Hs. cbn [truthy negb when as_string].
  rewrite (eqb_nonempty d) by done. cbn [negb when].
  do 12 wp_step. cbn [baseDestDirectory set_store].
  rewrite Hjoin, !append_assoc, replace_str_prefix. cbn [JS.strip_leading_slash Ascii.eqb Bool.eqb append].
  rewrite append_cons, append_nil_l. cbn [JS.strip_leading_slash Ascii.eqb Bool.eqb].
  repeat wp_step. split; [|done]. rewrite !append_assoc. by repeat apply holds_setp.
Qed.

Lemma is_date_digit d : is_date d → ∃ c r, d = String c r ∧ JS.is_digit c = true.
Proof.
  unfold is_date, Regex.date_prefix.
  destruct d as [|y1 [|y2 [|y3 [|y4 [|h1 [|m1 [|m2 [|h2 [|d1 [|d2 rest]]]]]]]]]];
    try discriminate.
  destruct (_ && _ && _) eqn:E; [|discriminate]. intros _.
  cbn [JS.forallb] in E. rewrite !andb_true_iff in E. destruct E as [[[E _] _] _]. eauto.
Qed.

Lemma is_date_not_index d t : is_date d → String.eqb (d +:+ t) "index.md" = false.
Proof.
  intros (c & r & -> & Hc)%is_date_digit. rewrite append_cons. cbn [String.eqb].
  destruct (Ascii.eqb_spec c "i") as [->|]; [|done]. by vm_compute in Hc.
Qed.

Section DatedPost.
Variable marked : string → string.
Variable getTemplate : value → obj → string.

Lemma parseContentFile_keeps l data content k v st :
  k ≠ "excerpt" → k ≠ "date" → data !! k = None → field l k v st →
  wp any_exn (parseContentFile marked l data content) (λ _ st', field l k v st') st.
Proof.
  intros ? ? Hd H. unfold parseContentFile. repeat wp_step; field_solve.
Qed.

Lemma parseContentFile_keeps_date l data content d st :
  data !! "date" = None → field l "date" (VStr d) st →
  wp any_exn (parseContentFile marked l data content)
     (λ _ st', field l "date" (VStr d) st') st.
Proof.
  intros Hd H. unfold parseContentFile. wp_step. wp_step.
  apply wp_bind. apply wp_as_string; [done|]. intros p Hp. do 3 wp_step.
  match goal with |- wp _ _ _ ?s => set (st1 := s) end.
  assert (H1 : field l "date" (VStr d) st1) by (subst st1; field_solve).
  clearbody st1. wp_step. wp_step. rewrite (field_load _ _ _ _ H1).
  repeat wp_step; field_solve.
Qed.

Lemma holds_field l o k st : holds l o st → field l k (get k o) st.
Proof. intros H. by exists o. Qed.

Lemma renderContentFile_dated l dest data content st o d sep s rel :
  holds l o st →
  get "filename" o = VStr (d +:+ String sep s +:+ ".md") →
  JS.substr_from 1 (Path.extname (d +:+ String sep s +:+ ".md")) = "md" →
  is_date d → Regex.is_separator sep = true → single_line s →
  truthy (get "date" o) = false → truthy (get "slug" o) = false →
  truthy (get "permalink" o) = false → truthy (get "title" o) = false →
  dest = baseDestDirectory st +:+ "/" +:+ rel →
  Path.join [dest; s] = dest +:+ "/" +:+ s →
  Forall (λ k, data !! k = None)
         ["filename"; "date"; "slug"; "title"; "year"; "path"; "path_amp"] →
  wp (λ _, False) (renderContentFile marked getTemplate l dest data content)
     (λ _ st',
        field l "date" (VStr d) st' ∧ field l "slug" (VStr s) st'
        ∧ field l "title" (VStr s) st' ∧ field l "year" (VStr (JS.substr 0 4 d)) st'
        ∧ field l "path" (VStr (rel +:+ "/" +:+ s)) st'
        ∧ field l "path_amp" (VStr (rel +:+ "/" +:+ s +:+ "amp.html")) st'
        ∧ write_targets (events st')
          = write_targets (events st)
            ++ [Path.join [Path.join [baseDestDirectory st; rel +:+ "/" +:+ s];
                           contentPageName]]) st.
Proof.
  intros Ho Hfn Hext Hd Hsep Hs Hdate Hslug Hperm Htitle Hdest Hjoin Hdata.
  rewrite !Forall_cons in Hdata.
  destruct Hdata as (Hdf & Hdd & Hds & Hdt & Hdy & Hdp & Hda & _).
  pose proof (is_date_nonempty d Hd) as Hdne.
  unfold renderContentFile. wp_step. wp_step.
  rewrite (holds_load _ _ _ Ho), Hfn. cbn [loose_eq_str]. rewrite is_date_not_index by done.
  apply wp_bind. eapply wp_post.
  { apply wp_conj_total.
    - by eapply (resolveDateAndSlug_dated l st o d sep s "md").
    - apply resolveDateAndSlug_changes, changes_refl. }
  cbn beta. intros _ st1 (Ho1 & Hc1).
  assert (Hb1 : baseDestDirectory st1 = baseDestDirectory st) by (by destruct Hc1 as (_ & _ & _ & _ & _ & ? & _)).
  assert (He1 : events st1 = events st).
  { destruct Hc1 as (_ & _ & -> & _). by rewrite app_nil_r. }
  apply wp_bind. eapply wp_post.
  { eapply (resolvePath_loose l dest st1 _ d s rel); [done| | | | | |done].
    - rewrite get_insert_ne by done. apply get_insert_eq.
    - done.
    - apply get_insert_eq.
    - by rewrite !get_insert_ne.
    - by rewrite Hb1. }
  cbn beta. intros _ st2 (Ho2 & Hb2 & He2).
  set (o2 := <["path_amp" := _]> _) in Ho2.
  assert (Hfields : field l "date" (VStr d) st2 ∧ field l "slug" (VStr s) st2
                    ∧ field l "title" (VStr s) st2
                    ∧ field l "year" (VStr (JS.substr 0 4 d)) st2
                    ∧ field l "path" (VStr (rel +:+ "/" +:+ s)) st2
                    ∧ field l "path_amp" (VStr (rel +:+ "/" +:+ s +:+ "amp.html")) st2).
  { repeat split; exists o2; (split; [done|]); subst o2;
      repeat first [rewrite get_insert_eq | rewrite get_insert_ne by done]; done. }
  destruct Hfields as (Fd & Fs & Ft & Fy & Fp & Fa).
  apply wp_bind. eapply wp_post.
  { apply wp_conj_total.
    - eapply (parseContentFile_total marked l data content st2 o2);
        [done| | |exact Hext|split; [done|by left]].
      + subst o2. rewrite !get_insert_ne by done. exact Hfn.
      + subst o2. rewrite get_insert_ne by done. apply get_insert_eq.
    - apply wp_conj; [apply parseContentFile_changes, changes_refl|].
      apply wp_conj; [exact (parseContentFile_keeps_date l data content d st2 Hdd Fd)|].
      apply wp_conj; [by apply (parseContentFile_keeps l data content "slug" (VStr s))|].
      apply wp_conj; [by apply (parseContentFile_keeps l data content "title" (VStr s))|].
      apply wp_conj; [by apply (parseContentFile_keeps l data content "year")|].
      apply wp_conj; [by apply (parseContentFile_keeps l data content "path")|].
      by apply (parseContentFile_keeps l data content "path_amp"). }
  cbn beta. intros contentFile st3 (_ & Hc3 & Gd & Gs & Gt & Gy & Gp & Ga).
  assert (Hb3 : baseDestDirectory st3 = baseDestDirectory st).
  { destruct Hc3 as (_ & _ & _ & _ & _ & -> & _). congruence. }
  assert (He3 : events st3 = events st).
  { destruct Hc3 as (_ & _ & -> & _). rewrite app_nil_r. congruence. }
  wp_step. wp_step.
  match goal with |- wp _ _ _ ?s => set (st4 := s) end.
  assert (Hp4 : field l "path" (VStr (rel +:+ "/" +:+ s)) st4) by (subst st4; field_solve).
  assert (Hb4 : baseDestDirectory st4 = baseDestDirectory st) by done.
  assert (He4 : events st4 = events st) by done.
  assert (Hall : field l "date" (VStr d) st4 ∧ field l "slug" (VStr s) st4
                 ∧ field l "title" (VStr s) st4
                 ∧ field l "year" (VStr (JS.substr 0 4 d)) st4
                 ∧ field l "path_amp" (VStr (rel +:+ "/" +:+ s +:+ "amp.html")) st4).
  { subst st4. repeat split; field_solve. }
  destruct Hall as (Hd4 & Hs4 & Ht4 & Hy4 & Ha4).
  clearbody st4. do 4 wp_step. rewrite (field_load _ _ _ _ Hp4). cbn [as_string].
  repeat wp_step.
  repeat (split; [field_solve|]).
  cbn [events set_events baseDestDirectory]. rewrite !write_targets_app, He4, Hb4. cbn.
  by rewrite !app_nil_r.
Qed.

End DatedPost.

Lemma hello_world_is_a_date : is_date "2024-01-05".
Proof. reflexivity. Defined.

(** ** A destination override and the subtree *)

Lemma level_entries config entries :
  level (Directory config entries)
  ↔ existsb (λ e : string * node, String.eqb e.1 "index.md") entries = false
    ∧ Forall (λ e : string * node,
                match e.2 with
                | Directory config _ => config !! "dist_path" = None
                | File _ _ => True
                end ∧ level e.2) entries.
Proof.
  cbn. apply and_iff_compat_l. induction entries as [|[name child] entries IH].
  - split; [constructor|done].
  - rewrite Forall_cons. cbn [snd]. rewrite <- IH. tauto.
Qed.

Lemma resolveDirectory_dist_path base dest config entries d st :
  get "dist_path" (assign (assign ∅ (default ∅ (store st !! base))) config) = VStr d →
  d ≠ "" →
  existsb (λ e : string * node, String.eqb e.1 "index.md") entries = false →
  wp any_exn (resolveDirectory base dest config entries)
     (λ r st', r.2 = Path.join [baseDestDirectory st; JS.strip_leading_slash d]) st.
Proof.
  intros Hd Hne Hpkg. unfold resolveDirectory. do 4 wp_step. rewrite Hpkg. cbn [when].
  do 4 wp_step. cbn [store set_store]. rewrite lookup_app_r, Nat.sub_diag by done.
  cbn [lookup list_lookup default from_option id]. rewrite Hd. cbn [truthy as_string].
  rewrite (eqb_nonempty d) by done. cbn [negb]. by repeat wp_step.
Qed.

Lemma generate_overridden styles marked getTemplate ampGenerate d dir :
  d ≠ "" →
  ∀ base src dest st,
    ready st →
    match dir with
    | Directory config _ =>
        get "dist_path" (assign (assign ∅ (default ∅ (store st !! base))) config) = VStr d
    | File _ _ => True
    end →
    level dir →
    wp any_exn (generate styles marked getTemplate ampGenerate base src dest dir)
       (λ _ st',
          map snd (copies (events st'))
          = map snd (copies (events st))
            ++ map (λ name, Path.join [Path.join [baseDestDirectory st;
                                                  JS.strip_leading_slash d]; name])
                   (asset_names dir)) st.
Proof.
  intros Hne.
  induction dir as [data content|config entries IH] using node_rect';
    intros base src dest st Hr Hd Hlevel; [done|].
  apply level_entries in Hlevel as [Hpkg Hlevel].
  set (D := Path.join [baseDestDirectory st; JS.strip_leading_slash d]).
  cbn [generate].
  apply wp_bind. eapply wp_post; [apply wp_run|]. cbn beta. intros [] st1 Hinit.
  rewrite initialize_again in Hinit by (by destruct Hr). injection Hinit as <-.
  apply wp_bind. eapply wp_post.
  { apply wp_conj; [by eapply resolveDirectory_dist_path|].
    apply wp_conj; [apply resolveDirectory_exact|].
    apply (resolveDirectory_grows 0 st quiet); [apply grows_refl|lia]. }
  cbn beta. intros [cur odest] st2 (Hodest & (Hcur & Hs2 & He2) & (Hg2 & _)).
  cbn [fst snd] in *. subst odest. fold D.
  assert (Hr2 : ready st2) by (by eapply ready_grows).
  assert (Hb2 : baseDestDirectory st2 = baseDestDirectory st).
  { by destruct (grows_baseDest _ _ _ _ (proj1 Hr) Hg2). }
  set (rc := resolved_config (default ∅ (store st !! base)) dest config entries) in *.
  assert (Hrc : get "dist_path" rc = VStr d).
  { subst rc. unfold resolved_config. by rewrite Hpkg. }
  wp_step. wp_step. apply wp_bind. unfold wp at 1. rewrite processAssetFiles_run.
  match goal with |- wp _ _ _ ?s => set (st4 := s) end.
  assert (Hr4 : ready st4) by done.
  assert (Hb4 : baseDestDirectory st4 = baseDestDirectory st) by done.
  assert (Hcur4 : store st4 !! cur = Some rc).
  { subst st4. cbn [store set_events]. by rewrite Hs2, Hcur, lookup_app_r, Nat.sub_diag. }
  assert (Hc4 : map snd (copies (events st4))
                = map snd (copies (events st))
                  ++ map (λ name, Path.join [D; name])
                         (map fst (List.filter (λ e, is_asset e.1 e.2) entries))).
  { subst st4. cbn [events set_events]. rewrite He2, !copies_app, !map_app. cbn.
    rewrite app_nil_r. f_equal. clear.
    induction (List.filter _ entries) as [|e es IHes]; [done|].
    cbn. by rewrite <- IHes. }
  clearbody st4.
  apply wp_bind. eapply wp_post.
  { apply wp_conj; [apply (processContentFiles_outputs marked getTemplate ampGenerate)|].
    apply (processContentFiles_grows marked getTemplate ampGenerate 0 st4);
      [apply grows_refl|lia]. }
  cbn beta. intros own st5 ((Hk5 & _ & Hc5 & _) & Hg5).
  assert (Hr5 : ready st5) by (by eapply ready_grows).
  apply wp_bind. eapply wp_post.
  { apply wp_for_of_prefix
      with (I := λ pre acc s,
                   ready s ∧ keeps st4 s
                   ∧ map snd (copies (events s))
                     = map snd (copies (events st))
                       ++ map (λ name, Path.join [D; name])
                              (map fst (List.filter (λ e, is_asset e.1 e.2) entries)
                               ++ concat (map (λ '(_, child),
                                                 match child with
                                                 | Directory _ _ => asset_names child
                                                 | File _ _ => []
                                                 end) pre))).
    - split; [done|]. split; [done|]. rewrite Hc5. cbn. by rewrite app_nil_r.
    - intros pre [name child] post acc s Hentries (Hrs & Hk & Hc).
      rewrite (map_app _ pre), concat_app. cbn [map concat]. rewrite app_nil_r.
      destruct child as [|c es]; cbv beta iota.
      { wp_step. by rewrite app_nil_r. }
      assert (Hin : (name, Directory c es) ∈ entries).
      { rewrite Hentries. set_solver. }
      rewrite Forall_forall in IH, Hlevel.
      destruct (Hlevel _ Hin) as [Hdc Hlc]. cbn [snd] in Hdc, Hlc.
      apply wp_bind. eapply wp_post.
      { apply wp_conj; [apply (IH _ Hin cur); [done| |done]|
                        apply (generate_grows _ _ _ _ _ (length (store s)))]; try done.
        - cbn [snd]. destruct Hk as (_ & Hfr & _).
          rewrite Hfr, Hcur4 by (by eapply lookup_lt_Some). cbn [default from_option id].
          rewrite get_assign_absent by done. by rewrite get_assign_empty.
        - intros _. by destruct Hrs as (_ & ? & ?). }
      cbn beta. intros sub s' (Hc' & Hg' & Hr').
      assert (Hk' : keeps s s') by (eapply grows_keeps; [by destruct Hrs|done]).
      assert (Hbs : baseDestDirectory s = baseDestDirectory st).
      { destruct Hk as (_ & _ & ->). done. }
      wp_step. split; [done|]. split; [by eapply keeps_trans|].
      rewrite Hc', Hc, Hbs. fold D. by rewrite !map_app, <- !app_assoc. }
  cbn beta. intros pages s ((Hi & Ht & Ha) & Hk & Hc).
  wp_step. wp_step. rewrite Ht. cbn [when]. wp_step. wp_step. wp_step.
  cbn [events set_events]. rewrite copies_emit by done. by rewrite Hc.
Qed.

Lemma bind_after {A B} (m : M A) (k : A → M B) st a st1 :
  m st = inr (a, st1) → bind m k st = k a st1.
Proof. intros H. unfold bind. by rewrite H. Qed.

Lemma generate_initializes styles marked getTemplate ampGenerate base src dest config entries
    st :
  initialized st = false →
  generate styles marked getTemplate ampGenerate base src dest (Directory config entries) st
  = generate styles marked getTemplate ampGenerate base src dest (Directory config entries)
             (State (store st) true src dest
                    (Some (buildBaseTemplateData (default ∅ (store st !! base)) styles))
                    true true (events st)).
Proof.
  intros Hi. cbn [generate].
  set (st1 := State (store st) true src dest _ true true (events st)).
  assert (Hinit : initialize styles base src dest st = inr (tt, st1)).
  { unfold initialize, bind, gets, load. by rewrite Hi. }
  rewrite (bind_after _ _ st tt st1 Hinit).
  by rewrite (bind_after _ _ st1 tt st1 (initialize_again _ _ _ _ st1 eq_refl)).
Qed.

(** X19. A [dist_path] in force for a directory is inherited by its
    subdirectories, and the natural destination plays no part: when neither
    the directory nor anything below it is a content package, and no
    directory below sets a [dist_path] of its own, every asset file of the
    whole subtree is copied into the one directory the [dist_path] names
    under the destination root, under its bare name. *)
Theorem dist_path_collects_the_subtree styles marked getTemplate ampGenerate
    baseConfig sourceDirectory destDirectory config listing d st pages st' :
  constructed st →
  get "dist_path" (assign (assign ∅ (default ∅ (store st !! baseConfig))) config) = VStr d →
  d ≠ "" →
  level (Directory config listing) →
  generate styles marked getTemplate ampGenerate baseConfig sourceDirectory destDirectory
           (Directory config listing) st = inr (pages, st') →
  map snd (copies (events st'))
  = map snd (copies (events st))
    ++ map (λ name, Path.join [Path.join [baseDestDirectory st'; JS.strip_leading_slash d];
                               name])
           (asset_names (Directory config listing)).
Proof.
  intros Hc Hd Hne Hlevel Hrun.
  destruct (initialized st) eqn:Hi.
  - assert (Hr : ready st) by (split; [done|by apply Hc]).
    pose proof (generate_overridden styles marked getTemplate ampGenerate d
                  (Directory config listing) Hne baseConfig sourceDirectory destDirectory
                  st Hr Hd Hlevel) as H.
    pose proof (generate_grows styles marked getTemplate ampGenerate
                  (Directory config listing) 0 baseConfig sourceDirectory destDirectory st Hc
                  (Nat.le_0_l _)) as Hg.
    eapply wp_inr in H; [|done]. eapply wp_inr in Hg; [|done]. destruct Hg as [Hg _].
    destruct (grows_baseDest _ _ _ _ Hi Hg) as [_ ->]. done.
  - rewrite generate_initializes in Hrun by done.
    match type of Hrun with generate _ _ _ _ _ _ _ _ ?s = _ => set (st1 := s) in * end.
    assert (Hr : ready st1) by done.
    pose proof (generate_overridden styles marked getTemplate ampGenerate d
                  (Directory config listing) Hne baseConfig sourceDirectory destDirectory
                  st1 Hr Hd Hlevel) as H.
    pose proof (generate_grows styles marked getTemplate ampGenerate
                  (Directory config listing) 0 baseConfig sourceDirectory destDirectory st1
                  (λ _, conj eq_refl eq_refl) (Nat.le_0_l _)) as Hg.
    eapply wp_inr in H; [|done]. eapply wp_inr in Hg; [|done]. destruct Hg as [Hg _].
    destruct (grows_baseDest 0 _ st1 st' eq_refl Hg) as [_ ->]. done.
Qed.

Lemma downloads_site_runs :
  ∃ pages st', sample_generate amp_succeeds downloads_site = inr (pages, st').
Proof.
  destruct (returns_inr (sample_generate amp_succeeds downloads_site)) as [[pages st'] Hrun].
  - vm_compute. reflexivity.
  - eauto.
Defined.

Lemma downloads_site_is_level : level downloads_site.
Proof. repeat split. Defined.

Lemma files_is_not_empty : "/files" ≠ "".
Proof. discriminate. Defined.

Lemma dist_path_collects_the_subtree_witness :
  ∃ pages st',
    sample_generate amp_succeeds downloads_site = inr (pages, st')
    ∧ map snd (copies (events st'))
      = map (λ name, Path.join [Path.join [baseDestDirectory st'; "files"]; name])
            ["a.zip"; "a.zip"; "b.zip"].
Proof.
  destruct downloads_site_runs as (pages & st' & Hrun).
  exists pages, st'. split; [exact Hrun|].
  exact (dist_path_collects_the_subtree [] plain_marked title_template amp_succeeds 0
           "/site/content" "/site/_dist" {["dist_path" := VStr "/files"]}
           [("a.zip", File ∅ "");
            ("notes.md", File ∅ "Notes.");
            ("old", Directory ∅ [("a.zip", File ∅ ""); ("b.zip", File ∅ "")])]
           "/files" just_constructed pages st'
           constructed_just_constructed eq_refl files_is_not_empty downloads_site_is_level
           Hrun).
Defined.

(** ** The destination of a directory and its assets *)

Lemma generate_ensures styles marked getTemplate ampGenerate base src dest config entries st :
  constructed st →
  wp any_exn
     (generate styles marked getTemplate ampGenerate base src dest (Directory config entries))
     (λ _ st',
        ∃ d rest,
          events st'
          = events st
            ++ EnsureDir d
               :: map (λ e : string * node,
                         CopyFile (Path.join [src; e.1]) (Path.join [d; e.1]))
                      (List.filter (λ e, is_asset e.1 e.2) entries)
               ++ rest) st.
Proof.
  intros Hcon. cbn [generate].
  wp_call (initialize_grows styles 0 quiet) as ? st1 (_ & Hr1 & _ & Hs1 & He1).
  apply wp_bind. eapply wp_post.
  { apply wp_conj; [apply resolveDirectory_exact|].
    apply (resolveDirectory_grows 0 st1 quiet); [apply grows_refl|lia]. }
  cbn beta. intros [cur d] st2 ((_ & _ & He2) & (Hg2 & _)). cbn [fst snd] in *.
  assert (Hr2 : ready st2) by (by eapply ready_grows).
  wp_step. wp_step. apply wp_bind. unfold wp at 1. rewrite processAssetFiles_run.
  match goal with |- wp _ _ _ ?s => set (st4 := s) end.
  assert (Hr4 : ready st4) by done.
  assert (He4 : events st4
                = events st
                  ++ EnsureDir d
                     :: map (λ e : string * node,
                               CopyFile (Path.join [src; e.1]) (Path.join [d; e.1]))
                            (List.filter (λ e, is_asset e.1 e.2) entries)).
  { subst st4. cbn [events set_events]. by rewrite He2, He1, <- app_assoc. }
  clearbody st4.
  enough (wp any_exn
            (let* pages := processContentFiles marked getTemplate ampGenerate src entries d cur in
             let* pages :=
               for_of
                 (λ '(subDirectoryName, entry) pages,
                    match entry with
                    | Directory _ _ =>
                        let* subContent :=
                          generate styles marked getTemplate ampGenerate cur
                                   (Path.join [src; subDirectoryName])
                                   (Path.join [dest; subDirectoryName]) entry in
                        ret (pages ++ subContent)
                    | File _ _ => ret pages
                    end)
                 entries pages in
             let* templates := gets templateGenerator in
             when templates (emit (TemplateGenerate src dest cur pages)) ;;
             ret pages)
            (λ _ st', grows 0 (λ _, True) st4 st') st4) as H.
  { eapply wp_post; [exact H|]. cbn beta. intros pages st' Hg.
    destruct (grows_events _ _ _ _ Hg) as (rest & -> & _).
    exists d, rest. by rewrite He4, <- app_assoc. }
  wp_call (processContentFiles_grows marked getTemplate ampGenerate 0 st4) as own st5 Hg5;
    [apply grows_refl|lia|].
  apply wp_bind.
  eapply wp_post with (Q' := λ _ s, ready s ∧ grows 0 (λ _, True) st4 s).
  - apply wp_for_of with (I := λ _ s, ready s ∧ grows 0 (λ _, True) st4 s).
    { split; [by eapply ready_grows|]. eapply grows_weaken; [done|lia|done]. }
    intros [name child] acc s Hin (Hr & Hg).
    destruct child as [|c es]; cbv beta iota; [by wp_step|].
    wp_call (generate_grows styles marked getTemplate ampGenerate (Directory c es) 0)
      as sub s' (Hg' & Hr').
    { intros _. by destruct Hr as (_ & ? & ?). }
    { lia. }
    wp_step. split; [done|]. by eapply grows_trans.
  - cbn beta. intros pages s (Hr & Hg). repeat wp_step; grows_solve.
Qed.

(** X20. The first thing a run of [generate] on a directory does to the outside
    world is to ensure one destination directory; the assets of the
    directory are then copied into it, in listing order, before anything
    else happens. *)
Theorem directory_is_ensured_before_its_assets styles marked getTemplate ampGenerate
    baseConfig sourceDirectory destDirectory config listing st pages st' :
  constructed st →
  generate styles marked getTemplate ampGenerate baseConfig sourceDirectory destDirectory
           (Directory config listing) st = inr (pages, st') →
  ∃ d rest,
    events st'
    = events st
      ++ EnsureDir d
         :: map (λ e : string * node,
                   CopyFile (Path.join [sourceDirectory; e.1]) (Path.join [d; e.1]))
                (List.filter (λ e, is_asset e.1 e.2) listing)
         ++ rest.
Proof.
  intros Hc Hrun.
  pose proof (generate_ensures styles marked getTemplate ampGenerate baseConfig
                sourceDirectory destDirectory config listing st Hc) as H.
  by eapply wp_inr in H.
Qed.

Lemma directory_is_ensured_before_its_assets_witness :
  ∃ pages st' d rest,
    sample_generate amp_succeeds blog_site = inr (pages, st')
    ∧ events st'
      = events just_constructed
        ++ EnsureDir d
           :: map (λ e : string * node,
                     CopyFile (Path.join ["/site/content"; e.1]) (Path.join [d; e.1]))
                  [("logo.png", File ∅ "")]
           ++ rest.
Proof.
  destruct blog_site_runs as (pages & st' & Hrun).
  destruct (directory_is_ensured_before_its_assets _ _ _ _ _ _ _ _ _ _ _ _
              constructed_just_constructed Hrun) as (d & rest & H).
  exists pages, st', d, rest. split; [exact Hrun|exact H].
Defined.

(** ** Joining a normalized path and a name *)

Lemma split_cons c s : ∃ seg segs, JS.split c s = seg :: segs.
Proof.
  induction s as [|a s (seg & segs & IH)]; [by eexists _, _|]. cbn.
  destruct (Ascii.eqb a c); [by eexists _, _|]. rewrite IH. by eexists _, _.
Qed.

Lemma split_without c s : without c s → JS.split c s = [s].
Proof.
  unfold without. induction s as [|a s IH]; [done|]. cbn.
  intros [Ha Hs]%andb_true_iff. apply negb_true_iff in Ha. rewrite Ha.
  by rewrite IH.
Qed.

Lemma split_append c a b :
  JS.split c (a +:+ String c b) = JS.split c a ++ JS.split c b.
Proof.
  induction a as [|x a IH].
  - rewrite append_nil_l. cbn. by rewrite Ascii.eqb_refl.
  - rewrite append_cons. cbn. destruct (Ascii.eqb x c); [by rewrite IH|].
    rewrite IH. by destruct (split_cons c a) as (seg & segs & ->).
Qed.

Lemma join_snoc sep l x :
  JS.join sep (l ++ [x])
  = match l with
    | [] => x
    | _ => JS.join sep l +:+ sep +:+ x
    end.
Proof.
  induction l as [|a l IH]; [done|].
  destruct l as [|b l]; [done|].
  change (JS.join sep ((a :: b :: l) ++ [x]))
    with (a +:+ sep +:+ JS.join sep ((b :: l) ++ [x])).
  rewrite IH. change (JS.join sep (a :: b :: l)) with (a +:+ sep +:+ JS.join sep (b :: l)).
  by rewrite !append_assoc.
Qed.

Lemma lastIndexOf_without c s : without c s → JS.lastIndexOf_char c s = None.
Proof.
  unfold without. induction s as [|a s IH]; [done|]. cbn.
  intros [Ha Hs]%andb_true_iff. apply negb_true_iff in Ha. by rewrite IH, Ha.
Qed.

Lemma lastIndexOf_append c a b :
  JS.lastIndexOf_char c (a +:+ b)
  = match JS.lastIndexOf_char c b with
    | Some j => Some (String.length a + j)
    | None => JS.lastIndexOf_char c a
    end.
Proof.
  induction a as [|x a IH];
    [rewrite append_nil_l; by destruct (JS.lastIndexOf_char c b)|].
  rewrite append_cons. cbn [JS.lastIndexOf_char String.length]. rewrite IH.
  by destruct (JS.lastIndexOf_char c b).
Qed.

Lemma append_nonempty_r s1 s2 : s2 ≠ "" → String.eqb (s1 +:+ s2) "" = false.
Proof. intros H. apply String.eqb_neq. by destruct s1, s2. Qed.

Lemma normalize_step_plain allow stack x :
  plain_segment x → Path.normalize_step allow stack x = x :: stack.
Proof.
  intros (H1 & _ & H2 & H3). unfold Path.normalize_step.
  by rewrite !(proj2 (String.eqb_neq _ _)).
Qed.

Lemma ends_with_slash_segment d x :
  plain_segment x → Path.ends_with_slash (d +:+ String "/" x) = false.
Proof.
  intros (Hne & Hslash & _). unfold Path.ends_with_slash.
  rewrite lastIndexOf_append. cbn [JS.lastIndexOf_char].
  rewrite lastIndexOf_without by done. rewrite Ascii.eqb_refl.
  rewrite length_append. cbn [String.length]. apply Nat.eqb_neq.
  destruct x; [done|]. cbn. lia.
Qed.

Lemma startsWith_slash_append d t :
  d ≠ "" → JS.startsWith "/" (d +:+ t) = JS.startsWith "/" d.
Proof. intros H. destruct d as [|c d]; [done|]. by rewrite append_cons. Qed.

(** What [path.normalize] makes of a normalized path followed by a slash
    and a name: the very text. *)
Lemma normalize_segment d x :
  normalized d → plain_segment x →
  Path.normalize (d +:+ String "/" x) = d +:+ String "/" x.
Proof.
  intros (Hn & Ht & Hdot) Hx. pose proof Hx as (Hne & Hslash & _).
  assert (Hd : d ≠ "") by (intros ->; done).
  unfold Path.normalize in *.
  rewrite append_nonempty_r by done. rewrite (eqb_nonempty d) in Hn by done.
  rewrite startsWith_slash_append by done. rewrite ends_with_slash_segment by done.
  rewrite Ht in Hn. unfold Path.normalizeString in *.
  rewrite split_append, (split_without _ x) by done.
  rewrite fold_left_app. cbn [fold_left]. rewrite normalize_step_plain by done.
  cbn [rev]. rewrite join_snoc.
  set (allow := negb (JS.startsWith "/" d)) in *.
  set (dirs := rev (fold_left (Path.normalize_step allow) (JS.split "/" d) [])) in *.
  destruct dirs as [|seg dirs'] eqn:Hdirs.
  - cbn [JS.join] in Hn. cbn [String.eqb] in Hn.
    destruct (JS.startsWith "/" d); subst d; done.
  - set (q := JS.join "/" (seg :: dirs')) in *.
    rewrite append_nonempty_r by (by destruct x).
    destruct (String.eqb q "") eqn:Hq.
    + destruct (JS.startsWith "/" d); subst d; done.
    + clearbody q. destruct (JS.startsWith "/" d); subst d;
        by rewrite ?append_assoc, ?append_cons, ?append_nil_l.
Qed.

Lemma join_segment d x :
  normalized d → plain_segment x → Path.join [d; x] = d +:+ "/" +:+ x.
Proof.
  intros Hd Hx. pose proof Hx as (Hne & _).
  assert (d ≠ "") by (destruct Hd as (Hn & _); by intros ->).
  unfold Path.join. cbn [List.filter]. rewrite (eqb_nonempty d), (eqb_nonempty x) by done.
  cbn [negb JS.join]. rewrite <- (normalize_segment d x) at 2 by done.
  f_equal.
Qed.

Lemma normalized_segment d x :
  normalized d → plain_segment x → normalized (d +:+ "/" +:+ x).
Proof.
  intros Hd Hx. change (d +:+ "/" +:+ x) with (d +:+ String "/" x).
  split; [by apply normalize_segment|]. split; [by apply ends_with_slash_segment|].
  destruct Hx as (Hne & _). by destruct d as [|c [|c' d]], x.
Qed.

(** The root joined with the rest of a normalized path below it. *)
Lemma join_below base rel :
  base ≠ "" → normalized (base +:+ "/" +:+ rel) →
  Path.join [base; rel] = base +:+ "/" +:+ rel.
Proof.
  intros Hb (Hn & Ht & _).
  assert (rel ≠ "").
  { intros ->. unfold Path.ends_with_slash in Ht.
    rewrite lastIndexOf_append, length_append in Ht.
    change (JS.lastIndexOf_char "/" ("/" +:+ "")) with (Some 0) in Ht.
    change (String.length ("/" +:+ "")) with 1 in Ht.
    destruct (String.length base + 1) eqn:E; [lia|].
    apply Nat.eqb_neq in Ht. lia. }
  unfold Path.join. cbn [List.filter]. rewrite (eqb_nonempty base), (eqb_nonempty rel) by done.
  cbn [negb JS.join]. exact Hn.
Qed.

Lemma index_html_is_plain : plain_segment "index.html".
Proof. by repeat split. Qed.

(** ** The extension of a dated file name *)

Lemma without_append c a b : without c a → without c b → without c (a +:+ b).
Proof. unfold without. intros Ha Hb. by rewrite forallb_app, Ha, Hb. Qed.

Lemma digit_is_no_slash c : JS.is_digit c = true → negb (Ascii.eqb c "/") = true.
Proof.
  intros H. destruct (Ascii.eqb_spec c "/") as [->|]; [|done]. by vm_compute in H.
Qed.

Lemma separator_is_no_slash c : Regex.is_separator c = true → negb (Ascii.eqb c "/") = true.
Proof.
  intros H. destruct (Ascii.eqb_spec c "/") as [->|]; [|done]. by vm_compute in H.
Qed.

Lemma is_date_without_slash d : is_date d → without "/" d.
Proof.
  unfold is_date, Regex.date_prefix, without.
  destruct d as [|y1 [|y2 [|y3 [|y4 [|h1 [|m1 [|m2 [|h2 [|d1 [|d2 rest]]]]]]]]]];
    try discriminate.
  destruct (_ && _ && _) eqn:E; [|discriminate]. intros H.
  injection H as _ ->.
  cbn [JS.forallb] in E. rewrite !andb_true_iff in E.
  destruct E as [[(? & ? & ? & ? & ? & ? & ? & ? & _) H1%Ascii.eqb_eq] H2%Ascii.eqb_eq].
  subst h1 h2. cbn [JS.forallb].
  repeat match goal with
         | H : JS.is_digit ?c = true |- _ => rewrite (digit_is_no_slash c H); clear H
         end.
  done.
Qed.

Lemma basename_plain x : x ≠ "" → without "/" x → Path.basename x = x.
Proof.
  intros Hne Hx. unfold Path.basename. rewrite split_without by done.
  cbn [List.filter]. by rewrite (eqb_nonempty x).
Qed.

(** A name without slash that ends with [.md] has the extension [md]. *)
Lemma extname_md x :
  x ≠ "" → without "/" x → JS.substr_from 1 (Path.extname (x +:+ ".md")) = "md".
Proof.
  intros Hne Hx. unfold Path.extname.
  rewrite basename_plain; [|by destruct x|by apply without_append].
  rewrite lastIndexOf_append. change (JS.lastIndexOf_char "." ".md") with (Some 0).
  cbv iota beta. rewrite Nat.add_0_r.
  destruct (String.length x) as [|n] eqn:Hlen; [by destruct x|].
  assert (String.eqb (x +:+ ".md") ".." = false) as ->.
  { apply String.eqb_neq. intros H. apply (f_equal String.length) in H.
    rewrite length_append in H. cbn in H. lia. }
  by rewrite <- Hlen, skip_append.
Qed.

Lemma dated_name_is_markdown d sep s :
  is_date d → Regex.is_separator sep = true → without "/" s →
  JS.substr_from 1 (Path.extname (d +:+ String sep s +:+ ".md")) = "md".
Proof.
  intros Hd Hsep Hs. rewrite <- append_assoc. apply extname_md.
  - apply is_date_nonempty in Hd. by destruct d.
  - apply without_append; [by apply is_date_without_slash|].
    unfold without. cbn [JS.forallb]. by rewrite separator_is_no_slash.
Qed.

(** ** The page of a dated post *)

(** X18. The page of a loose markdown file named [date-slug.md] (or with [_]),
    rendered into a directory [rel] under the destination root, when the
    destination is a normalized path, the slug is a plain path segment, and
    neither the configuration nor the front matter gives a date, slug, title
    or path: rendering returns, the page has that date and slug, the slug as
    its title, the first four characters of the date as its year, [rel/slug]
    as its [path] and [rel/slug] followed by [amp.html] as its [path_amp],
    and the one file written is [index.html] in the directory [slug] of the
    destination. *)
Theorem dated_post_page marked getTemplate l actualDestDirectory data content st o d sep s
    rel :
  store st !! l = Some o →
  get "filename" o = VStr (d +:+ String sep s +:+ ".md") →
  is_date d → Regex.is_separator sep = true → single_line s → plain_segment s →
  truthy (get "date" o) = false → truthy (get "slug" o) = false →
  truthy (get "permalink" o) = false → truthy (get "title" o) = false →
  baseDestDirectory st ≠ "" →
  actualDestDirectory = baseDestDirectory st +:+ "/" +:+ rel →
  normalized actualDestDirectory →
  Forall (λ k, data !! k = None)
         ["filename"; "date"; "slug"; "title"; "year"; "path"; "path_amp"] →
  ∃ r st',
    renderContentFile marked getTemplate l actualDestDirectory data content st = inr (r, st')
    ∧ field l "date" (VStr d) st' ∧ field l "slug" (VStr s) st'
    ∧ field l "title" (VStr s) st' ∧ field l "year" (VStr (JS.substr 0 4 d)) st'
    ∧ field l "path" (VStr (rel +:+ "/" +:+ s)) st'
    ∧ field l "path_amp" (VStr (rel +:+ "/" +:+ s +:+ "amp.html")) st'
    ∧ write_targets (events st')
      = write_targets (events st)
        ++ [actualDestDirectory +:+ "/" +:+ s +:+ "/" +:+ contentPageName].
Proof.
  intros Ho Hfn Hd Hsep Hs Hplain Hdate Hslug Hperm Htitle Hbase Hdest Hnorm Hdata.
  pose proof (dated_name_is_markdown d sep s Hd Hsep (proj1 (proj2 Hplain))) as Hext.
  pose proof (join_segment _ _ Hnorm Hplain) as Hjoin.
  pose proof (renderContentFile_dated marked getTemplate l actualDestDirectory data content
                st o d sep s rel Ho Hfn Hext Hd Hsep Hs Hdate Hslug Hperm Htitle Hdest Hjoin
                Hdata) as H.
  apply wp_total in H as (r & st' & Hrun & H1 & H2 & H3 & H4 & H5 & H6 & Hw).
  exists r, st'. do 7 (split; [done|]). rewrite Hw. do 2 f_equal.
  pose proof (normalized_segment _ _ Hnorm Hplain) as Hnorm'.
  rewrite Hdest, !append_assoc in Hnorm'. rewrite Hdest, !append_assoc.
  rewrite (join_below (baseDestDirectory st) (rel +:+ "/" +:+ s) Hbase Hnorm').
  rewrite join_segment by (done || apply index_html_is_plain).
  by rewrite !append_assoc.
Qed.

Lemma hello_world_is_plain : plain_segment "hello-world".
Proof. by repeat split. Defined.

Lemma blog_destination_is_normalized : normalized "/site/_dist/blog".
Proof. by repeat split. Defined.

Lemma dated_post_page_witness :
  ∃ r st',
    renderContentFile plain_marked title_template 1 "/site/_dist/blog" ∅ "First paragraph."
                      page_being_rendered
    = inr (r, st')
    ∧ field 1 "date" (VStr "2024-01-05") st' ∧ field 1 "slug" (VStr "hello-world") st'
    ∧ field 1 "title" (VStr "hello-world") st' ∧ field 1 "year" (VStr "2024") st'
    ∧ field 1 "path" (VStr "blog/hello-world") st'
    ∧ field 1 "path_amp" (VStr "blog/hello-worldamp.html") st'
    ∧ write_targets (events st') = ["/site/_dist/blog/hello-world/index.html"].
Proof.
  refine (dated_post_page plain_marked title_template 1 "/site/_dist/blog" ∅
            "First paragraph." page_being_rendered
            {["filename" := VStr "2024-01-05-hello-world.md";
              "source" := VStr "/site/content/blog/2024-01-05-hello-world.md";
              "layout" := VStr "post"]}
            "2024-01-05" "-" "hello-world" "blog" _ _ hello_world_is_a_date _ _
            hello_world_is_plain _ _ _ _ _ _ blog_destination_is_normalized _).
  all: try (vm_compute; reflexivity).
  - discriminate.
  - repeat constructor.
Defined.

(** ** The page of a content package, in any listing *)


Lemma index_md_is_content data content : is_content "index.md" (File data content) = true.
Proof. reflexivity. Qed.

Section Package.
Variable styles : list (string * string).
Variable marked : string → string.
Variable getTemplate : value → obj → string.
Variable ampGenerate : obj → option string.

End Package.





(** ** The AMP requests of a run *)

Lemma amp_trace_app evs1 evs2 : amp_trace (evs1 ++ evs2) = amp_trace evs1 ++ amp_trace evs2.
Proof. apply List.filter_app. Qed.

Lemma amp_trace_amp_events ampGenerate enabled name td :
  amp_trace (amp_events ampGenerate enabled name td) = amp_events ampGenerate enabled name td.
Proof. unfold amp_events. destruct enabled; [|done]. cbn. by destruct (ampGenerate td). Qed.

Lemma amp_trace_emit evs e : is_amp_event e = false → amp_trace (evs ++ [e]) = amp_trace evs.
Proof. intros H. rewrite amp_trace_app. cbn. by rewrite H, app_nil_r. Qed.

Lemma template_data_keeps st st' p :
  keeps st st' → baseTemplateData st' = baseTemplateData st → p < length (store st) →
  template_data st' p = template_data st p.
Proof. intros (_ & Hfr & _) Hb Hp. unfold template_data. by rewrite Hb, Hfr. Qed.

Lemma page_requests_keeps ampGenerate st st' names pages :
  keeps st st' → baseTemplateData st' = baseTemplateData st →
  Forall (λ p, p < length (store st)) pages →
  page_requests ampGenerate st' names pages = page_requests ampGenerate st names pages.
Proof.
  intros Hk Hb Hall. unfold page_requests. f_equal. revert names.
  induction Hall as [|p pages Hp _ IH]; intros [|name names]; try done.
  cbn. by rewrite IH, (template_data_keeps st st').
Qed.

Lemma page_requests_app ampGenerate st names1 names2 pages1 pages2 :
  length names1 = length pages1 →
  page_requests ampGenerate st (names1 ++ names2) (pages1 ++ pages2)
  = page_requests ampGenerate st names1 pages1 ++ page_requests ampGenerate st names2 pages2.
Proof. intros Hlen. unfold page_requests. by rewrite zip_with_app, concat_app. Qed.

Lemma amp_path_keeps st st' p :
  keeps st st' → p < length (store st) → amp_path p st → amp_path p st'.
Proof.
  intros (_ & Hfr & _) Hp (s & (o1 & Ho1 & H1) & (o2 & Ho2 & H2)). exists s.
  split; [exists o1|exists o2]; by rewrite Hfr.
Qed.

Lemma content_files_length src dir :
  length (content_files src dir) = length (content_names dir).
Proof.
  revert src. induction dir as [data content|config entries IH] using node_rect';
    intros src; [done|].
  cbn [content_files content_names]. rewrite !length_app, !length_map. f_equal.
  induction IH as [|[name child] entries Hchild _ IHentries]; [done|].
  cbn [map concat]. rewrite !length_app, IHentries. f_equal.
  destruct child; [done|]. apply Hchild.
Qed.

Section Requests.
Variable styles : list (string * string).
Variable marked : string → string.
Variable getTemplate : value → obj → string.
Variable ampGenerate : obj → option string.

Lemma resolvePath_amp_path l pkg dest st :
  l < length (store st) →
  wp any_exn (resolvePath l pkg dest) (λ _ st', amp_path l st') st.
Proof.
  intros Hl. unfold resolvePath, renderAmpPages. repeat wp_step.
  all: eexists; split;
    [apply field_setp_ne; [done|]; apply field_setp_eq
    |apply field_setp_eq]; cbn; by rewrite ?length_alter.
Qed.

Lemma renderContentFile_amp_path l dest data content st :
  data !! "path" = None → data !! "path_amp" = None → l < length (store st) →
  wp any_exn (renderContentFile marked getTemplate l dest data content)
     (λ r st', r.1 = l ∧ amp_path l st') st.
Proof.
  intros Hdp Hda Hl. unfold renderContentFile. wp_step. wp_step.
  wp_call (resolveDateAndSlug_grows 0 st quiet) as ? st1 (Hlen1 & _);
    [apply grows_refl|lia|].
  wp_call resolvePath_amp_path as ? st2 (s & Hp2 & Ha2); [lia|].
  apply wp_bind. eapply wp_post.
  { apply wp_conj;
      [by apply (parseContentFile_keeps marked l data content "path" (VStr s))
      |by apply (parseContentFile_keeps marked l data content "path_amp"
                   (VStr (s +:+ "amp.html")))]. }
  cbn beta. intros contentFile st3 (Hp3 & Ha3).
  repeat wp_step; (split; [done|]); exists s; split; field_solve.
Qed.

Lemma processContentFile_amp_path src dest cur name data content st :
  data !! "path" = None → data !! "path_amp" = None →
  wp any_exn
     (processContentFile marked getTemplate ampGenerate src dest cur (name, File data content))
     (λ page st', amp_path page st') st.
Proof.
  intros Hdp Hda. unfold processContentFile, renderAmpPages. cbn [fst snd]. do 8 wp_step.
  wp_call renderContentFile_amp_path as [r td] st2 (Hr & s & Hp & Ha).
  { cbn. rewrite !length_alter, length_app. cbn. lia. }
  cbn [fst snd] in *. subst r.
  repeat wp_step; exists s; split; field_solve.
Qed.

(** The requests and the messages of one content file. *)
Lemma processContentFile_requests src dest cur name data content st :
  ready st →
  wp any_exn
     (processContentFile marked getTemplate ampGenerate src dest cur (name, File data content))
     (λ page st',
        amp_trace (events st')
        = amp_trace (events st)
          ++ amp_events ampGenerate true name (template_data st' page)) st.
Proof.
  intros (Hi & Ht & Ha).
  eapply wp_post.
  { apply wp_conj.
    - apply (processContentFile_events marked getTemplate ampGenerate).
    - apply (processContentFile_grows marked getTemplate ampGenerate 0 st);
        [apply grows_refl|lia]. }
  cbn beta. intros page st' ((o & p & Ho & Hp & Hev) & (_ & _ & _ & Hgen)).
  destruct (Hgen Hi) as (_ & _ & _ & Hb & _).
  cbv zeta in Hev. rewrite Hev, Ha, !amp_trace_app, amp_trace_amp_events. cbn [amp_trace List.filter is_amp_event].
  unfold template_data. by rewrite Hb, Ho.
Qed.
End Requests.

Lemma grows_baseTemplateData n φ st0 st :
  initialized st0 = true → grows n φ st0 st → baseTemplateData st = baseTemplateData st0.
Proof. intros Hi (_ & _ & _ & Hgen). by destruct (Hgen Hi) as (_ & _ & _ & ? & _). Qed.

Lemma amp_path_emit p e st : amp_path p st → amp_path p (set_events (λ t, t ++ [e]) st).
Proof. done. Qed.

Lemma amp_trace_copies {A} (f : A → string * string) xs :
  amp_trace (map (λ x, CopyFile (f x).1 (f x).2) xs) = [].
Proof. by induction xs. Qed.

Lemma content_names_entries config entries src :
  content_names (Directory config entries)
  = map fst (List.filter (λ e : string * node, is_content e.1 e.2) entries)
    ++ below (λ _, content_names) src entries.
Proof. reflexivity. Qed.

Section TreeRequests.
Variable styles : list (string * string).
Variable marked : string → string.
Variable getTemplate : value → obj → string.
Variable ampGenerate : obj → option string.

(** The requests and the messages of the content files of one directory. *)
Lemma processContentFiles_requests src entries dest cur st :
  ready st →
  wp any_exn (processContentFiles marked getTemplate ampGenerate src entries dest cur)
     (λ pages st',
        let names := map fst (List.filter (λ e : string * node, is_content e.1 e.2) entries) in
        length pages = length names
        ∧ Forall (λ p, p < length (store st')) pages
        ∧ amp_trace (events st')
          = amp_trace (events st) ++ page_requests ampGenerate st' names pages
        ∧ (Forall (λ e : string * node, front_matter_lacks "path" e.2) entries →
           Forall (λ e : string * node, front_matter_lacks "path_amp" e.2) entries →
           Forall (λ p, amp_path p st') pages)) st.
Proof.
  intros Hr. unfold processContentFiles.
  set (files := List.filter (λ e : string * node, is_content e.1 e.2) entries).
  eapply wp_post.
  { apply wp_for_of_prefix
      with (I := λ pre acc s,
                   ready s ∧ keeps st s ∧ baseTemplateData s = baseTemplateData st
                   ∧ length acc = length pre
                   ∧ Forall (λ p, p < length (store s)) acc
                   ∧ amp_trace (events s)
                     = amp_trace (events st) ++ page_requests ampGenerate s (map fst pre) acc
                   ∧ (Forall (λ e : string * node, front_matter_lacks "path" e.2) pre →
                      Forall (λ e : string * node, front_matter_lacks "path_amp" e.2) pre →
                      Forall (λ p, amp_path p s) acc)).
    - split; [done|]. split; [apply keeps_refl|]. split; [done|]. split; [done|].
      split; [constructor|]. split; [by rewrite app_nil_r|]. constructor.
    - intros pre [name child] post acc s Hfiles (Hr' & Hk & Hb & Hlen & Hbound & Hev & Hamp).
      assert (Hx : (name, child) ∈ files) by (rewrite Hfiles; set_solver).
      apply list_elem_of_In, filter_In in Hx as [_ Hcontent]. cbn [fst snd] in Hcontent.
      destruct child as [data content|c es].
      2: { unfold is_content in Hcontent. cbn [isDirectory negb] in Hcontent.
           by rewrite andb_false_r in Hcontent. }
      apply wp_bind. eapply wp_post.
      { apply wp_conj; [by apply processContentFile_requests|].
        apply wp_conj; [apply (processContentFile_outputs marked getTemplate ampGenerate)|].
        apply wp_conj.
        - apply (processContentFile_grows marked getTemplate ampGenerate 0 s);
            [apply grows_refl|lia].
        - apply wp_impl with (P := data !! "path" = None ∧ data !! "path_amp" = None).
          intros [? ?]. by apply processContentFile_amp_path. }
      cbn beta. intros page s' (Hreq & (Hpage & Hk' & Hlen' & _) & Hg & Hpath).
      pose proof Hr' as (Hi & _).
      pose proof (grows_baseTemplateData _ _ _ _ Hi Hg) as Hb'.
      wp_step. split; [by eapply ready_grows|]. split; [by eapply keeps_trans|].
      split; [congruence|]. split; [rewrite !length_app; cbn; lia|].
      split.
      { apply Forall_app. split; [|constructor; [lia|constructor]].
        eapply Forall_impl; [exact Hbound|]. cbn beta. intros p Hp. lia. }
      split.
      { rewrite Hreq, Hev, map_app, page_requests_app by (by rewrite length_map).
        rewrite <- app_assoc. do 2 f_equal.
        - symmetry. by apply page_requests_keeps.
        - unfold page_requests. cbn. by rewrite app_nil_r. }
      intros [Hp1 Hp2]%Forall_app [Ha1 Ha2]%Forall_app.
      apply Forall_inv in Hp2, Ha2. cbn in Hp2, Ha2.
      apply Forall_app. split; [|constructor; [by apply Hpath|constructor]].
      eapply Forall_impl.
      { apply Forall_and. split; [exact Hbound|by apply Hamp]. }
      cbn beta. intros p [Hp Hq]. by eapply amp_path_keeps. }
  cbn beta. intros pages st' (_ & _ & _ & Hlen & Hbound & Hev & Hamp). cbv zeta.
  fold files. split; [by rewrite length_map|]. split; [done|]. split; [done|].
  intros Hp Ha. apply Hamp.
  - subst files. clear -Hp. induction Hp as [|e es He _ IH]; [constructor|]. cbn.
    destruct (is_content e.1 e.2); [by constructor|done].
  - subst files. clear -Ha. induction Ha as [|e es He _ IH]; [constructor|]. cbn.
    destruct (is_content e.1 e.2); [by constructor|done].
Qed.

(** The requests and the messages of a run: one request per page of the
    list, in the order of the list. *)
Lemma generate_requests dir :
  ∀ base src dest st,
    constructed st →
    wp any_exn (generate styles marked getTemplate ampGenerate base src dest dir)
       (λ pages st',
          length pages = length (content_names dir)
          ∧ Forall (λ p, p < length (store st')) pages
          ∧ amp_trace (events st')
            = amp_trace (events st) ++ page_requests ampGenerate st' (content_names dir) pages
          ∧ (front_matter_lacks "path" dir → front_matter_lacks "path_amp" dir →
             Forall (λ p, amp_path p st') pages)) st.
Proof.
  induction dir as [data content|config entries IH] using node_rect';
    intros base src dest st Hcon; [done|].
  cbn [generate].
  wp_call (initialize_grows styles 0 quiet) as ? st1 (_ & Hr1 & _ & Hs1 & He1).
  apply wp_bind. eapply wp_post.
  { apply wp_conj; [apply resolveDirectory_exact|].
    apply (resolveDirectory_grows 0 st1 quiet); [apply grows_refl|lia]. }
  cbn beta. intros [cur odest] st2 ((Hcur & Hs2 & He2) & (Hg2 & _)). cbn [fst snd] in *.
  assert (Hr2 : ready st2) by (by eapply ready_grows).
  wp_step. wp_step. apply wp_bind. unfold wp at 1. rewrite processAssetFiles_run.
  match goal with |- wp _ _ _ ?s => set (st4 := s) end.
  assert (Hr4 : ready st4) by done.
  assert (He4 : amp_trace (events st4) = amp_trace (events st)).
  { subst st4. cbn [events set_events]. rewrite He2, He1, !amp_trace_app.
    rewrite (amp_trace_copies (λ e : string * node,
                                 (Path.join [src; e.1], Path.join [odest; e.1]))).
    cbn. by rewrite !app_nil_r. }
  clearbody st4.
  rewrite (content_names_entries config entries src).
  set (own_names := map fst (List.filter (λ e : string * node, is_content e.1 e.2) entries)).
  apply wp_bind. eapply wp_post.
  { apply wp_conj; [by apply processContentFiles_requests|].
    apply wp_conj; [apply (processContentFiles_outputs marked getTemplate ampGenerate)|].
    apply (processContentFiles_grows marked getTemplate ampGenerate 0 st4);
      [apply grows_refl|lia]. }
  cbn beta. intros own st5 ((Hlen5 & Hbound5 & Hev5 & Hamp5) & (Hk5 & _) & Hg5).
  cbv zeta in Hlen5, Hev5. fold own_names in Hlen5, Hev5.
  assert (Hr5 : ready st5) by (by eapply ready_grows).
  apply wp_bind. eapply wp_post.
  { apply wp_for_of_prefix
      with (I := λ pre acc s,
                   ready s
                   ∧ length acc = length (own_names ++ below (λ _, content_names) src pre)
                   ∧ Forall (λ p, p < length (store s)) acc
                   ∧ amp_trace (events s)
                     = amp_trace (events st)
                       ++ page_requests ampGenerate s
                            (own_names ++ below (λ _, content_names) src pre) acc
                   ∧ (front_matter_lacks "path" (Directory config entries) →
                      front_matter_lacks "path_amp" (Directory config entries) →
                      Forall (λ p, amp_path p s) acc)).
    - unfold below. cbn [map concat]. rewrite app_nil_r. split; [done|]. split; [done|].
      split; [done|]. split; [by rewrite Hev5, He4|].
      intros Hp%front_matter_lacks_entries Ha%front_matter_lacks_entries. by apply Hamp5.
    - intros pre [name child] post acc s Hentries (Hr & Hlen & Hbound & Hev & Hamp).
      rewrite !below_snoc.
      destruct child as [|c es]; cbv beta iota.
      { wp_step. rewrite !app_nil_r. done. }
      assert (Hin : (name, Directory c es) ∈ entries).
      { rewrite Hentries. set_solver. }
      rewrite Forall_forall in IH. specialize (IH _ Hin). cbn [snd] in IH.
      apply wp_bind. eapply wp_post.
      { apply wp_conj; [apply IH|apply (generate_grows _ _ _ _ _ (length (store s)))]; try done.
        all: intros _; by destruct Hr as (_ & ? & ?). }
      cbn beta. intros sub s' ((Hlen' & Hbound' & Hev' & Hamp') & Hg' & Hr').
      pose proof Hr as (Hi & _).
      assert (Hk' : keeps s s') by (by eapply grows_keeps).
      pose proof (grows_baseTemplateData _ _ _ _ Hi Hg') as Hb'.
      wp_step. split; [done|]. split; [rewrite app_assoc, !length_app in *; lia|].
      split.
      { apply Forall_app. split; [|done]. destruct Hk' as (Hle & _).
        eapply Forall_impl; [exact Hbound|]. cbn beta. intros p Hp. lia. }
      split.
      { rewrite Hev', Hev, app_assoc, page_requests_app by done.
        rewrite <- app_assoc. do 2 f_equal. symmetry. by apply page_requests_keeps. }
      intros Hp Ha. apply Forall_app. split.
      + eapply Forall_impl.
        { apply Forall_and. split; [exact Hbound|by apply Hamp]. }
        cbn beta. intros p [Hp' Hq]. by eapply amp_path_keeps.
      + pose proof (proj1 (front_matter_lacks_entries _ _ _) Hp) as Hp'.
        pose proof (proj1 (front_matter_lacks_entries _ _ _) Ha) as Ha'.
        rewrite Forall_forall in Hp', Ha'. apply Hamp'; [by apply (Hp' _ Hin)|by apply (Ha' _ Hin)]. }
  cbn beta. intros pages s ((Hi & Ht & Ha) & Hlen & Hbound & Hev & Hamp).
  wp_step. wp_step. rewrite Ht. cbn [when]. wp_step. wp_step. wp_step.
  split; [done|]. split; [done|]. split.
  - cbn [events set_events]. rewrite amp_trace_emit by done. exact Hev.
  - intros Hp Hq. eapply Forall_impl; [by apply Hamp|]. cbn beta. intros p. apply amp_path_emit.
Qed.
End TreeRequests.

(** ** Template rendering and the pages of the subtree *)

(** C1. In every run of [generate] on a directory, the template pages of
    the directory are rendered by the last event of the run, after every
    content file and every recursive call. The page list handed to the
    template generator is the list the run returns, and it holds the pages
    of the whole subtree: the files written before the rendering are
    exactly the output files of its pages, in order; its pages are distinct
    objects created during the run, as many as the content files of the
    subtree, one for each of them (by its [source], when no front matter
    declares one); and it includes the page list of every template rendering
    of the subtree. *)
Theorem template_rendering_after_subtree styles marked getTemplate ampGenerate
    baseConfig sourceDirectory destDirectory dir st pages st' :
  constructed st →
  generate styles marked getTemplate ampGenerate baseConfig sourceDirectory destDirectory
           dir st = inr (pages, st') →
  ∃ evs config,
    events st' = events st ++ evs
                 ++ [TemplateGenerate sourceDirectory destDirectory config pages]
    ∧ Forall (includes_pages pages) evs
    ∧ write_targets evs = map (output_file st') pages
    ∧ NoDup pages
    ∧ Forall (λ p, length (store st) ≤ p < length (store st')) pages
    ∧ length pages = length (content_files sourceDirectory dir)
    ∧ (front_matter_lacks "source" dir →
       map (page_source st') pages = map VStr (content_files sourceDirectory dir)).
Proof.
  intros Hc Hrun.
  pose proof (generate_template_last styles marked getTemplate ampGenerate dir
                baseConfig sourceDirectory destDirectory st Hc) as Hlast.
  pose proof (generate_outputs styles marked getTemplate ampGenerate dir
                baseConfig sourceDirectory destDirectory st Hc) as Hout.
  pose proof (generate_requests styles marked getTemplate ampGenerate dir
                baseConfig sourceDirectory destDirectory st Hc) as Hreq.
  eapply wp_inr in Hlast; [|done]. eapply wp_inr in Hout; [|done].
  eapply wp_inr in Hreq; [|done].
  destruct Hlast as (_ & evs & config & Hev & Hinc).
  destruct Hout as ((Hnd & Hnew & Hw & _) & _ & Hsrc).
  destruct Hreq as (Hlen & _).
  exists evs, config. split; [done|]. split; [done|]. split.
  { rewrite Hev, !write_targets_app in Hw. cbn in Hw. rewrite app_nil_r in Hw.
    by apply app_inv_head in Hw. }
  split; [done|]. split; [done|]. split; [by rewrite content_files_length|done].
Qed.

Lemma template_rendering_after_subtree_witness :
  ∃ pages st' evs config,
    sample_generate amp_succeeds blog_site = inr (pages, st')
    ∧ events st' = events just_constructed ++ evs
                   ++ [TemplateGenerate "/site/content" "/site/_dist" config pages]
    ∧ Forall (includes_pages pages) evs
    ∧ write_targets evs = map (output_file st') pages
    ∧ NoDup pages
    ∧ Forall (λ p, length (store just_constructed) ≤ p < length (store st')) pages
    ∧ length pages = 4
    ∧ map (page_source st') pages = map VStr (content_files "/site/content" blog_site).
Proof.
  destruct blog_site_runs as (pages & st' & Hrun).
  destruct (template_rendering_after_subtree _ _ _ _ _ _ _ _ _ _ _
              constructed_just_constructed Hrun)
    as (evs & config & H1 & H2 & H3 & H4 & H5 & H6 & H7).
  exists pages, st', evs, config.
  split; [exact Hrun|]. split; [exact H1|]. split; [exact H2|]. split; [exact H3|].
  split; [exact H4|]. split; [exact H5|]. split; [exact H6|].
  apply H7. exact blog_site_lacks_source.
Defined.

(** ** Failures of the AMP generator are logged, and nothing more *)



